(** * Kortex: document cache, conversation store and turn orchestration

    A shallow embedding of the request handlers of [app.py]: [upload],
    [chat], [tutor] and [deep_dive], the two tables they read and write
    ([document_store], [conversations]) and the response generators that
    Flask drains after a handler has returned.

    Conventions of the embedding.
    - A table with a primary key is a finite map from the key column to
      the remaining columns of the row.
    - Pickled columns hold the value that [pickle.loads] gives back.
    - Python [bytes] and [str] are both [string]; one [ascii] stands for
      one byte, respectively one character.
    - Calls that leave the process (text extraction, embedding, language
      models, web search, the commit of a transaction) take their outcome
      from a [World]; pure library functions come from a [Platform].
    - The key of a conversation is the text [str(conv.id)]. The JSON body
      of [chat], [tutor] and [deep_dive] carries an id in that spelling,
      as the responses of the application give it; the header of an
      upload is any text, which the database reads as a [uuid].
    - Every handler also reports the external calls it made, in order, so
      that "no extraction was performed" is a statement about a list. *)

From Stdlib Require Import ZArith Ascii String.
From stdpp Require Import base strings list gmap.

Local Open Scope string_scope.
Local Open Scope Z_scope.

(** ** Python values *)

(** A call either returns or raises; [Exn] carries [str(e)]. *)
Inductive result (A : Type) : Type :=
| Ok (a : A)
| Exn (msg : string).
Arguments Ok {A} a.
Arguments Exn {A} msg.

(** Truth value of a [str]: only the empty string is false. *)
Definition truthy (s : string) : bool := negb (s =? "")%string.

(** Truth value of an optional [str]: [None] and [""] are false. *)
Definition truthy_opt (o : option string) : bool :=
  match o with
  | Some s => truthy s
  | None => false
  end.

(** [str.isspace] on the characters below 256. *)
Definition isspace (c : ascii) : bool :=
  let n := N_of_ascii c in
  ((9 <=? n) && (n <=? 13) || (28 <=? n) && (n <=? 32) || (n =? 133) || (n =? 160))%N.

Fixpoint lstrip (s : string) : string :=
  match s with
  | String c s' => if isspace c then lstrip s' else s
  | EmptyString => EmptyString
  end.

Fixpoint rstrip (s : string) : string :=
  match s with
  | EmptyString => EmptyString
  | String c s' =>
      match rstrip s' with
      | EmptyString => if isspace c then EmptyString else String c EmptyString
      | r => String c r
      end
  end.

(** [s.strip()] *)
Definition strip (s : string) : string := rstrip (lstrip s).

(** [len(s)] *)
Definition len (s : string) : Z := Z.of_nat (String.length s).

(** [s[:n]] for a non-negative [n]. *)
Definition prefix (n : Z) (s : string) : string := substring 0 (Z.to_nat n) s.

(** [sep.join(parts)] *)
Fixpoint join (sep : string) (parts : list string) : string :=
  match parts with
  | [] => ""
  | [p] => p
  | p :: rest => p +:+ sep +:+ join sep rest
  end.

(** The separator the source writes as ["\\n"]: a backslash and an [n]. *)
Definition BACKSLASH_N : string := "\n".

(** ** Tables *)

(** A pickled chunk list holds plain strings (what [upload] stores) or
    langchain [Document] objects. *)
Inductive chunk : Type :=
| ChunkStr (s : string)
| ChunkDocument (page_content : string).

(** Row of [document_store]; the key column is [doc_hash]. *)
Record DocumentStore : Type := {
  chunks : list chunk;
  faiss_index : string
}.

(** A history entry is a 3-tuple of strings:
    [('langchain', message, answer)] or [('gemini', role, text)]. *)
Definition entry : Type := string * string * string.

Definition tag (e : entry) : string := e.1.1.

(** Row of [conversations]; the key column is [id]. *)
Record Conversation : Type := {
  title : string;
  created_at : Z;
  doc_hash : option string;
  chat_history : list entry;
  tutor_curriculum : option string
}.

Record DB : Type := {
  documents : gmap string DocumentStore;
  conversations : gmap string Conversation
}.

(** ** Collaborators *)

(** Prompts handed to the Gemini model, by the values the source
    interpolates into them. *)
Inductive prompt : Type :=
| CurriculumPrompt (document_prefix : string)
| TutorPrompt (is_first_tutor_message : bool) (curriculum : option string)
    (gemini_history : list entry) (document_snippet : string) (message : string)
| QueryGenPrompt (document_prefix : string)
| SynthesisPrompt (document_prefix : string) (web_context : string).

(** External calls, as recorded in a handler's trace. *)
Inductive event : Type :=
| EvExtract (filename : string) (raw_text : string)
| EvChunk
| EvEmbed
| EvLLM (message : string)
| EvChain (question : string) (memory : list (string * string))
| EvGenerate (p : prompt)
| EvGenerateStream (p : prompt)
| EvSearch (query : string).

(** Pure library functions. *)
Class Platform : Type := {
  (** [hashlib.md5(b).hexdigest()] *)
  md5_hexdigest : string -> string;
  (** [werkzeug.utils.secure_filename] *)
  secure_filename : string -> string;
  (** [os.path.splitext(p)[1].lower()] *)
  splitext_lower : string -> string;
  (** [RecursiveCharacterTextSplitter(chunk_size, chunk_overlap).split_text] *)
  split_text : Z -> Z -> string -> list string;
  (** [json.loads] of a text expected to hold an array of strings *)
  json_loads : string -> result (list string);
  (** PostgreSQL's reading of a text that is compared with a [uuid]
      column: the id it spells, written as [str] writes a [UUID], or the
      message of the [DataError] when it spells none *)
  uuid_in : string -> result string
}.

(** Outcomes of the calls that leave the process during one request. *)
Record World : Type := {
  (** [SERPER_API_KEY], read from the environment at start-up *)
  SERPER_API_KEY : option string;
  (** pdfplumber: the text of each page ([None] when a page has none) *)
  pdfplumber_pages : string -> result (list (option string));
  (** fitz + pytesseract: the recognised text of each page image *)
  ocr_pages : string -> result (list string);
  (** python-docx: the text of each paragraph *)
  docx_paragraphs : string -> result (list string);
  (** [FAISS.from_texts(...)] followed by [serialize_to_bytes()] *)
  faiss_from_texts : list string -> result string;
  (** [FAISS.deserialize_from_bytes]: the exception, if it raises *)
  faiss_deserialize_exn : string -> option string;
  (** [uuid.uuid4()] for a new conversation, and [func.now()] *)
  uuid4 : string;
  now : Z;
  (** [session.commit()] in the handler: the exception, if it raises *)
  commit_exn : option string;
  (** [session.commit()] inside a response generator *)
  stream_commit_exn : option string;
  (** [Ollama.invoke] *)
  llm_invoke : string -> result string;
  (** the retrieval chain over a serialized index: [response.get('answer')] *)
  chain_call : string -> string -> list (string * string) -> result (option string);
  (** [model.generate_content(p).text] *)
  generate_content : prompt -> result string;
  (** [model.generate_content(p, stream=True)]: the [text] of each chunk,
      or the exception raised on reaching it *)
  generate_content_stream : prompt -> result (list (result string));
  (** SerpApi: the [snippet] of each organic result, when it has one *)
  search_organic : string -> result (list (option string))
}.

(** ** Responses *)

Inductive body : Type :=
| Error (msg : string)
| FileProcessed (conversation_id : string).

(** What a response generator does between two resumptions. *)
Inductive step : Type :=
| SYield (text : string)
| SCall (e : event)
| SPersist (conversation_id : string) (row : Conversation).

(** A generator whose external outcomes are fixed: its steps in program
    order, and whether it ends by returning or by an escaping exception. *)
Record generator : Type := {
  steps : list step;
  escaping : option string
}.

Inductive response : Type :=
| Json (status : Z) (b : body)
| Stream (g : generator).

(** ** Handler control flow *)

(** The body of a handler: falls through with a value, returns a response
    early, or raises. The trace is kept in all three cases. *)
Inductive flow (A : Type) : Type :=
| Next (a : A)
| Return (r : response)
| Raise (msg : string).
Arguments Next {A} a.
Arguments Return {A} r.
Arguments Raise {A} msg.

Definition handler (A : Type) : Type := list event * flow A.

Definition hret {A} (a : A) : handler A := ([], Next a).

Definition hbind {A B} (m : handler A) (f : A -> handler B) : handler B :=
  match m with
  | (t, Next a) => let '(t', r) := f a in ((t ++ t')%list, r)
  | (t, Return r) => (t, Return r)
  | (t, Raise e) => (t, Raise e)
  end.

Notation "'do' x <- m ; k" := (hbind m (fun x => k))
  (at level 10, x name, m at level 100, k at level 200, only parsing).
Notation "'do' ' p <- m ; k" := (hbind m (fun x => let 'p := x in k))
  (at level 10, p pattern, m at level 100, k at level 200, only parsing).
Notation "'run' m ; k" := (hbind m (fun _ => k))
  (at level 10, m at level 100, k at level 200, only parsing).

Definition hreturn {A} (r : response) : handler A := ([], Return r).
Definition hraise {A} (e : string) : handler A := ([], Raise e).

(** An external call: recorded, then its outcome. *)
Definition hcall {A} (e : event) (r : result A) : handler A :=
  ([e], match r with Ok a => Next a | Exn msg => Raise msg end).

(** [return r] when [c] holds. *)
Definition return_if (c : bool) (r : response) : handler unit :=
  if c then hreturn r else hret tt.

Definition rmap {A B} (f : A -> B) (r : result A) : result B :=
  match r with
  | Ok a => Ok (f a)
  | Exn e => Exn e
  end.

(** A computation of the process itself, which returns or raises. *)
Definition hlift {A} (r : result A) : handler A :=
  ([], match r with Ok a => Next a | Exn e => Raise e end).

(** ** Text extraction *)

(** The page loop of the pdfplumber branch. *)
Fixpoint pdf_page_text (pages : list (option string)) : string :=
  match pages with
  | [] => ""
  | Some page_text :: rest =>
      if truthy page_text then page_text +:+ BACKSLASH_N +:+ pdf_page_text rest
      else pdf_page_text rest
  | None :: rest => pdf_page_text rest
  end.

(** The loops that append every item followed by the separator. *)
Fixpoint lines_text (items : list string) : string :=
  match items with
  | [] => ""
  | t :: rest => t +:+ BACKSLASH_N +:+ lines_text rest
  end.

Section Ingestion.
Context `{Platform}.
Variable w : World.

Definition get_document_text (filepath file_content : string) : string :=
  let file_extension := splitext_lower filepath in
  if (file_extension =? ".pdf")%string then
    match pdfplumber_pages w file_content with
    | Exn _ => ""
    | Ok pages =>
        let text := pdf_page_text pages in
        if truthy (strip text) then text
        else
          match ocr_pages w file_content with
          | Exn _ => ""
          | Ok images => text +:+ lines_text images
          end
    end
  else if (file_extension =? ".docx")%string then
    match docx_paragraphs w file_content with
    | Exn _ => ""
    | Ok paras => lines_text paras
    end
  else "".

Definition get_text_chunks (text : string) : list string :=
  split_text 1000 200 text.

End Ingestion.

(** ** Outcome of a handler *)

(** What a handler leaves behind: its response, the committed tables and
    the external calls it made. *)
Record outcome : Type := {
  resp : response;
  db_after : DB;
  trace : list event
}.

(** [try: ... except Exception as e: session.rollback(); return on_error(e)]
    around a body that ends by committing [db'] and returning [r]. An
    early return commits nothing; neither does an exception. *)
Definition finish (on_error : string -> response) (db : DB)
    (m : handler (response * DB)) : outcome :=
  match m with
  | (t, Next (r, db')) => {| resp := r; db_after := db'; trace := t |}
  | (t, Return r) => {| resp := r; db_after := db; trace := t |}
  | (t, Raise e) => {| resp := on_error e; db_after := db; trace := t |}
  end.

Definition status_of (r : response) : Z :=
  match r with
  | Json status _ => status
  | Stream _ => 200
  end.

(** ** [/upload] *)

Record UploadRequest : Type := {
  (** [request.files.get('file')]: the client's file name and the bytes *)
  file : option (string * string);
  (** [request.headers.get('X-Conversation-ID')] *)
  X_Conversation_ID : option string
}.

Definition UNREADABLE : string :=
  "This document contains no readable text or is too short to analyze.".

Definition set_document (c : Conversation) (h filename : string) : Conversation :=
  {| title := filename; created_at := created_at c; doc_hash := Some h;
     chat_history := chat_history c; tutor_curriculum := tutor_curriculum c |}.

Section Upload.
Context `{Platform}.
Variable w : World.
Variable db : DB.

(** The document part of [upload] (from the query of [DocumentStore] to
    [session.add(new_doc)]): the session's view of [document_store] once
    the cached record was found or a new one was added. *)
Definition ingest (filename file_content h : string)
    : handler (gmap string DocumentStore) :=
  match documents db !! h with
  | Some _ => hret (documents db)
  | None =>
      let raw_text := get_document_text w filename file_content in
      do raw_text <- hcall (EvExtract filename raw_text) (Ok raw_text);
      run return_if (negb (truthy raw_text) || (len (strip raw_text) <? 50))
            (Json 400 (Error UNREADABLE));
      do text_chunks <- hcall EvChunk (Ok (get_text_chunks raw_text));
      do index <- hcall EvEmbed (faiss_from_texts w text_chunks);
      hret (<[h := {| chunks := ChunkStr <$> text_chunks; faiss_index := index |}]>
              (documents db))
  end.

(** The id that the text of a header denotes to the database. The [id]
    column is a [UUID]: the text is read as a [uuid] and ids are compared,
    not spellings, so every spelling of a stored id denotes it, and a text
    that spells no [uuid] makes the query raise. The table is keyed by
    [str(conv.id)], the spelling under which the application hands an id
    out; that spelling denotes the id it is the key of. *)
Definition denoted_id (text : string) : result string :=
  if bool_decide (is_Some (conversations db !! text)) then Ok text else uuid_in text.

(** [session.query(Conversation).filter_by(id=conv_id_header).first()]:
    the row and its key. *)
Definition conversation_by_id (text : string) : result (option (string * Conversation)) :=
  rmap (fun cid => (fun c => (cid, c)) <$> conversations db !! cid) (denoted_id text).

(** The conversation part of [upload] (from the read of the header to
    [session.add(conv)]): the row to write, its key, and whether it is a
    new row. The query is made only for a header that is present and not
    empty. *)
Definition attach (filename h : string) (conv_id_header : option string)
    : result (string * Conversation * bool) :=
  let conv :=
    match conv_id_header with
    | Some text => if truthy text then conversation_by_id text else Ok None
    | None => Ok None
    end in
  match conv with
  | Exn e => Exn e
  | Ok (Some (cid, c)) => Ok (cid, set_document c h filename, false)
  | Ok None =>
      Ok (uuid4 w,
          {| title := filename; created_at := now w; doc_hash := Some h;
             chat_history := []; tutor_curriculum := None |},
          true)
  end.

(** [session.commit()]: the insert of a new conversation fails on a key
    that is taken, and the commit itself may fail. *)
Definition commit_upload (docs : gmap string DocumentStore)
    (cid : string) (c : Conversation) (is_new : bool) : handler DB :=
  if is_new && bool_decide (is_Some (conversations db !! cid)) then
    hraise "duplicate key value violates unique constraint"
  else
    match commit_exn w with
    | Some e => hraise e
    | None => hret {| documents := docs; conversations := <[cid := c]> (conversations db) |}
    end.

Definition upload (req : UploadRequest) : outcome :=
  finish (fun e => Json 500 (Error ("An error occurred: " +:+ e))) db
    match file req with
    | None => hreturn (Json 400 (Error "No file part"))
    | Some (client_filename, file_content) =>
        run return_if (negb (truthy client_filename)) (Json 400 (Error "No file part"));
        let filename := secure_filename client_filename in
        let h := md5_hexdigest file_content in
        do docs <- ingest filename file_content h;
        do '(cid, c, is_new) <- hlift (attach filename h (X_Conversation_ID req));
        do db' <- commit_upload docs cid c is_new;
        hret (Json 200 (FileProcessed cid), db')
    end.

End Upload.

(** ** Response generators *)

(** The body of a generator function: the steps taken so far and either a
    value or the exception that is propagating. *)
Definition gen (A : Type) : Type := list step * result A.

Definition gret {A} (a : A) : gen A := ([], Ok a).

Definition gbind {A B} (m : gen A) (f : A -> gen B) : gen B :=
  match m with
  | (s, Ok a) => let '(s', r) := f a in ((s ++ s')%list, r)
  | (s, Exn e) => (s, Exn e)
  end.

Notation "'gdo' x <- m ; k" := (gbind m (fun x => k))
  (at level 10, x name, m at level 100, k at level 200, only parsing).
Notation "'grun' m ; k" := (gbind m (fun _ => k))
  (at level 10, m at level 100, k at level 200, only parsing).

Definition graise {A} (e : string) : gen A := ([], Exn e).

(** [yield text] *)
Definition gyield (text : string) : gen unit := ([SYield text], Ok tt).

(** An external call made while the response is being streamed. *)
Definition gcall {A} (e : event) (r : result A) : gen A := ([SCall e], r).

(** [conv_to_update = session.merge(conv)], the assignment of the new
    history and [session.commit()]: the row replaces the stored one, unless
    the commit raises. *)
Definition gpersist (commit : option string) (cid : string) (row : Conversation)
    : gen unit :=
  match commit with
  | Some e => graise e
  | None => ([SPersist cid row], Ok tt)
  end.

(** [try: m except Exception as e: h e] *)
Definition try_except {A} (m : gen A) (h : string -> gen A) : gen A :=
  match m with
  | (s, Exn e) => let '(s', r) := h e in ((s ++ s')%list, r)
  | (s, Ok a) => (s, Ok a)
  end.

Definition close_gen (m : gen unit) : generator :=
  {| steps := m.1;
     escaping := match m.2 with Ok _ => None | Exn e => Some e end |}.

(** [for chunk in stream: if chunk.text: yield chunk.text;
    full_response += chunk.text] *)
Fixpoint relay (stream : list (result string)) (full_response : string) : gen string :=
  match stream with
  | [] => gret full_response
  | Ok text :: rest =>
      if truthy text then
        grun gyield text;
        relay rest (full_response +:+ text)
      else relay rest full_response
  | Exn e :: _ => graise e
  end.

(** *** Draining a generator *)

(** The WSGI server resumes the generator until it is exhausted, or closes
    it after some chunks when the client has gone away. *)
Inductive consumer : Type :=
| Drain
| CloseAfter (n : nat).

Inductive termination : Type :=
| Completed
| Crashed (e : string)
| Closed.

Definition budget_of (c : consumer) : option nat :=
  match c with
  | Drain => None
  | CloseAfter n => Some n
  end.

Definition write_conversation (db : DB) (cid : string) (row : Conversation) : DB :=
  {| documents := documents db; conversations := <[cid := row]> (conversations db) |}.

(** Steps run only while the consumer still asks for a chunk; closing
    raises [GeneratorExit] at the pending [yield], which no handler of
    [Exception] catches. The result is the chunks delivered, the tables,
    the external calls made, and whether the consumer closed first. *)
Fixpoint exec (budget : option nat) (ss : list step) (db : DB)
    : list string * DB * list event * bool :=
  match budget, ss with
  | Some O, _ => ([], db, [], true)
  | _, [] => ([], db, [], false)
  | _, SYield text :: rest =>
      let '(out, db', ev, closed) := exec (Nat.pred <$> budget) rest db in
      (text :: out, db', ev, closed)
  | _, SCall e :: rest =>
      let '(out, db', ev, closed) := exec budget rest db in
      (out, db', e :: ev, closed)
  | _, SPersist cid row :: rest =>
      exec budget rest (write_conversation db cid row)
  end.

(** A request as the client sees it, with what it left behind. *)
Record served : Type := {
  status : Z;
  error : option string;
  delivered : list string;
  ended : option termination;
  db_final : DB;
  calls : list event
}.

Definition serve (c : consumer) (o : outcome) : served :=
  match resp o with
  | Json st b =>
      {| status := st;
         error := match b with Error msg => Some msg | FileProcessed _ => None end;
         delivered := []; ended := None;
         db_final := db_after o; calls := trace o |}
  | Stream g =>
      let '(out, db', ev, closed) := exec (budget_of c) (steps g) (db_after o) in
      {| status := 200; error := None; delivered := out;
         ended := Some (if closed : bool then Closed
                        else match escaping g with
                             | None => Completed
                             | Some e => Crashed e
                             end);
         db_final := db'; calls := (trace o ++ ev)%list |}
  end.

(** ** [/chat] *)

Record TurnRequest : Type := {
  (** [data.get('conversation_id')] and [data.get('message')] *)
  conversation_id : option string;
  message : option string
}.

Definition set_history (c : Conversation) (h : list entry) : Conversation :=
  {| title := title c; created_at := created_at c; doc_hash := doc_hash c;
     chat_history := h; tutor_curriculum := tutor_curriculum c |}.

(** [[(item[1], item[2]) for item in chat_history_list
      if len(item) == 3 and item[0] == 'langchain']]; every entry is a
    3-tuple. *)
Definition langchain_history_format (chat_history_list : list entry)
    : list (string * string) :=
  (fun item : entry => (item.1.2, item.2))
    <$> filter (fun item => tag item = "langchain") chat_history_list.

Definition NO_ANSWER : string := "Sorry, I could not find an answer.".

Section Chat.
Variable w : World.
Variable db : DB.

Definition generate_general (cid : string) (conv : Conversation)
    (message : string) (chat_history_list : list entry) : generator :=
  close_gen
    (gdo response <- gcall (EvLLM message) (llm_invoke w message);
     grun gyield response;
     let chat_history_list :=
       (chat_history_list ++ [("langchain", message, response)])%list in
     gpersist (stream_commit_exn w) cid (set_history conv chat_history_list)).

Definition generate_doc_chat (cid : string) (conv : Conversation)
    (doc_store : DocumentStore) (message : string)
    (chat_history_list : list entry) : generator :=
  let langchain_history := langchain_history_format chat_history_list in
  close_gen
    (gdo response <- gcall (EvChain message langchain_history)
                       (chain_call w (faiss_index doc_store) message langchain_history);
     let answer := default NO_ANSWER response in
     grun gyield answer;
     let chat_history_list :=
       (chat_history_list ++ [("langchain", message, answer)])%list in
     gpersist (stream_commit_exn w) cid (set_history conv chat_history_list)).

Definition chat (req : TurnRequest) : outcome :=
  finish (fun e => Json 500 (Error ("An error occurred: " +:+ e))) db
    match conversation_id req, message req with
    | Some cid, Some message =>
        run return_if (negb (truthy cid && truthy message))
              (Json 400 (Error "Missing conversation_id or message"));
        match conversations db !! cid with
        | None => hreturn (Json 404 (Error "Conversation not found"))
        | Some conv =>
            let chat_history_list := chat_history conv in
            match doc_hash conv with
            | Some h =>
                if truthy h then
                  match documents db !! h with
                  | None => hreturn (Json 404 (Error "Document data not found"))
                  | Some doc_store =>
                      match faiss_deserialize_exn w (faiss_index doc_store) with
                      | Some e => hraise e
                      | None =>
                          hreturn (Stream (generate_doc_chat cid conv doc_store
                                             message chat_history_list))
                      end
                  end
                else hreturn (Stream (generate_general cid conv message chat_history_list))
            | None => hreturn (Stream (generate_general cid conv message chat_history_list))
            end
        end
    | _, _ => hreturn (Json 400 (Error "Missing conversation_id or message"))
    end.

End Chat.

(** ** [/tutor] *)

(** [[chunk.page_content for chunk in loaded_chunks]]: a plain string has
    no such attribute. *)
Fixpoint page_contents (loaded_chunks : list chunk) : result (list string) :=
  match loaded_chunks with
  | [] => Ok []
  | ChunkDocument page_content :: rest =>
      match page_contents rest with
      | Ok l => Ok (page_content :: l)
      | Exn e => Exn e
      end
  | ChunkStr _ :: _ => Exn "'str' object has no attribute 'page_content'"
  end.

(** [str(n)] for a natural number. *)
Fixpoint str_nat_go (fuel n : nat) (acc : string) : string :=
  match fuel with
  | O => acc
  | S fuel' =>
      let acc' := String (ascii_of_nat (48 + n mod 10)%nat) acc in
      if (n <? 10)%nat then acc' else str_nat_go fuel' (n / 10)%nat acc'
  end.

Definition str_nat (n : nat) : string := str_nat_go (S n) n "".

(** The items of [sep.join(loaded_chunks)] from position [i] on: joining
    accepts only strings, and the [TypeError] names the position of the
    first item that is none. *)
Fixpoint str_items (i : nat) (loaded_chunks : list chunk) : result (list string) :=
  match loaded_chunks with
  | [] => Ok []
  | ChunkStr s :: rest =>
      match str_items (S i) rest with
      | Ok l => Ok (s :: l)
      | Exn e => Exn e
      end
  | ChunkDocument _ :: _ =>
      Exn ("sequence item " +:+ str_nat i +:+ ": expected str instance, Document found")
  end.

(** [document_context] as [tutor] builds it. *)
Definition tutor_document_context (loaded_chunks : list chunk) : result string :=
  match loaded_chunks with
  | ChunkDocument _ :: _ => rmap (join BACKSLASH_N) (page_contents loaded_chunks)
  | _ => rmap (join BACKSLASH_N) (str_items 0 loaded_chunks)
  end.

Definition set_curriculum (c : Conversation) (text : string) : Conversation :=
  {| title := title c; created_at := created_at c; doc_hash := doc_hash c;
     chat_history := chat_history c; tutor_curriculum := Some text |}.

Definition is_gemini (item : entry) : bool := (tag item =? "gemini")%string.

Definition TUTOR_ERROR : string := "I'm sorry, a critical error occurred. Error: ".

Section Tutor.
Variable w : World.
Variable db : DB.

(** The generator runs against the tables as the handler left them. *)
Definition generate_tutor_response (db1 : DB) (cid message : string)
    (document_context : string) (chat_history_list gemini_history : list entry)
    : generator :=
  close_gen
    (try_except
       (gdo fresh_conv <-
          match conversations db1 !! cid with
          | Some c => gret c
          | None => graise "'NoneType' object has no attribute 'tutor_curriculum'"
          end;
        let is_first_tutor_message := negb (existsb is_gemini chat_history_list) in
        let master_prompt :=
          TutorPrompt is_first_tutor_message (tutor_curriculum fresh_conv)
            gemini_history (prefix 4000 document_context) message in
        gdo response_stream <- gcall (EvGenerateStream master_prompt)
                                 (generate_content_stream w master_prompt);
        gdo full_response <- relay response_stream "";
        let chat_history_list :=
          (chat_history_list ++
             [("gemini", "user", message); ("gemini", "model", full_response)])%list in
        gpersist (stream_commit_exn w) cid (set_history fresh_conv chat_history_list))
       (fun e => gyield (TUTOR_ERROR +:+ e))).

(** [if not conv.tutor_curriculum: ...]: the tables after the block. *)
Definition ensure_curriculum (cid : string) (conv : Conversation)
    (document_context : string) : handler DB :=
  if truthy_opt (tutor_curriculum conv) then hret db
  else
    let curriculum_prompt := CurriculumPrompt (prefix 10000 document_context) in
    do text <- hcall (EvGenerate curriculum_prompt) (generate_content w curriculum_prompt);
    match commit_exn w with
    | Some e => hraise e
    | None => hret (write_conversation db cid (set_curriculum conv text))
    end.

Definition tutor (req : TurnRequest) : outcome :=
  finish (fun e => Json 500 (Error ("Analysis failed: " +:+ e))) db
    match conversation_id req, message req with
    | Some cid, Some message =>
        run return_if (negb (truthy cid && truthy message))
              (Json 400 (Error "Missing conversation_id or message"));
        match conversations db !! cid with
        | None => hreturn (Json 404 (Error "Conversation or document not found"))
        | Some conv =>
            run return_if (negb (truthy_opt (doc_hash conv)))
                  (Json 404 (Error "Conversation or document not found"));
            match documents db !! default "" (doc_hash conv) with
            | None => hreturn (Json 404 (Error "Document content not found"))
            | Some doc_store =>
                let loaded_chunks := chunks doc_store in
                do document_context <- hlift (tutor_document_context loaded_chunks);
                let chat_history_list := chat_history conv in
                let gemini_history :=
                  filter (fun item => tag item = "gemini") chat_history_list in
                do db1 <- ensure_curriculum cid conv document_context;
                hret (Stream (generate_tutor_response db1 cid message document_context
                                chat_history_list gemini_history),
                      db1)
            end
        end
    | _, _ => hreturn (Json 400 (Error "Missing conversation_id or message"))
    end.

End Tutor.

(** ** [/deep_dive] *)

(** [re.search(r'\[.*\]', text, re.DOTALL)]: from the first opening
    bracket to the last closing bracket after it. *)
Fixpoint after_first_open (s : string) : option string :=
  match s with
  | EmptyString => None
  | String c s' => if (c =? "[")%char then Some s' else after_first_open s'
  end.

Fixpoint through_last_close (s : string) : option string :=
  match s with
  | EmptyString => None
  | String c s' =>
      match through_last_close s' with
      | Some r => Some (String c r)
      | None => if (c =? "]")%char then Some (String c EmptyString) else None
      end
  end.

Definition re_search_array (text : string) : option string :=
  match after_first_open text with
  | Some s => String "[" <$> through_last_close s
  | None => None
  end.

(** [for result in organic_results[:3]: if "snippet" in result:
    web_context += result["snippet"] + "<br>"] *)
Fixpoint add_snippets (organic_results : list (option string)) (web_context : string)
    : string :=
  match organic_results with
  | [] => web_context
  | Some snippet :: rest => add_snippets rest (web_context +:+ snippet +:+ "<br>")
  | None :: rest => add_snippets rest web_context
  end.

Definition DEEP_DIVE_ERROR : string := "A critical error occurred during Deep Dive. Error: ".
Definition DEEP_DIVE_TURN : string := "Deep Dive Analysis".

Section DeepDive.
Context `{Platform}.
Variable w : World.
Variable db : DB.

Fixpoint search_web (queries : list string) (web_context : string) : gen string :=
  match queries with
  | [] => gret web_context
  | query :: rest =>
      grun gyield ("Searching for: '" +:+ query +:+ "'...<br>");
      gdo organic_results <- gcall (EvSearch query) (search_organic w query);
      search_web rest (add_snippets (take 3 organic_results) web_context)
  end.

Definition generate_deep_dive_response (cid : string) (conv : Conversation)
    (document_context : string) (chat_history_list : list entry) : generator :=
  close_gen
    (try_except
       (let query_gen_prompt := QueryGenPrompt (prefix 4000 document_context) in
        gdo response_text <- gcall (EvGenerate query_gen_prompt)
                               (generate_content w query_gen_prompt);
        gdo json_str <-
          match re_search_array response_text with
          | Some m => gret m
          | None => graise "AI failed to generate search queries."
          end;
        gdo queries <- (([], json_loads json_str) : gen (list string));
        grun gyield "Gathering live intelligence from the web...<br>";
        gdo web_context <- search_web queries "";
        grun gyield "<br>Synthesizing intelligence brief...<br><br>";
        let synthesis_prompt :=
          SynthesisPrompt (prefix 4000 document_context) web_context in
        gdo synthesis_stream <- gcall (EvGenerateStream synthesis_prompt)
                                  (generate_content_stream w synthesis_prompt);
        gdo full_response <- relay synthesis_stream "";
        let chat_history_list :=
          (chat_history_list ++
             [("gemini", "user", DEEP_DIVE_TURN); ("gemini", "model", full_response)])%list in
        gpersist (stream_commit_exn w) cid (set_history conv chat_history_list))
       (fun e => gyield (DEEP_DIVE_ERROR +:+ e))).

Definition deep_dive (req : TurnRequest) : outcome :=
  if negb (truthy_opt (SERPER_API_KEY w)) then
    {| resp := Json 500 (Error "Serper API key not configured");
       db_after := db; trace := [] |}
  else
    finish (fun e => Json 500 (Error ("Analysis failed: " +:+ e))) db
      match conversation_id req ≫= (fun cid => (fun c => (cid, c)) <$> conversations db !! cid) with
      | None => hreturn (Json 400 (Error "A document must be associated for a Deep Dive."))
      | Some (cid, conv) =>
          run return_if (negb (truthy_opt (doc_hash conv)))
                (Json 400 (Error "A document must be associated for a Deep Dive."));
          match documents db !! default "" (doc_hash conv) with
          | None => hreturn (Json 404 (Error "Document content not found."))
          | Some doc_store =>
              do document_context <-
                hlift (rmap (join BACKSLASH_N) (page_contents (chunks doc_store)));
              let chat_history_list := chat_history conv in
              hreturn (Stream (generate_deep_dive_response cid conv document_context
                                 chat_history_list))
          end
      end.

End DeepDive.

(** ** [/create_conversation] *)

Record CreateRequest : Type := {
  (** the [title] member of the JSON body: missing, [null], or a string *)
  json_title : option (option string)
}.

Inductive created : Type :=
| Created (conversation_id : string)
| CreateFailed (msg : string).

(** The driver's message for a [NULL] in the [title] column. *)
Definition NOT_NULL_TITLE : string :=
  "null value in column title violates not-null constraint".

Definition DUPLICATE_KEY : string :=
  "duplicate key value violates unique constraint".

(** [data.get('title', 'New Chat')] *)
Definition requested_title (req : CreateRequest) : option string :=
  match json_title req with
  | None => Some "New Chat"
  | Some title => title
  end.

(** The row and the answer are produced by the commit; a failure is
    answered with status 500 and [str(e)], the session rolled back. *)
Definition create_conversation (w : World) (db : DB) (req : CreateRequest)
    : created * DB :=
  match requested_title req with
  | None => (CreateFailed NOT_NULL_TITLE, db)
  | Some title =>
      if bool_decide (is_Some (conversations db !! uuid4 w)) then
        (CreateFailed DUPLICATE_KEY, db)
      else
        match commit_exn w with
        | Some e => (CreateFailed e, db)
        | None =>
            (Created (uuid4 w),
             write_conversation db (uuid4 w)
               {| title := title; created_at := now w; doc_hash := None;
                  chat_history := []; tutor_curriculum := None |})
        end
  end.

(** ** The application as a whole *)

(** A request to one of the five routes that touch the tables, with the
    way the client reads a streamed answer. *)
Inductive request : Type :=
| CreateConversation (req : CreateRequest)
| Upload (req : UploadRequest)
| Chat (req : TurnRequest) (c : consumer)
| Tutor (req : TurnRequest) (c : consumer)
| DeepDive (req : TurnRequest) (c : consumer).

(** The tables once the request was answered and its stream, if any, was
    drained or closed. *)
Definition handle `{Platform} (w : World) (db : DB) (r : request) : DB :=
  match r with
  | CreateConversation req => (create_conversation w db req).2
  | Upload req => db_after (upload w db req)
  | Chat req c => db_final (serve c (chat w db req))
  | Tutor req c => db_final (serve c (tutor w db req))
  | DeepDive req c => db_final (serve c (deep_dive w db req))
  end.

(** Requests answered one after the other, each in its own world. *)
Fixpoint handle_all `{Platform} (rs : list (World * request)) (db : DB) : DB :=
  match rs with
  | [] => db
  | (w, r) :: rest => handle_all rest (handle w db r)
  end.

(** * Vocabulary of the properties *)

(** ** Steps of a generator *)

Definition is_persist (s : step) : bool :=
  match s with
  | SPersist _ _ => true
  | _ => false
  end.

Definition persist_free (ss : list step) : Prop :=
  Forall (fun s => is_persist s = false) ss.

(** The chunks and the external calls of a step list, in order. *)
Fixpoint yields (ss : list step) : list string :=
  match ss with
  | [] => []
  | SYield text :: rest => text :: yields rest
  | _ :: rest => yields rest
  end.

Fixpoint events_of (ss : list step) : list event :=
  match ss with
  | [] => []
  | SCall e :: rest => e :: events_of rest
  | _ :: rest => events_of rest
  end.

(** The text a list of chunks adds up to. *)
Definition concat_text (l : list string) : string := foldr String.append "" l.

(** A generator that serves one turn of conversation [cid]: either it
    never writes, or its last step, after every chunk, stores [row] with
    the history extended by entries that [turn] relates to the chunks. *)
Inductive Turn (cid : string) (row : Conversation) (hist : list entry)
    (turn : list string -> list entry -> Prop) : generator -> Prop :=
| turn_dropped ss esc :
    persist_free ss ->
    Turn cid row hist turn {| steps := ss; escaping := esc |}
| turn_recorded pre es :
    persist_free pre ->
    turn (yields pre) es ->
    Turn cid row hist turn
      {| steps := pre ++ [SPersist cid (set_history row (hist ++ es))];
         escaping := None |}.

(** Every step of a body satisfies [S]. *)
Definition every {A} (S : step -> Prop) (m : gen A) : Prop := Forall S m.1.

(** A body that never writes. *)
Definition quiet {A} (m : gen A) : Prop := every (fun s => is_persist s = false) m.

(** The calls of a body whose call steps all satisfy [Q]. *)
Definition calls_only (Q : event -> Prop) (s : step) : Prop :=
  match s with
  | SCall e => Q e
  | _ => True
  end.

(** A body that serves a turn: it never writes, or it ends normally
    with the write of the extended history as its last step. *)
Definition shape (cid : string) (row : Conversation) (hist : list entry)
    (P : list string -> list entry -> Prop) (m : gen unit) : Prop :=
  quiet m
  \/ exists pre es,
       m = ((pre ++ [SPersist cid (set_history row (hist ++ es))])%list, Ok tt)
       /\ persist_free pre /\ P (yields pre) es.

(** ** Turns *)

(** The progress notices of a deep dive. *)
Definition GATHERING : string := "Gathering live intelligence from the web...<br>".
Definition SYNTHESIZING : string := "<br>Synthesizing intelligence brief...<br><br>".

Definition search_notice (query : string) : string :=
  "Searching for: '" +:+ query +:+ "'...<br>".

(** What a recorded turn adds to the history, given the chunks that were
    delivered. *)
Definition chat_turn (req : TurnRequest) (ys : list string) (es : list entry) : Prop :=
  exists msg answer,
    message req = Some msg /\ ys = [answer] /\ es = [("langchain", msg, answer)].

Definition tutor_turn (req : TurnRequest) (ys : list string) (es : list entry) : Prop :=
  exists msg,
    message req = Some msg
    /\ es = [("gemini", "user", msg); ("gemini", "model", concat_text ys)].

(** The chunks of a deep dive are the progress notices - the gathering
    notice, one search notice per query, the synthesis notice - followed
    by the chunks of the brief; the recorded answer is the whole brief. *)
Definition deep_dive_turn (ys : list string) (es : list entry) : Prop :=
  exists queries brief,
    ys = (GATHERING :: (search_notice <$> queries) ++ SYNTHESIZING :: brief)%list
    /\ es = [("gemini", "user", DEEP_DIVE_TURN); ("gemini", "model", concat_text brief)].


(** ** Runs of the handlers *)

Section UploadRuns.
Context `{Platform}.
Variable w : World.
Variable db : DB.

(** A run of [upload], by the way it ends. *)
Inductive UploadRun (req : UploadRequest) : outcome -> Prop :=
| run_no_file :
    match file req with
    | Some (client_filename, _) => truthy client_filename = false
    | None => True
    end ->
    UploadRun req {| resp := Json 400 (Error "No file part");
                     db_after := db; trace := [] |}
| run_unreadable client_filename file_content raw_text :
    file req = Some (client_filename, file_content) ->
    documents db !! md5_hexdigest file_content = None ->
    raw_text = get_document_text w (secure_filename client_filename) file_content ->
    negb (truthy raw_text) || (len (strip raw_text) <? 50) = true ->
    UploadRun req {| resp := Json 400 (Error UNREADABLE); db_after := db;
                     trace := [EvExtract (secure_filename client_filename) raw_text] |}
| run_failed client_filename file_content t e :
    file req = Some (client_filename, file_content) ->
    (t = [] /\ is_Some (documents db !! md5_hexdigest file_content)
     \/ exists raw_text,
          t = [EvExtract (secure_filename client_filename) raw_text; EvChunk; EvEmbed] /\
          documents db !! md5_hexdigest file_content = None /\
          negb (truthy raw_text) || (len (strip raw_text) <? 50) = false) ->
    UploadRun req {| resp := Json 500 (Error ("An error occurred: " +:+ e));
                     db_after := db; trace := t |}
| run_committed client_filename file_content t docs cid c is_new :
    file req = Some (client_filename, file_content) ->
    truthy client_filename = true ->
    ingest w db (secure_filename client_filename) file_content
      (md5_hexdigest file_content) = (t, Next docs) ->
    attach w db (secure_filename client_filename) (md5_hexdigest file_content)
      (X_Conversation_ID req) = Ok (cid, c, is_new) ->
    (is_new = true -> conversations db !! cid = None) ->
    UploadRun req {| resp := Json 200 (FileProcessed cid);
                     db_after := {| documents := docs;
                                    conversations := <[cid := c]> (conversations db) |};
                     trace := t |}.

End UploadRuns.

(** [chat]: refused with a JSON error, or answered by one of its two
    generators; the handler itself calls nothing and commits nothing. *)
Inductive ChatRun (w : World) (db : DB) (req : TurnRequest) : outcome -> Prop :=
| chat_refused st e :
    ChatRun w db req {| resp := Json st (Error e); db_after := db; trace := [] |}
| chat_plain cid msg conv :
    conversation_id req = Some cid -> message req = Some msg ->
    conversations db !! cid = Some conv ->
    truthy_opt (doc_hash conv) = false ->
    ChatRun w db req
      {| resp := Stream (generate_general w cid conv msg (chat_history conv));
         db_after := db; trace := [] |}
| chat_document cid msg conv h doc_store :
    conversation_id req = Some cid -> message req = Some msg ->
    conversations db !! cid = Some conv ->
    doc_hash conv = Some h -> documents db !! h = Some doc_store ->
    ChatRun w db req
      {| resp := Stream (generate_doc_chat w cid conv doc_store msg (chat_history conv));
         db_after := db; trace := [] |}.

(** [tutor]: refused, possibly after a curriculum was requested and not
    stored, or served from tables in which at most the curriculum of the
    conversation was filled in. *)
Inductive TutorRun (w : World) (db : DB) (req : TurnRequest) : outcome -> Prop :=
| tutor_refused st e t :
    (t = [] \/ exists cid conv p,
                 conversation_id req = Some cid
                 /\ conversations db !! cid = Some conv
                 /\ truthy_opt (tutor_curriculum conv) = false
                 /\ t = [EvGenerate (CurriculumPrompt p)]) ->
    TutorRun w db req {| resp := Json st (Error e); db_after := db; trace := t |}
| tutor_served cid msg conv doc_store ctx db1 t :
    conversation_id req = Some cid -> message req = Some msg ->
    conversations db !! cid = Some conv ->
    truthy_opt (doc_hash conv) = true ->
    documents db !! default "" (doc_hash conv) = Some doc_store ->
    (truthy_opt (tutor_curriculum conv) = true /\ db1 = db /\ t = []
     \/ truthy_opt (tutor_curriculum conv) = false
        /\ exists text p,
             db1 = write_conversation db cid (set_curriculum conv text)
             /\ t = [EvGenerate (CurriculumPrompt p)]) ->
    TutorRun w db req
      {| resp := Stream (generate_tutor_response w db1 cid msg ctx (chat_history conv)
                           (filter (fun item => tag item = "gemini") (chat_history conv)));
         db_after := db1; trace := t |}.

(** [deep_dive]: refused, or answered by its generator. *)
Inductive DeepDiveRun `{Platform} (w : World) (db : DB) (req : TurnRequest)
    : outcome -> Prop :=
| deep_dive_refused st e :
    DeepDiveRun w db req {| resp := Json st (Error e); db_after := db; trace := [] |}
| deep_dive_served cid conv ctx :
    conversation_id req = Some cid ->
    conversations db !! cid = Some conv ->
    truthy_opt (SERPER_API_KEY w) = true ->
    truthy_opt (doc_hash conv) = true ->
    DeepDiveRun w db req
      {| resp := Stream (generate_deep_dive_response w cid conv ctx (chat_history conv));
         db_after := db; trace := [] |}.

(** ** Sessions *)

(** One call of the tutor flow on a conversation: the world it meets, the
    message sent and how far the client reads. *)
Record TutorCall : Type := {
  call_world : World;
  call_message : option string;
  call_consumer : consumer
}.

(** Calls of [tutor] on conversation [cid], one after the other: the
    tables at the end and all external calls made. *)
Fixpoint tutor_session (cid : string) (session : list TutorCall) (db : DB)
    : DB * list event :=
  match session with
  | [] => (db, [])
  | k :: rest =>
      let s := serve (call_consumer k)
                 (tutor (call_world k) db
                    {| conversation_id := Some cid; message := call_message k |}) in
      let '(db', ev) := tutor_session cid rest (db_final s) in
      (db', (calls s ++ ev)%list)
  end.

Definition is_stream_call (e : event) : Prop := exists p, e = EvGenerateStream p.

(** ** Invariants of the tables *)

(** A conversation bound to a digest finds its document. *)
Definition bound_ok (docs : gmap string DocumentStore) (c : Conversation) : bool :=
  match doc_hash c with
  | Some h => negb (truthy h) || bool_decide (is_Some (docs !! h))
  | None => true
  end.

Definition well_bound (db : DB) : Prop :=
  map_Forall (fun _ c => bound_ok (documents db) c = true) (conversations db).

(** What never changes in a stored conversation, and what only grows. *)
Definition evolves (c c' : Conversation) : Prop :=
  created_at c' = created_at c
  /\ (exists more, chat_history c' = (chat_history c ++ more)%list)
  /\ (truthy_opt (tutor_curriculum c) = true ->
      tutor_curriculum c' = tutor_curriculum c).

(** [all_space s]: [s] is made of white space only. *)
Fixpoint all_space (s : string) : bool :=
  match s with
  | EmptyString => true
  | String c s' => isspace c && all_space s'
  end.

(** The chunks of a stream whose text is not empty. *)
Definition spoken (texts : list string) : list string :=
  filter (fun text => truthy text = true) texts.

(** ** Characters of a text *)

(** Occurrence of a character in a string. *)
Fixpoint occurs (c : ascii) (s : string) : bool :=
  match s with
  | EmptyString => false
  | String x s' => (x =? c)%char || occurs c s'
  end.

(** ** Acceptance of an upload *)

(** A text long enough to be analysed. *)
Definition readable (raw_text : string) : bool :=
  truthy raw_text && (50 <=? len (strip raw_text)).

(** The header names a stored conversation: it is present, not empty,
    and denotes the id of a stored row. *)
Definition header_matches `{Platform} (db : DB) (req : UploadRequest) : Prop :=
  exists text cid,
    X_Conversation_ID req = Some text /\ truthy text = true
    /\ denoted_id db text = Ok cid /\ is_Some (conversations db !! cid).

(** The header names no stored conversation: it is absent, or empty, or
    the text of a [uuid] that is the id of no stored row. *)
Definition header_unmatched `{Platform} (db : DB) (req : UploadRequest) : Prop :=
  forall text,
    X_Conversation_ID req = Some text -> truthy text = true ->
    exists cid, denoted_id db text = Ok cid /\ conversations db !! cid = None.

(** Everything an upload needs in order to be accepted. *)
Definition upload_accepts `{Platform} (w : World) (db : DB) (req : UploadRequest)
    : Prop :=
  exists client_filename file_content,
    file req = Some (client_filename, file_content)
    /\ truthy client_filename = true
    /\ (is_Some (documents db !! md5_hexdigest file_content)
        \/ (let raw_text :=
              get_document_text w (secure_filename client_filename) file_content in
            readable raw_text = true
            /\ exists index, faiss_from_texts w (get_text_chunks raw_text) = Ok index))
    /\ commit_exn w = None
    /\ (header_matches db req
        \/ (header_unmatched db req /\ conversations db !! uuid4 w = None)).

(** ** What one request may change *)

(** The row of a conversation after a turn: the history is extended, and
    only the tutor flow may fill in a curriculum that was missing. *)
Definition turn_update (tutoring : bool) (conv conv' : Conversation) : Prop :=
  title conv' = title conv
  /\ created_at conv' = created_at conv
  /\ doc_hash conv' = doc_hash conv
  /\ (exists more, chat_history conv' = (chat_history conv ++ more)%list)
  /\ (tutor_curriculum conv' = tutor_curriculum conv
      \/ (tutoring = true /\ truthy_opt (tutor_curriculum conv) = false)).

(** The tables after a turn: as before, or with the row of the request's
    conversation updated. *)
Definition turn_effect (tutoring : bool) (db : DB) (req : TurnRequest) (db' : DB)
    : Prop :=
  db' = db
  \/ exists cid conv conv',
       conversation_id req = Some cid
       /\ conversations db !! cid = Some conv
       /\ turn_update tutoring conv conv'
       /\ db' = write_conversation db cid conv'.

(** The tables after an upload: as before, or with the digest of the
    bytes cached and one conversation - new, or the one the header names -
    bound to it. *)
Definition upload_effect `{Platform} (db : DB) (req : UploadRequest) (db' : DB)
    : Prop :=
  db' = db
  \/ exists client_filename file_content d cid c,
       file req = Some (client_filename, file_content)
       /\ (documents db !! md5_hexdigest file_content = None
           \/ documents db !! md5_hexdigest file_content = Some d)
       /\ documents db' = <[md5_hexdigest file_content := d]> (documents db)
       /\ conversations db' = <[cid := c]> (conversations db)
       /\ doc_hash c = Some (md5_hexdigest file_content)
       /\ (conversations db !! cid = None /\ chat_history c = []
           \/ exists c0, conversations db !! cid = Some c0
                         /\ c = set_document c0 (md5_hexdigest file_content)
                                  (secure_filename client_filename)).

(** ** Streams read to the end *)

(** The tables after every write of a step list. *)
Fixpoint persisted (ss : list step) (db : DB) : DB :=
  match ss with
  | [] => db
  | SPersist cid row :: rest => persisted rest (write_conversation db cid row)
  | _ :: rest => persisted rest db
  end.

(** A body that returns only after its write. *)
Definition ok_persists {A} (m : gen A) : Prop :=
  forall a, m.2 = Ok a -> exists pre cid row, m.1 = (pre ++ [SPersist cid row])%list.

(** The steps of the search loop when every search answers. *)
Definition search_steps (queries : list string) : list step :=
  flat_map (fun query => [SYield (search_notice query); SCall (EvSearch query)]) queries.

(** The web context after the queries, given the organic results of each. *)
Definition web_context_of (results : string -> list (option string))
    (queries : list string) (web_context : string) : string :=
  foldl (fun acc query => add_snippets (take 3 (results query)) acc) web_context queries.

(** ** Streams guarded by a handler *)

(** How a stream read to the end finishes when its generator catches what
    fails: it completes, and either its last chunk is the error text and
    every history is as before, or the turn of the request is recorded. *)
Definition guarded_end (error_text : string)
    (turn : list string -> list entry -> Prop)
    (db : DB) (req : TurnRequest) (s : served) : Prop :=
  forall t,
    ended s = Some t ->
    t = Completed
    /\ ((exists e,
           last (delivered s) = Some (error_text +:+ e)
           /\ forall cid conv,
                conversations db !! cid = Some conv ->
                chat_history <$> conversations (db_final s) !! cid
                = Some (chat_history conv))
        \/ (exists cid conv es,
              conversation_id req = Some cid
              /\ conversations db !! cid = Some conv
              /\ turn (delivered s) es
              /\ chat_history <$> conversations (db_final s) !! cid
                 = Some (chat_history conv ++ es)%list)).

(** ** Documents as [upload] stores them *)

(** Every cached document holds the chunks as [upload] pickles them: a
    list of plain strings. *)
Definition plain_chunks (db : DB) : Prop :=
  map_Forall (fun _ d => exists texts, chunks d = ChunkStr <$> texts) (documents db).

(** ** A small installation to run the handlers on *)

(** The hyphenated spelling of a [uuid], in either case: 8, 4, 4, 4 and
    12 hexadecimal digits. *)
Definition hex_lower (c : ascii) : option ascii :=
  let n := N_of_ascii c in
  if ((48 <=? n) && (n <=? 57) || (97 <=? n) && (n <=? 102))%N then Some c
  else if ((65 <=? n) && (n <=? 70))%N then Some (ascii_of_N (n + 32))
  else None.

Fixpoint hyphenated_from (i : nat) (s : string) : option string :=
  match s with
  | EmptyString => if (i =? 36)%nat then Some EmptyString else None
  | String c s' =>
      if ((i =? 8) || (i =? 13) || (i =? 18) || (i =? 23))%nat then
        if (c =? "-")%char then String c <$> hyphenated_from (S i) s' else None
      else
        match hex_lower c with
        | Some c' => String c' <$> hyphenated_from (S i) s'
        | None => None
        end
  end.

(** Stand-ins for the library functions: the digest is the content behind
    a marker, file names are kept, the extension is the last four
    characters, a text is one chunk, the parsed array holds one query,
    and a [uuid] is read from its hyphenated spelling only. The ids of
    the stored conversations below are short labels. *)
Definition demo_platform : Platform := {|
  md5_hexdigest := fun b => "md5:" +:+ b;
  secure_filename := fun s => s;
  splitext_lower := fun s => substring (String.length s - 4) 4 s;
  split_text := fun _ _ text => [text];
  json_loads := fun _ => Ok ["kortex risks"];
  uuid_in := fun text =>
    match hyphenated_from 0 text with
    | Some cid => Ok cid
    | None => Exn ("invalid input syntax for type uuid: " +:+ text)
    end
|}.

(** A world in which a PDF has one page whose text is its bytes and every
    other collaborator answers, but for the search key, the chat model and
    the commit inside a generator, which are given. *)
Definition demo_world_with (key : option string) (llm : string -> result string)
    (stream_commit : option string) : World := {|
  SERPER_API_KEY := key;
  pdfplumber_pages := fun b => Ok [Some b];
  ocr_pages := fun _ => Ok [];
  docx_paragraphs := fun b => Ok [b];
  faiss_from_texts := fun _ => Ok "faiss-bytes";
  faiss_deserialize_exn := fun _ => None;
  uuid4 := "c-new";
  now := 1700000000;
  commit_exn := None;
  stream_commit_exn := stream_commit;
  llm_invoke := llm;
  chain_call := fun _ q _ => Ok (Some ("answer to " +:+ q));
  generate_content := fun p =>
    match p with
    | QueryGenPrompt _ => Ok "Queries: [kortex risks]"
    | _ => Ok "1. Basics 2. Practice"
    end;
  generate_content_stream := fun _ => Ok [Ok "Hello"; Ok ""; Ok " there"];
  search_organic := fun _ => Ok [Some "s1"; None; Some "s2"; Some "s3"; Some "s4"]
|}.

Definition demo_world : World :=
  demo_world_with (Some "serper-key") (fun m => Ok ("echo " +:+ m)) None.

Definition empty_db : DB := {| documents := ∅; conversations := ∅ |}.

Definition LONG_TEXT : string :=
  "The quick brown fox jumps over the lazy dog, twice over.".

(** Stored conversations: [c-1] has a document, a history on both
    channels and a curriculum; [c-2] has no document; [c-3] has a document
    and an empty curriculum; [c-4] is bound to a document whose chunks were
    stored as [Document] objects. *)
Definition studied_db : DB := {|
  documents :=
    {[ "md5:old" := {| chunks := [ChunkStr "old text"]; faiss_index := "old" |};
       "md5:legacy" := {| chunks := [ChunkDocument "legacy text"];
                          faiss_index := "legacy" |} ]};
  conversations :=
    {[ "c-1" := {| title := "old.pdf"; created_at := 1600000000;
                   doc_hash := Some "md5:old";
                   chat_history := [("langchain", "what is it?", "a fox");
                                    ("gemini", "user", "teach me");
                                    ("gemini", "model", "gladly")];
                   tutor_curriculum := Some "1. Foxes" |};
       "c-2" := {| title := "hello"; created_at := 1650000000;
                   doc_hash := None; chat_history := [];
                   tutor_curriculum := None |};
       "c-3" := {| title := "old.pdf"; created_at := 1660000000;
                   doc_hash := Some "md5:old"; chat_history := [];
                   tutor_curriculum := Some "" |};
       "c-4" := {| title := "legacy.pdf"; created_at := 1670000000;
                   doc_hash := Some "md5:legacy"; chat_history := [];
                   tutor_curriculum := None |} ]}
|}.

(** One request to each route, to be answered one after the other. *)
Definition sample_requests : list (World * request) :=
  [ (demo_world, Upload {| file := Some ("fox.pdf", LONG_TEXT);
                           X_Conversation_ID := Some "c-2" |});
    (demo_world, Chat {| conversation_id := Some "c-1"; message := Some "why?" |}
                   (CloseAfter 1));
    (demo_world, Tutor {| conversation_id := Some "c-3"; message := Some "begin" |}
                   Drain);
    (demo_world, DeepDive {| conversation_id := Some "c-4"; message := None |} Drain);
    (demo_world, CreateConversation {| json_title := Some (Some "notes") |}) ].

(** * Properties *)

(** ** Strings *)

Lemma truthy_false (s : string) : truthy s = false <-> s = "".
Proof.
  unfold truthy. rewrite negb_false_iff. apply String.eqb_eq.
Qed.

Lemma truthy_true (s : string) : truthy s = true <-> s <> "".
Proof.
  unfold truthy. rewrite negb_true_iff. apply String.eqb_neq.
Qed.

(** ** Sample runs *)

Example strip_sample : strip "  a b  " = "a b" /\ len BACKSLASH_N = 2.
Proof. done. Qed.

Example re_search_array_sample :
  re_search_array "see [x] and [y] ok" = Some "[x] and [y]"
  /\ re_search_array "] [ no" = None.
Proof. done. Qed.

(** A plain turn read to the end is recorded; the same turn abandoned
    after its only chunk is not. *)
Example chat_plain_sample :
  let req := {| conversation_id := Some "c-2"; message := Some "hi" |} in
  let s := serve Drain (chat demo_world studied_db req) in
  let s' := serve (CloseAfter 1) (chat demo_world studied_db req) in
  (delivered s = ["echo hi"] /\ ended s = Some Completed
   /\ chat_history <$> conversations (db_final s) !! "c-2"
      = Some [("langchain", "hi", "echo hi")])
  /\ (delivered s' = ["echo hi"] /\ ended s' = Some Closed
      /\ chat_history <$> conversations (db_final s') !! "c-2" = Some []).
Proof. vm_compute. done. Qed.

(** A deep dive over chunks stored as [Document] objects: the notices,
    the brief, and the turn recorded after them. *)
Example deep_dive_sample :
  let s := serve Drain (@deep_dive demo_platform demo_world studied_db
                          {| conversation_id := Some "c-4"; message := None |}) in
  delivered s = ["Gathering live intelligence from the web...<br>";
                 "Searching for: 'kortex risks'...<br>";
                 "<br>Synthesizing intelligence brief...<br><br>";
                 "Hello"; " there"]
  /\ calls s = [EvGenerate (QueryGenPrompt "legacy text");
                EvSearch "kortex risks";
                EvGenerateStream (SynthesisPrompt "legacy text" "s1<br>s2<br>")]
  /\ chat_history <$> conversations (db_final s) !! "c-4"
     = Some [("gemini", "user", "Deep Dive Analysis");
             ("gemini", "model", "Hello there")].
Proof. vm_compute. done. Qed.

(** Over chunks stored as plain strings, which is what [upload] stores,
    [deep_dive] fails while it builds the document context. *)
Example deep_dive_plain_chunks_sample :
  let s := serve Drain (@deep_dive demo_platform demo_world studied_db
                          {| conversation_id := Some "c-1"; message := None |}) in
  status s = 500
  /\ error s = Some "Analysis failed: 'str' object has no attribute 'page_content'"
  /\ calls s = [].
Proof. vm_compute. done. Qed.

(** ** Upload: the cases of a run *)

Section UploadFacts.
Context `{Platform}.
Variable w : World.
Variable db : DB.

(** A cached digest costs nothing. *)
Lemma ingest_hit filename file_content h d :
  documents db !! h = Some d ->
  ingest w db filename file_content h = ([], Next (documents db)).
Proof. intros Hd. unfold ingest. by rewrite Hd. Qed.

(** On a miss the text is extracted first; what follows depends on it. *)
Lemma ingest_miss filename file_content h :
  documents db !! h = None ->
  let raw_text := get_document_text w filename file_content in
  let extract := EvExtract filename raw_text in
  (negb (truthy raw_text) || (len (strip raw_text) <? 50) = true /\
   ingest w db filename file_content h = ([extract], Return (Json 400 (Error UNREADABLE))))
  \/ (negb (truthy raw_text) || (len (strip raw_text) <? 50) = false /\
      exists e, faiss_from_texts w (get_text_chunks raw_text) = Exn e /\
      ingest w db filename file_content h = ([extract; EvChunk; EvEmbed], Raise e))
  \/ (negb (truthy raw_text) || (len (strip raw_text) <? 50) = false /\
      exists index, faiss_from_texts w (get_text_chunks raw_text) = Ok index /\
      ingest w db filename file_content h =
        ([extract; EvChunk; EvEmbed],
         Next (<[h := {| chunks := ChunkStr <$> get_text_chunks raw_text;
                         faiss_index := index |}]> (documents db)))).
Proof.
  intros Hd raw_text extract. unfold ingest. rewrite Hd. fold raw_text.
  destruct (negb (truthy raw_text) || (len (strip raw_text) <? 50)) eqn:Hshort.
  - left. split; [done|]. cbn. by rewrite Hshort.
  - right. cbn. rewrite Hshort. cbn.
    destruct (faiss_from_texts w (get_text_chunks raw_text)) as [index|e] eqn:Hf.
    + right. split; [done|]. by exists index.
    + left. split; [done|]. by exists e.
Qed.

(** How [upload] ends once a file with a name was sent and the session
    holds [docs]: a storage error, or the commit of one conversation
    row. *)
Lemma upload_after_ingest client_filename file_content hdr t docs cid c is_new :
  truthy client_filename = true ->
  ingest w db (secure_filename client_filename) file_content
    (md5_hexdigest file_content) = (t, Next docs) ->
  attach w db (secure_filename client_filename) (md5_hexdigest file_content) hdr
    = Ok (cid, c, is_new) ->
  let u := upload w db {| file := Some (client_filename, file_content);
                          X_Conversation_ID := hdr |} in
  (exists e, u = {| resp := Json 500 (Error ("An error occurred: " +:+ e));
                    db_after := db; trace := t |})
  \/ (u = {| resp := Json 200 (FileProcessed cid);
             db_after := {| documents := docs;
                            conversations := <[cid := c]> (conversations db) |};
             trace := t |}
      /\ commit_exn w = None
      /\ (is_new = true -> conversations db !! cid = None)).
Proof.
  intros Hname Hing Hatt u. subst u.
  unfold upload, finish. cbn [file X_Conversation_ID].
  rewrite Hname. cbn [negb return_if hret hbind].
  rewrite Hing. cbn [hbind]. rewrite Hatt. cbn [hlift hbind]. unfold commit_upload.
  destruct (is_new && bool_decide (is_Some (conversations db !! cid))) eqn:Hdup.
  - cbn. rewrite !app_nil_r. left. eauto.
  - destruct (commit_exn w) as [e|]; cbn; rewrite !app_nil_r.
    + left. eauto.
    + right. split_and!; [done|done|].
      intros ->. cbn in Hdup. apply bool_decide_eq_false in Hdup.
      by apply eq_None_not_Some.
Qed.

(** How [upload] ends when the query of the conversation raises. *)
Lemma upload_attach_raise client_filename file_content hdr t docs e :
  truthy client_filename = true ->
  ingest w db (secure_filename client_filename) file_content
    (md5_hexdigest file_content) = (t, Next docs) ->
  attach w db (secure_filename client_filename) (md5_hexdigest file_content) hdr
    = Exn e ->
  upload w db {| file := Some (client_filename, file_content);
                 X_Conversation_ID := hdr |}
  = {| resp := Json 500 (Error ("An error occurred: " +:+ e));
       db_after := db; trace := t |}.
Proof.
  intros Hname Hing Hatt. unfold upload, finish. cbn [file X_Conversation_ID].
  rewrite Hname. cbn [negb return_if hret hbind].
  rewrite Hing. cbn [hbind]. rewrite Hatt. cbn. by rewrite !app_nil_r.
Qed.

(** How [upload] ends when the body returns early or raises in [ingest]. *)
Lemma upload_ingest_return client_filename file_content hdr t r :
  truthy client_filename = true ->
  ingest w db (secure_filename client_filename) file_content
    (md5_hexdigest file_content) = (t, Return r) ->
  upload w db {| file := Some (client_filename, file_content);
                 X_Conversation_ID := hdr |}
  = {| resp := r; db_after := db; trace := t |}.
Proof.
  intros Hname Hing. unfold upload, finish. cbn [file X_Conversation_ID].
  rewrite Hname. cbn [negb return_if hret hbind]. by rewrite Hing.
Qed.

Lemma upload_ingest_raise client_filename file_content hdr t e :
  truthy client_filename = true ->
  ingest w db (secure_filename client_filename) file_content
    (md5_hexdigest file_content) = (t, Raise e) ->
  upload w db {| file := Some (client_filename, file_content);
                 X_Conversation_ID := hdr |}
  = {| resp := Json 500 (Error ("An error occurred: " +:+ e));
       db_after := db; trace := t |}.
Proof.
  intros Hname Hing. unfold upload, finish. cbn [file X_Conversation_ID].
  rewrite Hname. cbn [negb return_if hret hbind]. by rewrite Hing.
Qed.

(** Without a named file nothing happens. *)
Lemma upload_no_file req :
  match file req with
  | Some (client_filename, _) => truthy client_filename = false
  | None => True
  end ->
  upload w db req
  = {| resp := Json 400 (Error "No file part"); db_after := db; trace := [] |}.
Proof.
  unfold upload, finish. destruct (file req) as [[n b]|]; [|done].
  intros ->. done.
Qed.

(** When [ingest] falls through, the digest was cached, or a readable
    document was chunked, embedded and added under its digest. *)
Lemma ingest_next filename file_content h t docs :
  ingest w db filename file_content h = (t, Next docs) ->
  (is_Some (documents db !! h) /\ t = [] /\ docs = documents db)
  \/ (documents db !! h = None /\
      let raw_text := get_document_text w filename file_content in
      negb (truthy raw_text) || (len (strip raw_text) <? 50) = false /\
      t = [EvExtract filename raw_text; EvChunk; EvEmbed] /\
      exists index,
        docs = <[h := {| chunks := ChunkStr <$> get_text_chunks raw_text;
                         faiss_index := index |}]> (documents db)).
Proof.
  intros Hing. destruct (documents db !! h) as [d|] eqn:Hd.
  - rewrite (ingest_hit _ _ _ d Hd) in Hing. simplify_eq. left. eauto.
  - right. split; [done|].
    destruct (ingest_miss filename file_content h Hd)
      as [[_ Heq]|[(_ & e & _ & Heq)|(Hlong & index & _ & Heq)]];
      rewrite Heq in Hing; simplify_eq.
    cbn zeta. split_and!; [done|done|]. by exists index.
Qed.

Lemma upload_run req : UploadRun w db req (upload w db req).
Proof.
  destruct req as [f hdr]. destruct f as [[name content]|]; cycle 1.
  { rewrite upload_no_file by done. by constructor. }
  destruct (truthy name) eqn:Hname; cycle 1.
  { rewrite upload_no_file by done. by constructor. }
  destruct (ingest w db (secure_filename name) content (md5_hexdigest content))
    as [t [docs|r|e]] eqn:Hing.
  - destruct (attach w db (secure_filename name) (md5_hexdigest content) hdr)
      as [[[cid c] is_new]|e] eqn:Hatt; cycle 1.
    { rewrite (upload_attach_raise _ _ _ _ _ _ Hname Hing Hatt).
      eapply run_failed; [done|].
      destruct (ingest_next _ _ _ _ _ Hing) as [(? & -> & _)|(? & ? & -> & _)]; eauto 6. }
    destruct (upload_after_ingest _ _ _ _ _ _ _ _ Hname Hing Hatt)
      as [[e ->]|(-> & _ & Hfresh)].
    + eapply run_failed; [done|].
      destruct (ingest_next _ _ _ _ _ Hing) as [(? & -> & _)|(? & ? & -> & _)]; eauto 6.
    + by eapply run_committed.
  - rewrite (upload_ingest_return _ _ _ _ _ Hname Hing).
    destruct (documents db !! md5_hexdigest content) as [d|] eqn:Hd.
    { rewrite (ingest_hit _ _ _ d Hd) in Hing. simplify_eq. }
    destruct (ingest_miss (secure_filename name) content _ Hd)
      as [[Hshort Heq]|[(_ & e & _ & Heq)|(_ & index & _ & Heq)]];
      rewrite Heq in Hing; simplify_eq.
    by eapply run_unreadable.
  - rewrite (upload_ingest_raise _ _ _ _ _ Hname Hing).
    destruct (documents db !! md5_hexdigest content) as [d|] eqn:Hd.
    { rewrite (ingest_hit _ _ _ d Hd) in Hing. simplify_eq. }
    destruct (ingest_miss (secure_filename name) content _ Hd)
      as [[Hshort Heq]|[(Hlong & e' & _ & Heq)|(_ & index & _ & Heq)]];
      rewrite Heq in Hing; simplify_eq.
    eapply run_failed; [done|]. right. eauto.
Qed.

(** A stored id denotes itself; any other text is read as a [uuid]. *)
Lemma denoted_id_stored text c :
  conversations db !! text = Some c -> denoted_id db text = Ok text.
Proof. intros Hc. unfold denoted_id. by rewrite Hc. Qed.

Lemma denoted_id_other text :
  conversations db !! text = None -> denoted_id db text = uuid_in text.
Proof. intros Hc. unfold denoted_id. by rewrite Hc. Qed.

(** The three ways the conversation part of [upload] can go. *)
Lemma attach_cases filename h hdr :
  (exists text cid c0,
     hdr = Some text /\ truthy text = true
     /\ denoted_id db text = Ok cid /\ conversations db !! cid = Some c0
     /\ attach w db filename h hdr = Ok (cid, set_document c0 h filename, false))
  \/ ((forall text, hdr = Some text -> truthy text = true ->
          exists cid, denoted_id db text = Ok cid /\ conversations db !! cid = None)
      /\ attach w db filename h hdr
         = Ok (uuid4 w,
               {| title := filename; created_at := now w; doc_hash := Some h;
                  chat_history := []; tutor_curriculum := None |},
               true))
  \/ (exists text e,
        hdr = Some text /\ truthy text = true
        /\ denoted_id db text = Exn e
        /\ attach w db filename h hdr = Exn e).
Proof.
  unfold attach, conversation_by_id.
  destruct hdr as [text|]; [|right; left; by split].
  destruct (truthy text) eqn:Ht; [|right; left; split; [intros ? [= <-]; congruence|done]].
  destruct (denoted_id db text) as [cid|e] eqn:Hid; cbn.
  - destruct (conversations db !! cid) as [c0|] eqn:Hc; cbn.
    + left. by exists text, cid, c0.
    + right. left. split; [|done]. intros ? [= <-] _. by exists cid.
  - right. right. by exists text, e.
Qed.

(** The row [attach] prepares is bound to the digest and titled with the
    file name; the other columns are the stored ones, or those of a new
    row. *)
Lemma attach_row filename h hdr cid c is_new :
  attach w db filename h hdr = Ok (cid, c, is_new) ->
  doc_hash c = Some h /\ title c = filename /\
  ((is_new = false
    /\ (exists text, hdr = Some text /\ truthy text = true
                     /\ denoted_id db text = Ok cid)
    /\ exists c0, conversations db !! cid = Some c0 /\ c = set_document c0 h filename)
   \/ (is_new = true /\ cid = uuid4 w /\
       c = {| title := filename; created_at := now w; doc_hash := Some h;
              chat_history := []; tutor_curriculum := None |} /\
       forall text, hdr = Some text -> truthy text = true ->
         exists cid', denoted_id db text = Ok cid' /\ conversations db !! cid' = None)).
Proof.
  intros Hatt.
  destruct (attach_cases filename h hdr)
    as [(text & cid' & c0 & Hhdr & Ht & Hid & Hc & Heq)
       |[(Hfree & Heq)|(text & e & _ & _ & _ & Heq)]];
    rewrite Heq in Hatt; simplify_eq; (split; [done|]); (split; [done|]).
  - left. split_and!; [done| |]; eauto.
  - right. by split_and!.
Qed.

(** On a table keyed by spellings that read as themselves - as [str]
    writes a [UUID] - the query is: read the text, then look the id up. *)
Lemma conversation_by_id_canonical text :
  (forall cid c, conversations db !! cid = Some c -> uuid_in cid = Ok cid) ->
  conversation_by_id db text
  = rmap (fun cid => (fun c => (cid, c)) <$> conversations db !! cid) (uuid_in text).
Proof.
  intros Hkeys. unfold conversation_by_id, denoted_id.
  destruct (conversations db !! text) as [c|] eqn:Hc; cbn; [|done].
  by rewrite (Hkeys _ _ Hc).
Qed.

(** A header that is the key of a stored row attaches to that row. *)
Lemma attach_stored filename h cid c0 :
  truthy cid = true ->
  conversations db !! cid = Some c0 ->
  attach w db filename h (Some cid) = Ok (cid, set_document c0 h filename, false).
Proof.
  intros Ht Hc. unfold attach, conversation_by_id.
  rewrite Ht, (denoted_id_stored _ _ Hc). cbn. by rewrite Hc.
Qed.

End UploadFacts.

(** ** Upload: ingestion *)

Lemma unreadable_short (raw_text : string) :
  raw_text = "" \/ len (strip raw_text) < 50 ->
  negb (truthy raw_text) || (len (strip raw_text) <? 50) = true.
Proof.
  intros [->|Hlt]; [done|].
  apply orb_true_iff. right. by apply Z.ltb_lt.
Qed.

(** C5. An upload whose extracted text is empty, or shorter than 50
    characters once stripped, is answered with status 400 and the
    "no readable text" error; the tables are left as they were and
    extraction is the only external work: no chunking, no embedding, no
    index. *)
Theorem upload_unreadable_rejected `{Platform} (w : World) (db : DB)
    (req : UploadRequest) (filename raw_text : string) :
  EvExtract filename raw_text ∈ trace (upload w db req) ->
  raw_text = "" \/ len (strip raw_text) < 50 ->
  resp (upload w db req) = Json 400 (Error UNREADABLE)
  /\ db_after (upload w db req) = db
  /\ trace (upload w db req) = [EvExtract filename raw_text].
Proof.
  intros Hin Hshort%unreadable_short.
  destruct (upload_run w db req) as
    [_|name content raw _ _ _ _|name content t e _ Ht|name content t docs cid c is_new _ _ Hing _ _];
    cbn in *.
  - by apply elem_of_nil in Hin.
  - apply list_elem_of_singleton in Hin. by simplify_eq.
  - destruct Ht as [[-> _]|(raw & -> & _ & Hlong)].
    + by apply elem_of_nil in Hin.
    + set_unfold. destruct Hin as [Heq|[Heq|[Heq|[]]]]; simplify_eq. congruence.
  - destruct (ingest_next _ _ _ _ _ _ _ Hing) as [(_ & -> & _)|(_ & Hlong & -> & _)].
    + by apply elem_of_nil in Hin.
    + set_unfold. destruct Hin as [Heq|[Heq|[Heq|[]]]]; simplify_eq. congruence.
Qed.

(** A document of ten characters of text: eight on its page and the
    two-character separator the page loop appends. *)
Lemma upload_unreadable_rejected_witness :
  let req := {| file := Some ("note.pdf", "tiny doc"); X_Conversation_ID := None |} in
  resp (@upload demo_platform demo_world empty_db req) = Json 400 (Error UNREADABLE)
  /\ db_after (@upload demo_platform demo_world empty_db req) = empty_db
  /\ trace (@upload demo_platform demo_world empty_db req)
     = [EvExtract "note.pdf" "tiny doc\n"].
Proof.
  apply (@upload_unreadable_rejected demo_platform demo_world empty_db).
  - vm_compute. left.
  - right. vm_compute. reflexivity.
Defined.

(** C1, as stated, fails on a file without readable text: after two
    uploads of the same bytes the cache holds no record for their digest,
    and the second upload extracts the text again. *)
Lemma upload_twice_unreadable_counterexample :
  let req := {| file := Some ("notes.txt", "hello"); X_Conversation_ID := None |} in
  let r1 := @upload demo_platform demo_world empty_db req in
  let r2 := @upload demo_platform demo_world (db_after r1) req in
  documents (db_after r2) !! "md5:hello" = None
  /\ resp r2 = Json 400 (Error UNREADABLE)
  /\ trace r2 = [EvExtract "notes.txt" ""].
Proof. vm_compute. done. Qed.

(** The row stored under the id a response names. *)
Ltac bound :=
  let cid := fresh "cid" in
  intros cid [= <-]; rewrite lookup_insert_eq; cbn; congruence.

(** C1, amended. When a first upload of some bytes is accepted, the cache
    is the old cache with one record under the digest of the bytes; a
    second upload of the same bytes, under any file name and header,
    leaves that record and the rest of the cache as they are, makes no
    external call at all (no extraction, chunking or embedding), and every
    conversation either upload answers with is bound to that digest. *)
Theorem upload_twice_idempotent `{Platform} (w1 w2 : World) (db : DB)
    (name1 name2 file_content : string) (hdr1 hdr2 : option string) :
  let h := md5_hexdigest file_content in
  let r1 := upload w1 db {| file := Some (name1, file_content);
                            X_Conversation_ID := hdr1 |} in
  let r2 := upload w2 (db_after r1) {| file := Some (name2, file_content);
                                       X_Conversation_ID := hdr2 |} in
  status_of (resp r1) = 200 ->
  (exists d, documents (db_after r1) = <[h := d]> (documents db)
             /\ documents (db_after r2) = <[h := d]> (documents db))
  /\ trace r2 = []
  /\ (forall cid, resp r1 = Json 200 (FileProcessed cid) ->
                  doc_hash <$> conversations (db_after r1) !! cid = Some (Some h))
  /\ (forall cid, resp r2 = Json 200 (FileProcessed cid) ->
                  doc_hash <$> conversations (db_after r2) !! cid = Some (Some h)).
Proof.
  intros h r1 r2 Hok. subst r1 r2.
  destruct (upload_run w1 db {| file := Some (name1, file_content);
                                X_Conversation_ID := hdr1 |}) as
    [ | | |n1 c1 t1 docs1 cid1 row1 new1 Hf1 _ Hing1 Hatt1 _]; try discriminate Hok.
  cbn in Hf1. injection Hf1 as <- <-. cbn [db_after resp].
  assert (exists d, documents db !! h = None /\ docs1 = <[h := d]> (documents db)
                    \/ documents db !! h = Some d /\ docs1 = documents db) as (d & Hd).
  { destruct (ingest_next _ _ _ _ _ _ _ Hing1)
      as [([d Hd] & _ & ->)|(Hd & _ & _ & index & ->)]; eauto. }
  assert (docs1 = <[h := d]> (documents db) /\ docs1 !! h = Some d) as [Hdocs Hcached].
  { destruct Hd as [[_ Heq]|[Hd' Heq]]; rewrite Heq.
    - split; [done|]. apply lookup_insert_eq.
    - split; [|done]. symmetry. by apply insert_id. }
  set (db1 := {| documents := docs1; conversations := <[cid1:=row1]> (conversations db) |}).
  assert (doc_hash row1 = Some h) as Hrow1
    by (by destruct (attach_row _ _ _ _ _ _ _ _ Hatt1) as [? _]).
  destruct (upload_run w2 db1 {| file := Some (name2, file_content);
                                 X_Conversation_ID := hdr2 |}) as
    [_|n2 c2 raw Hf2 Hmiss _ _|n2 c2 t2 e Hf2 Ht2
     |n2 c2 t2 docs2 cid2 row2 new2 Hf2 _ Hing2 Hatt2 _]; cbn in *;
    try (injection Hf2 as <- <-).
  - split_and!; [by exists d; split|done|bound|done].
  - fold h in Hmiss. congruence.
  - split_and!; [by exists d; split| |bound|done].
    destruct Ht2 as [[-> _]|(raw & _ & Hmiss & _)]; [done|]. fold h in Hmiss. congruence.
  - rewrite (ingest_hit w2 db1 _ _ h d Hcached) in Hing2. injection Hing2 as <- <-.
    destruct (attach_row _ _ _ _ _ _ _ _ Hatt2) as [Hrow2 _].
    split_and!; [by exists d; split|done|bound|].
    intros cid [= <-]. rewrite lookup_insert_eq. cbn. by rewrite Hrow2.
Qed.

(** A readable PDF uploaded twice, the second time under another name. *)
Lemma upload_twice_idempotent_witness :
  let r1 := @upload demo_platform demo_world empty_db
              {| file := Some ("fox.pdf", LONG_TEXT); X_Conversation_ID := None |} in
  let r2 := @upload demo_platform demo_world (db_after r1)
              {| file := Some ("copy.pdf", LONG_TEXT); X_Conversation_ID := Some "c-new" |} in
  (exists d, documents (db_after r1) = <[("md5:" +:+ LONG_TEXT) := d]> (documents empty_db)
             /\ documents (db_after r2) = <[("md5:" +:+ LONG_TEXT) := d]> (documents empty_db))
  /\ trace r2 = []
  /\ (forall cid, resp r1 = Json 200 (FileProcessed cid) ->
                  doc_hash <$> conversations (db_after r1) !! cid
                  = Some (Some ("md5:" +:+ LONG_TEXT)))
  /\ (forall cid, resp r2 = Json 200 (FileProcessed cid) ->
                  doc_hash <$> conversations (db_after r2) !! cid
                  = Some (Some ("md5:" +:+ LONG_TEXT))).
Proof.
  apply (@upload_twice_idempotent demo_platform demo_world demo_world empty_db
           "fox.pdf" "copy.pdf" LONG_TEXT None (Some "c-new")).
  vm_compute. reflexivity.
Defined.

(** ** Upload: the conversation *)

(** C9. An upload that names a stored conversation leaves that row's
    creation time, history and curriculum as they were, under the same id,
    and leaves every other conversation untouched; when the upload is
    accepted the response names the same id and the row is bound to the
    digest of the uploaded bytes and titled with the file name, whatever
    document was bound before. *)
Theorem upload_attach_frame `{Platform} (w : World) (db : DB)
    (req : UploadRequest) (cid : string) (c : Conversation) :
  X_Conversation_ID req = Some cid ->
  truthy cid = true ->
  conversations db !! cid = Some c ->
  let u := upload w db req in
  exists c',
    conversations (db_after u) !! cid = Some c'
    /\ created_at c' = created_at c
    /\ chat_history c' = chat_history c
    /\ tutor_curriculum c' = tutor_curriculum c
    /\ (forall other, other <> cid ->
          conversations (db_after u) !! other = conversations db !! other)
    /\ (status_of (resp u) = 200 ->
        resp u = Json 200 (FileProcessed cid)
        /\ exists client_filename file_content,
            file req = Some (client_filename, file_content)
            /\ doc_hash c' = Some (md5_hexdigest file_content)
            /\ title c' = secure_filename client_filename).
Proof.
  intros Hhdr Hcid Hc u. subst u.
  destruct (upload_run w db req) as
    [ | | |name content t docs cid' row is_new Hf _ _ Hatt _]; cbn;
    try (exists c; split_and!; [done..|discriminate]).
  rewrite Hhdr, (attach_stored w db _ _ cid c Hcid Hc) in Hatt.
  injection Hatt as <- <- <-.
  exists (set_document c (md5_hexdigest content) (secure_filename name)).
  split_and!; try done.
  - apply lookup_insert_eq.
  - intros other Hne. by apply lookup_insert_ne.
  - intros _. split; [done|]. by exists name, content.
Qed.

Lemma upload_attach_frame_witness :
  let u := @upload demo_platform demo_world studied_db
             {| file := Some ("fox.pdf", LONG_TEXT); X_Conversation_ID := Some "c-1" |} in
  exists c',
    conversations (db_after u) !! "c-1" = Some c'
    /\ created_at c' = 1600000000
    /\ chat_history c' = [("langchain", "what is it?", "a fox");
                          ("gemini", "user", "teach me");
                          ("gemini", "model", "gladly")]
    /\ tutor_curriculum c' = Some "1. Foxes"
    /\ doc_hash c' = Some ("md5:" +:+ LONG_TEXT)
    /\ title c' = "fox.pdf".
Proof.
  destruct (@upload_attach_frame demo_platform demo_world studied_db
              {| file := Some ("fox.pdf", LONG_TEXT); X_Conversation_ID := Some "c-1" |}
              "c-1"
              {| title := "old.pdf"; created_at := 1600000000;
                 doc_hash := Some "md5:old";
                 chat_history := [("langchain", "what is it?", "a fox");
                                  ("gemini", "user", "teach me");
                                  ("gemini", "model", "gladly")];
                 tutor_curriculum := Some "1. Foxes" |}
              eq_refl eq_refl eq_refl)
    as (c' & Hc' & Hcreated & Hhist & Hcur & _ & Hok).
  destruct (Hok eq_refl) as (_ & n & b & Hf & Hh & Ht).
  injection Hf as <- <-.
  exists c'. split_and!; done.
Defined.

(** C10, as stated, fails in two ways. An upload without a header whose
    document is too short to analyse is answered with status 400 and
    creates no conversation. An upload whose header is not the text of a
    [uuid] matches no stored conversation, and the query of the
    conversation raises: the answer is status 500 and nothing is stored,
    although the document was readable. *)
Lemma upload_unmatched_refused_counterexample :
  let short := {| file := Some ("note.pdf", "tiny doc"); X_Conversation_ID := None |} in
  let stray := {| file := Some ("fox.pdf", LONG_TEXT);
                  X_Conversation_ID := Some "not-a-uuid" |} in
  let u1 := @upload demo_platform demo_world studied_db short in
  let u2 := @upload demo_platform demo_world studied_db stray in
  (resp u1 = Json 400 (Error UNREADABLE) /\ db_after u1 = studied_db)
  /\ (conversations studied_db !! "not-a-uuid" = None
      /\ resp u2
         = Json 500 (Error ("An error occurred: "
                            +:+ "invalid input syntax for type uuid: not-a-uuid"))
      /\ db_after u2 = studied_db).
Proof. vm_compute. done. Qed.

(** C10, amended. An upload whose conversation header is absent, empty or
    the text of a [uuid] that is the id of no stored conversation is
    never answered with status 404; whenever it is accepted, the id it
    returns was unused before and now holds a new conversation titled
    with the file name, bound to the digest of the uploaded bytes, with an
    empty history and no curriculum, all other conversations being as
    before; and whenever it is not accepted, the tables are as they were:
    no conversation is created. *)
Theorem upload_unmatched_creates `{Platform} (w : World) (db : DB)
    (req : UploadRequest) :
  header_unmatched db req ->
  let u := upload w db req in
  status_of (resp u) <> 404
  /\ (status_of (resp u) = 200 ->
      exists client_filename file_content,
        file req = Some (client_filename, file_content)
        /\ resp u = Json 200 (FileProcessed (uuid4 w))
        /\ conversations db !! uuid4 w = None
        /\ conversations (db_after u)
           = <[uuid4 w := {| title := secure_filename client_filename;
                             created_at := now w;
                             doc_hash := Some (md5_hexdigest file_content);
                             chat_history := [];
                             tutor_curriculum := None |}]> (conversations db))
  /\ (status_of (resp u) <> 200 -> db_after u = db).
Proof.
  intros Hun u. subst u.
  destruct (upload_run w db req) as
    [ | | |name content t docs cid row is_new Hf _ _ Hatt Hfresh]; cbn;
    try (split_and!; [discriminate|discriminate|done]).
  split_and!; [discriminate| |done]. intros _. exists name, content.
  destruct (attach_row _ _ _ _ _ _ _ _ Hatt)
    as (_ & _ & [(_ & (text & Hhdr & Ht & Hid) & c0 & Hc0 & _)|(-> & -> & -> & _)]).
  - destruct (Hun text Hhdr Ht) as (cid' & Hid' & Hnone). congruence.
  - split_and!; try done. by apply Hfresh.
Qed.

(** A header in upper case that spells the id of no stored conversation. *)
Lemma upload_unmatched_creates_witness :
  let u := @upload demo_platform demo_world studied_db
             {| file := Some ("fox.pdf", LONG_TEXT);
                X_Conversation_ID := Some "9F0E7C2A-1B3D-4E5F-8A6B-0C1D2E3F4A5B" |} in
  resp u = Json 200 (FileProcessed "c-new")
  /\ conversations (db_after u)
     = <["c-new" := {| title := "fox.pdf"; created_at := 1700000000;
                       doc_hash := Some ("md5:" +:+ LONG_TEXT);
                       chat_history := []; tutor_curriculum := None |}]>
         (conversations studied_db).
Proof.
  assert (@header_unmatched demo_platform studied_db
            {| file := Some ("fox.pdf", LONG_TEXT);
               X_Conversation_ID := Some "9F0E7C2A-1B3D-4E5F-8A6B-0C1D2E3F4A5B" |})
    as Hun.
  { intros text [= <-] _. exists "9f0e7c2a-1b3d-4e5f-8a6b-0c1d2e3f4a5b".
    split; vm_compute; reflexivity. }
  destruct (@upload_unmatched_creates demo_platform demo_world studied_db
              {| file := Some ("fox.pdf", LONG_TEXT);
                 X_Conversation_ID := Some "9F0E7C2A-1B3D-4E5F-8A6B-0C1D2E3F4A5B" |}
              Hun) as (_ & Hok & _).
  destruct (Hok eq_refl) as (n & b & Hf & Hresp & _ & Hconv).
  injection Hf as <- <-. split; [exact Hresp|exact Hconv].
Defined.

(** ** Generators: what a drained stream leaves behind *)

Lemma append_cons (x : ascii) (a b : string) : String x a +:+ b = String x (a +:+ b).
Proof. reflexivity. Qed.

Lemma append_assoc (a b c : string) : (a +:+ b) +:+ c = a +:+ (b +:+ c).
Proof. induction a as [|x a IH]; [done|]. rewrite !append_cons. by f_equal. Qed.

Lemma append_empty_r (a : string) : a +:+ "" = a.
Proof. induction a as [|x a IH]; [done|]. rewrite append_cons. by f_equal. Qed.

Lemma persist_free_app (s1 s2 : list step) :
  persist_free s1 -> persist_free s2 -> persist_free (s1 ++ s2).
Proof. apply Forall_app_2. Qed.

Lemma persist_free_yields (ys : list string) : persist_free (SYield <$> ys).
Proof. induction ys; constructor; done. Qed.

Lemma yields_app (s1 s2 : list step) : yields (s1 ++ s2) = (yields s1 ++ yields s2)%list.
Proof.
  induction s1 as [|[text|e|cid row] s1 IH]; cbn; [done| |done|done].
  by rewrite IH.
Qed.

Lemma yields_fmap (ys : list string) : yields (SYield <$> ys) = ys.
Proof. induction ys as [|y ys IH]; cbn; [done|]. by rewrite IH. Qed.

(** A step list without a write leaves the tables alone, however far the
    consumer lets it run. *)
Lemma exec_persist_free (ss : list step) :
  persist_free ss ->
  forall b db out db' ev closed,
    exec b ss db = (out, db', ev, closed) -> db' = db.
Proof.
  induction 1 as [|s ss Hs _ IH]; intros b db out db' ev closed Hexec.
  - destruct b as [[|n]|]; cbn in Hexec; by simplify_eq.
  - destruct b as [[|n]|]; cbn in Hexec; [by simplify_eq|..];
      destruct s as [text|e|cid row]; try discriminate Hs; cbn in Hexec.
    + destruct (exec (Some n) ss db) as [[[o d] v] cl] eqn:Hrec. simplify_eq. eauto.
    + destruct (exec (Some (S n)) ss db) as [[[o d] v] cl] eqn:Hrec. simplify_eq. eauto.
    + destruct (exec None ss db) as [[[o d] v] cl] eqn:Hrec. simplify_eq. eauto.
    + destruct (exec None ss db) as [[[o d] v] cl] eqn:Hrec. simplify_eq. eauto.
Qed.

(** When the only write is the last step, the consumer either closed the
    stream before it, and nothing was written, or received every chunk,
    and the row was written after them. *)
Lemma exec_persist_last (pre : list step) (cid : string) (row : Conversation) :
  persist_free pre ->
  forall b db out db' ev closed,
    exec b (pre ++ [SPersist cid row]) db = (out, db', ev, closed) ->
    (closed = true /\ db' = db)
    \/ (closed = false /\ db' = write_conversation db cid row /\ out = yields pre).
Proof.
  induction 1 as [|s ss Hs _ IH]; intros b db out db' ev closed Hexec.
  - destruct b as [[|n]|]; cbn in Hexec; simplify_eq; eauto.
  - destruct b as [[|n]|]; cbn in Hexec; [simplify_eq; eauto|..];
      destruct s as [text|e|cid' row']; try discriminate Hs; cbn in Hexec.
    + destruct (exec (Some n) _ db) as [[[o d] v] cl] eqn:Hrec. simplify_eq.
      destruct (IH _ _ _ _ _ _ Hrec) as [[-> ->]|(-> & -> & ->)]; eauto.
    + destruct (exec (Some (S n)) _ db) as [[[o d] v] cl] eqn:Hrec. simplify_eq.
      destruct (IH _ _ _ _ _ _ Hrec) as [[-> ->]|(-> & -> & ->)]; eauto.
    + destruct (exec None _ db) as [[[o d] v] cl] eqn:Hrec. simplify_eq.
      destruct (IH _ _ _ _ _ _ Hrec) as [[-> ->]|(-> & -> & ->)]; eauto.
    + destruct (exec None _ db) as [[[o d] v] cl] eqn:Hrec. simplify_eq.
      destruct (IH _ _ _ _ _ _ Hrec) as [[-> ->]|(-> & -> & ->)]; eauto.
Qed.

(** Every call a drained stream made is a call of its step list. *)
Lemma exec_events (ss : list step) :
  forall b db out db' ev closed,
    exec b ss db = (out, db', ev, closed) ->
    forall e, e ∈ ev -> e ∈ events_of ss.
Proof.
  induction ss as [|s ss IH]; intros b db out db' ev closed Hexec e He.
  - destruct b as [[|n]|]; cbn in Hexec; simplify_eq; by apply elem_of_nil in He.
  - destruct b as [[|n]|]; cbn in Hexec;
      [simplify_eq; by apply elem_of_nil in He|..];
      destruct s as [text|e'|cid row]; cbn in Hexec |- *.
    + destruct (exec (Some n) ss db) as [[[o d] v] cl] eqn:Hrec. simplify_eq. eauto.
    + destruct (exec (Some (S n)) ss db) as [[[o d] v] cl] eqn:Hrec. simplify_eq.
      apply elem_of_cons in He as [->|He]; [left|right; eauto].
    + eauto.
    + destruct (exec None ss db) as [[[o d] v] cl] eqn:Hrec. simplify_eq. eauto.
    + destruct (exec None ss db) as [[[o d] v] cl] eqn:Hrec. simplify_eq.
      apply elem_of_cons in He as [->|He]; [left|right; eauto].
    + eauto.
Qed.

(** The outcome of draining a turn generator. *)
Lemma exec_turn cid row hist turn g :
  Turn cid row hist turn g ->
  forall b db out db' ev closed,
    exec b (steps g) db = (out, db', ev, closed) ->
    db' = db
    \/ (closed = false /\ escaping g = None /\
        exists es, turn out es /\
                   db' = write_conversation db cid (set_history row (hist ++ es))).
Proof.
  intros [ss esc Hfree|pre es Hfree Hturn] b db out db' ev closed Hexec; cbn in *.
  - left. eapply exec_persist_free; eauto.
  - destruct (exec_persist_last _ _ _ Hfree _ _ _ _ _ _ Hexec)
      as [[_ ->]|(-> & -> & ->)]; [by left|right].
    split_and!; [done..|]. by exists es.
Qed.

(** ** Generator bodies, compositionally *)

Section Every.
Variable S : step -> Prop.

Lemma every_gret {A} (a : A) : every S (gret a).
Proof. constructor. Qed.

Lemma every_graise {A} (e : string) : every S (@graise A e).
Proof. constructor. Qed.

Lemma every_gyield (text : string) : S (SYield text) -> every S (gyield text).
Proof. by repeat constructor. Qed.

Lemma every_gcall {A} (e : event) (r : result A) : S (SCall e) -> every S (gcall e r).
Proof. by repeat constructor. Qed.

Lemma every_gbind {A B} (m : gen A) (f : A -> gen B) :
  every S m -> (forall a, m.2 = Ok a -> every S (f a)) -> every S (gbind m f).
Proof.
  destruct m as [s [a|e]]; unfold every; cbn; intros Hm Hf; [|done].
  specialize (Hf a eq_refl). destruct (f a) as [s' r]. cbn in *.
  by apply Forall_app_2.
Qed.

Lemma every_try_except {A} (m : gen A) (h : string -> gen A) :
  every S m -> (forall e, every S (h e)) -> every S (try_except m h).
Proof.
  destruct m as [s [a|e]]; unfold every; cbn; intros Hm Hh; [done|].
  specialize (Hh e). destruct (h e) as [s' r]. cbn in *.
  by apply Forall_app_2.
Qed.

Lemma every_relay (stream : list (result string)) :
  (forall text, S (SYield text)) -> forall full, every S (relay stream full).
Proof.
  intros Hy. induction stream as [|[text|e] stream IH]; intros full; cbn.
  - apply every_gret.
  - destruct (truthy text); [|done].
    specialize (IH (full +:+ text)). unfold every in *.
    destruct (relay stream (full +:+ text)) as [s r]. cbn in *. by constructor.
  - apply every_graise.
Qed.

End Every.

Lemma quiet_gret {A} (a : A) : quiet (gret a).
Proof. apply every_gret. Qed.

Lemma quiet_graise {A} (e : string) : quiet (@graise A e).
Proof. apply every_graise. Qed.

Lemma quiet_gyield (text : string) : quiet (gyield text).
Proof. by apply every_gyield. Qed.

Lemma quiet_gcall {A} (e : event) (r : result A) : quiet (gcall e r).
Proof. by apply every_gcall. Qed.

Lemma quiet_gbind {A B} (m : gen A) (f : A -> gen B) :
  quiet m -> (forall a, m.2 = Ok a -> quiet (f a)) -> quiet (gbind m f).
Proof. apply every_gbind. Qed.

Lemma relay_quiet (stream : list (result string)) (full : string) :
  quiet (relay stream full).
Proof. by apply every_relay. Qed.

Lemma calls_only_events (Q : event -> Prop) (ss : list step) :
  Forall (calls_only Q) ss -> Forall Q (events_of ss).
Proof.
  induction 1 as [|[text|e|cid row] ss Hs _ IH]; cbn; try done.
  by constructor.
Qed.

(** What [relay] returns is what it was given followed by what it
    yielded. *)
Lemma relay_full (stream : list (result string)) :
  forall full full',
    (relay stream full).2 = Ok full' ->
    full' = full +:+ concat_text (yields (relay stream full).1).
Proof.
  induction stream as [|[text|e] stream IH]; intros full full'; cbn.
  - intros [= <-]. by rewrite append_empty_r.
  - destruct (truthy text); [|by apply IH].
    cbn. specialize (IH (full +:+ text) full').
    destruct (relay stream (full +:+ text)) as [s r]. cbn in *.
    intros Hr. rewrite (IH Hr). by rewrite append_assoc.
  - discriminate.
Qed.

Section TurnShape.
Variable cid : string.
Variable row : Conversation.
Variable hist : list entry.

Lemma shape_gpersist P commit es :
  P [] es -> shape cid row hist P (gpersist commit cid (set_history row (hist ++ es))).
Proof.
  intros HP. destruct commit as [e|]; cbn.
  - left. constructor.
  - right. exists [], es. split_and!; [done|constructor|done].
Qed.

Lemma shape_gbind {A} P (m : gen A) (f : A -> gen unit) :
  quiet m ->
  (forall a, m.2 = Ok a -> shape cid row hist (fun ys es => P (yields m.1 ++ ys)%list es) (f a)) ->
  shape cid row hist P (gbind m f).
Proof.
  destruct m as [s [a|e]]; unfold quiet, every; cbn; intros Hm Hf; [|by left].
  destruct (Hf a eq_refl) as [Hq|(pre & es & -> & Hfree & HP)].
  - left. destruct (f a) as [s' r]. cbn in *.
    by apply persist_free_app.
  - right. exists (s ++ pre)%list, es. split_and!.
    + by rewrite app_assoc.
    + by apply persist_free_app.
    + by rewrite yields_app.
Qed.

Lemma shape_try_except P (m : gen unit) (h : string -> gen unit) :
  shape cid row hist P m -> (forall e, quiet (h e)) -> shape cid row hist P (try_except m h).
Proof.
  intros [Hq|(pre & es & -> & Hfree & HP)] Hh.
  - left. by apply every_try_except.
  - right. by exists pre, es.
Qed.

Lemma shape_turn P (m : gen unit) : shape cid row hist P m -> Turn cid row hist P (close_gen m).
Proof.
  intros [Hq|(pre & es & -> & Hfree & HP)]; unfold close_gen; cbn.
  - by apply turn_dropped.
  - by apply turn_recorded.
Qed.

End TurnShape.

(** A body wrapped in [try: ... except Exception] whose handler only
    yields ends by returning. *)
Lemma try_except_returns (m : gen unit) (text : string -> string) :
  escaping (close_gen (try_except m (fun e => gyield (text e)))) = None.
Proof. by destruct m as [s [[]|e]]. Qed.

(** ** The turns of the three streaming entry points *)

Lemma generate_general_turn (w : World) (req : TurnRequest) cid conv msg :
  message req = Some msg ->
  Turn cid conv (chat_history conv) (chat_turn req)
    (generate_general w cid conv msg (chat_history conv)).
Proof.
  intros Hmsg. apply shape_turn.
  apply shape_gbind; [apply quiet_gcall|]. intros response _.
  apply shape_gbind; [apply quiet_gyield|]. intros [] _.
  apply shape_gpersist. by exists msg, response.
Qed.

Lemma generate_doc_chat_turn (w : World) (req : TurnRequest) cid conv doc_store msg :
  message req = Some msg ->
  Turn cid conv (chat_history conv) (chat_turn req)
    (generate_doc_chat w cid conv doc_store msg (chat_history conv)).
Proof.
  intros Hmsg. apply shape_turn.
  apply shape_gbind; [apply quiet_gcall|]. intros response _.
  apply shape_gbind; [apply quiet_gyield|]. intros [] _.
  apply shape_gpersist. by exists msg, (default NO_ANSWER response).
Qed.

Lemma generate_tutor_response_turn (w : World) (req : TurnRequest)
    db1 cid row msg ctx hist gemini_history :
  message req = Some msg ->
  (forall c, conversations db1 !! cid = Some c -> c = row) ->
  Turn cid row hist (tutor_turn req)
    (generate_tutor_response w db1 cid msg ctx hist gemini_history).
Proof.
  intros Hmsg Hrow. apply shape_turn.
  apply shape_try_except; [|intros e; apply quiet_gyield].
  apply shape_gbind.
  { destruct (conversations db1 !! cid); [apply quiet_gret|apply quiet_graise]. }
  intros fresh_conv Hfresh.
  assert (fresh_conv = row) as ->.
  { destruct (conversations db1 !! cid) as [c|] eqn:Hc; [|discriminate].
    cbn in Hfresh. injection Hfresh as <-. by apply Hrow. }
  apply shape_gbind; [apply quiet_gcall|]. intros response_stream _.
  apply shape_gbind; [apply relay_quiet|]. intros full_response Hfull.
  apply shape_gpersist. exists msg. split; [done|].
  apply relay_full in Hfull. rewrite Hfull.
  destruct (conversations db1 !! cid); cbn; by rewrite app_nil_r.
Qed.

(** The progress notices of [search_web] are not writes. *)
Lemma search_web_quiet `{Platform} (w : World) (queries : list string) :
  forall web_context, quiet (search_web w queries web_context).
Proof.
  induction queries as [|query queries IH]; intros web_context; cbn [search_web].
  - apply quiet_gret.
  - apply quiet_gbind; [apply quiet_gyield|]. intros [] _.
    apply quiet_gbind; [apply quiet_gcall|]. intros organic_results _. apply IH.
Qed.

(** A search loop that comes to its end has yielded one notice per
    query, in the order of the queries. *)
Lemma search_web_notices `{Platform} (w : World) (queries : list string) :
  forall web_context web_context',
    (search_web w queries web_context).2 = Ok web_context' ->
    yields (search_web w queries web_context).1 = search_notice <$> queries.
Proof.
  induction queries as [|query queries IH]; intros web_context web_context';
    cbn [search_web]; [done|].
  unfold gyield, gcall. cbn [gbind].
  destruct (search_organic w query) as [organic_results|e]; cbn [gbind]; [|done].
  specialize (IH (add_snippets (take 3 organic_results) web_context) web_context').
  destruct (search_web w queries _) as [ss r]. cbn in *.
  intros Hr. by rewrite (IH Hr).
Qed.

Lemma ok_persists_gpersist commit cid row : ok_persists (gpersist commit cid row).
Proof.
  intros a. destruct commit; cbn; [discriminate|]. intros _. by exists [], cid, row.
Qed.

Lemma ok_persists_gbind {A B} (m : gen A) (f : A -> gen B) :
  (forall a, ok_persists (f a)) -> ok_persists (gbind m f).
Proof.
  intros Hf b. destruct m as [s [a|e]]; cbn; [|discriminate].
  specialize (Hf a b). destruct (f a) as [s' r]. cbn in *.
  intros (pre & cid & row & ->)%Hf. exists (s ++ pre)%list, cid, row.
  by rewrite app_assoc.
Qed.

(** The body of [generate_deep_dive_response], under its handler, serves
    a deep-dive turn, and returns only after its write. *)
Lemma deep_dive_body_shape `{Platform} (w : World) cid conv ctx :
  exists m,
    generate_deep_dive_response w cid conv ctx (chat_history conv)
    = close_gen (try_except m (fun e => gyield (DEEP_DIVE_ERROR +:+ e)))
    /\ shape cid conv (chat_history conv) deep_dive_turn m /\ ok_persists m.
Proof.
  eexists. split; [reflexivity|]. split.
  - apply shape_gbind; [apply quiet_gcall|]. intros response_text _.
    apply shape_gbind.
    { destruct (re_search_array response_text); [apply quiet_gret|apply quiet_graise]. }
    intros json_str _.
    apply shape_gbind; [constructor|]. intros queries _.
    apply shape_gbind; [apply quiet_gyield|]. intros [] _.
    apply shape_gbind; [apply search_web_quiet|]. intros web_context Hweb.
    apply shape_gbind; [apply quiet_gyield|]. intros [] _.
    apply shape_gbind; [apply quiet_gcall|]. intros synthesis_stream _.
    apply shape_gbind; [apply relay_quiet|]. intros full_response Hfull.
    apply shape_gpersist.
    apply relay_full in Hfull. rewrite Hfull.
    exists queries, (yields (relay synthesis_stream "").1).
    split; [|done].
    rewrite (search_web_notices _ _ _ _ Hweb).
    destruct (re_search_array response_text); cbn; rewrite app_nil_r; reflexivity.
  - repeat (apply ok_persists_gbind; intros ?).
    apply ok_persists_gpersist.
Qed.

Lemma generate_deep_dive_response_turn `{Platform} (w : World) cid conv ctx :
  Turn cid conv (chat_history conv) deep_dive_turn
    (generate_deep_dive_response w cid conv ctx (chat_history conv)).
Proof.
  destruct (deep_dive_body_shape w cid conv ctx) as (m & -> & Hshape & _).
  apply shape_turn.
  apply shape_try_except; [done|intros e; apply quiet_gyield].
Qed.

(** The chunks of a deep dive determine what is recorded: the brief
    starts after the synthesis notice, which no earlier notice equals. *)
Lemma deep_dive_turn_determined (ys : list string) (es es' : list entry) :
  deep_dive_turn ys es -> deep_dive_turn ys es' -> es = es'.
Proof.
  intros (queries & brief & -> & ->) (queries' & brief' & Heq & ->).
  injection Heq as Heq. assert (brief = brief') as ->; [|done].
  revert queries' Heq. induction queries as [|q queries IH]; intros [|q' queries'] Heq;
    cbn in Heq.
  - by injection Heq as ->.
  - discriminate Heq.
  - discriminate Heq.
  - injection Heq as _ Heq. by eapply IH.
Qed.

(** ** Runs of the three streaming entry points *)

Lemma chat_run w db req : ChatRun w db req (chat w db req).
Proof.
  unfold chat, finish.
  destruct (conversation_id req) as [cid|] eqn:Hcid; [|by constructor].
  destruct (message req) as [msg|] eqn:Hmsg; [|by constructor].
  destruct (truthy cid && truthy msg); cbn; [|by constructor].
  destruct (conversations db !! cid) as [conv|] eqn:Hconv; cbn; [|by constructor].
  destruct (doc_hash conv) as [h|] eqn:Hh; cycle 1.
  { cbn. eapply chat_plain; eauto. by rewrite Hh. }
  destruct (truthy h) eqn:Hth; cycle 1.
  { cbn. eapply chat_plain; eauto. by rewrite Hh. }
  destruct (documents db !! h) as [doc_store|] eqn:Hdoc; cbn; [|by constructor].
  destruct (faiss_deserialize_exn w (faiss_index doc_store)); cbn; [by constructor|].
  eapply chat_document; eauto.
Qed.

Lemma tutor_run w db req : TutorRun w db req (tutor w db req).
Proof.
  unfold tutor, finish.
  destruct (conversation_id req) as [cid|] eqn:Hcid; [|constructor; by left].
  destruct (message req) as [msg|] eqn:Hmsg; [|constructor; by left].
  destruct (truthy cid && truthy msg); cbn; [|constructor; by left].
  destruct (conversations db !! cid) as [conv|] eqn:Hconv; cbn; [|constructor; by left].
  destruct (truthy_opt (doc_hash conv)) eqn:Hbound; cbn; [|constructor; by left].
  destruct (documents db !! default "" (doc_hash conv)) as [doc_store|] eqn:Hdoc;
    cbn; [|constructor; by left].
  destruct (tutor_document_context (chunks doc_store)) as [ctx|e]; cbn;
    [|constructor; by left].
  unfold ensure_curriculum.
  destruct (truthy_opt (tutor_curriculum conv)) eqn:Hcur; cbn.
  { eapply tutor_served; eauto. }
  destruct (generate_content w (CurriculumPrompt (prefix 10000 ctx))) as [text|e]; cbn.
  - destruct (commit_exn w) as [e|]; cbn.
    + constructor. right. eauto 8.
    + eapply tutor_served; eauto 8.
  - constructor. right. eauto 8.
Qed.

Lemma deep_dive_run `{Platform} w db req : DeepDiveRun w db req (deep_dive w db req).
Proof.
  unfold deep_dive, finish.
  destruct (truthy_opt (SERPER_API_KEY w)) eqn:Hkey; cbn; [|by constructor].
  destruct (conversation_id req) as [cid|] eqn:Hcid; cbn; [|by constructor].
  destruct (conversations db !! cid) as [conv|] eqn:Hconv; cbn; [|by constructor].
  destruct (truthy_opt (doc_hash conv)) eqn:Hbound; cbn; [|by constructor].
  destruct (documents db !! default "" (doc_hash conv)) as [doc_store|]; cbn;
    [|by constructor].
  destruct (page_contents (chunks doc_store)) as [l|e]; cbn; [|by constructor].
  eapply deep_dive_served; eauto.
Qed.

(** ** History: a turn is recorded whole or not at all *)

Lemma serve_json c o st b :
  resp o = Json st b -> db_final (serve c o) = db_after o /\ calls (serve c o) = trace o.
Proof. unfold serve. by intros ->. Qed.

Lemma serve_turn c g db0 t cid row hist turn :
  Turn cid row hist turn g ->
  let s := serve c {| resp := Stream g; db_after := db0; trace := t |} in
  db_final s = db0
  \/ (ended s = Some Completed
      /\ exists es, turn (delivered s) es
                    /\ db_final s
                       = write_conversation db0 cid (set_history row (hist ++ es))).
Proof.
  intros Hturn. unfold serve. cbn.
  destruct (exec (budget_of c) (steps g) db0) as [[[out db'] ev] closed] eqn:Hexec.
  destruct (exec_turn _ _ _ _ _ Hturn _ _ _ _ _ _ Hexec)
    as [->|(-> & Hesc & es & Hes & ->)]; cbn; [by left|right].
  rewrite Hesc. split; [done|]. by exists es.
Qed.




(** ** Errors after the stream has begun *)

(** The generators of [tutor] and [deep_dive] end by returning, whatever
    fails inside them: the failure is the last chunk. *)
Lemma tutor_stream_returns (w : World) db1 cid msg ctx hist gemini_history :
  escaping (generate_tutor_response w db1 cid msg ctx hist gemini_history) = None.
Proof. apply try_except_returns. Qed.

Lemma deep_dive_stream_returns `{Platform} (w : World) cid conv ctx hist :
  escaping (generate_deep_dive_response w cid conv ctx hist) = None.
Proof. apply try_except_returns. Qed.

(** A failure inside the [tutor] generator is delivered as text. *)
Example tutor_stream_failure_is_text :
  let w := {| SERPER_API_KEY := None;
              pdfplumber_pages := fun _ => Exn "n/a"; ocr_pages := fun _ => Exn "n/a";
              docx_paragraphs := fun _ => Exn "n/a";
              faiss_from_texts := fun _ => Exn "n/a";
              faiss_deserialize_exn := fun _ => None;
              uuid4 := "c-new"; now := 0; commit_exn := None; stream_commit_exn := None;
              llm_invoke := fun _ => Exn "n/a"; chain_call := fun _ _ _ => Exn "n/a";
              generate_content := fun _ => Exn "n/a";
              generate_content_stream := fun _ => Ok [Ok "Let us"; Exn "quota exceeded"];
              search_organic := fun _ => Exn "n/a" |} in
  let s := serve Drain (tutor w studied_db
                          {| conversation_id := Some "c-1"; message := Some "go on" |}) in
  delivered s = ["Let us"; "I'm sorry, a critical error occurred. Error: quota exceeded"]
  /\ ended s = Some Completed
  /\ db_final s = studied_db.
Proof. vm_compute. done. Qed.

(** The generators of [chat] let every failure through: of the model
    before the answer, of the commit after it. *)
Lemma generate_general_escapes (w : World) cid conv msg hist :
  match llm_invoke w msg, stream_commit_exn w with
  | Exn e, _ =>
      generate_general w cid conv msg hist
      = {| steps := [SCall (EvLLM msg)]; escaping := Some e |}
  | Ok response, Some e =>
      generate_general w cid conv msg hist
      = {| steps := [SCall (EvLLM msg); SYield response]; escaping := Some e |}
  | Ok response, None =>
      escaping (generate_general w cid conv msg hist) = None
  end.
Proof.
  unfold generate_general.
  destruct (llm_invoke w msg); [destruct (stream_commit_exn w)|]; done.
Qed.

Lemma generate_doc_chat_escapes (w : World) cid conv doc_store msg hist :
  let memory := langchain_history_format hist in
  match chain_call w (faiss_index doc_store) msg memory, stream_commit_exn w with
  | Exn e, _ =>
      generate_doc_chat w cid conv doc_store msg hist
      = {| steps := [SCall (EvChain msg memory)]; escaping := Some e |}
  | Ok response, Some e =>
      generate_doc_chat w cid conv doc_store msg hist
      = {| steps := [SCall (EvChain msg memory); SYield (default NO_ANSWER response)];
           escaping := Some e |}
  | Ok response, None =>
      escaping (generate_doc_chat w cid conv doc_store msg hist) = None
  end.
Proof.
  unfold generate_doc_chat. cbn zeta.
  destruct (chain_call w _ msg _); [destruct (stream_commit_exn w)|]; done.
Qed.

(** C3 fails on [chat]: its two generators have no handler of their own.
    When the chat model is unreachable the exception leaves
    [generate_general] before any chunk; when the commit fails it leaves
    after the answer was delivered, and likewise in [generate_doc_chat].
    No error text is appended in any of the three runs. *)
Theorem chat_stream_exception_escapes :
  let plain := {| conversation_id := Some "c-2"; message := Some "hi" |} in
  let grounded := {| conversation_id := Some "c-1"; message := Some "why?" |} in
  let unreachable :=
    demo_world_with None (fun _ => Exn "connection refused") None in
  let no_commit :=
    demo_world_with None (fun m => Ok ("echo " +:+ m)) (Some "server closed the connection") in
  let s1 := serve Drain (chat unreachable studied_db plain) in
  let s2 := serve Drain (chat no_commit studied_db plain) in
  let s3 := serve Drain (chat no_commit studied_db grounded) in
  (delivered s1 = [] /\ ended s1 = Some (Crashed "connection refused"))
  /\ (delivered s2 = ["echo hi"]
      /\ ended s2 = Some (Crashed "server closed the connection"))
  /\ (delivered s3 = ["answer to why?"]
      /\ ended s3 = Some (Crashed "server closed the connection")).
Proof. vm_compute. done. Qed.

(** ** Search key *)

(** C8. Without a search key a deep-dive request is answered at once with
    the "Serper API key not configured" error: no generation call, no
    search call, no stream, and the tables - every history among them -
    are as before. *)
Theorem deep_dive_search_unavailable `{Platform} (w : World) (db : DB)
    (req : TurnRequest) (c : consumer) :
  truthy_opt (SERPER_API_KEY w) = false ->
  let s := serve c (deep_dive w db req) in
  status s = 500
  /\ error s = Some "Serper API key not configured"
  /\ calls s = []
  /\ delivered s = []
  /\ ended s = None
  /\ db_final s = db.
Proof. intros Hkey. unfold deep_dive. rewrite Hkey. done. Qed.

Lemma deep_dive_search_unavailable_witness :
  let w := demo_world_with None (fun m => Ok ("echo " +:+ m)) None in
  let s := serve Drain (@deep_dive demo_platform w studied_db
                          {| conversation_id := Some "c-4"; message := None |}) in
  status s = 500
  /\ error s = Some "Serper API key not configured"
  /\ calls s = []
  /\ delivered s = []
  /\ ended s = None
  /\ db_final s = studied_db.
Proof.
  apply (@deep_dive_search_unavailable demo_platform). reflexivity.
Defined.

(** ** Entry points that need a document *)

(** C7, as stated, fails for [deep_dive] when no search key is configured:
    on a conversation without a document the answer is the status 500 of
    the missing key, neither 404 nor 400. *)
Lemma deep_dive_unbound_counterexample :
  let w := demo_world_with None (fun m => Ok ("echo " +:+ m)) None in
  let s := serve Drain (@deep_dive demo_platform w studied_db
                          {| conversation_id := Some "c-2"; message := None |}) in
  doc_hash <$> conversations studied_db !! "c-2" = Some None
  /\ status s = 500
  /\ error s = Some "Serper API key not configured".
Proof. vm_compute. done. Qed.

(** C7, amended. On a stored conversation without a bound document,
    [tutor] answers 404 (400 when the id or the message is empty or
    missing) and [deep_dive] answers 400 when a search key is configured
    and 500 when it is not; in every case the answer is a JSON error, no
    stream is served, no external call is made and the tables are
    unchanged. *)
Theorem unbound_entry_points_refused `{Platform} (w : World) (db : DB)
    (req : TurnRequest) (c : consumer) (cid : string) (conv : Conversation) :
  conversation_id req = Some cid ->
  conversations db !! cid = Some conv ->
  truthy_opt (doc_hash conv) = false ->
  let t := serve c (tutor w db req) in
  let d := serve c (deep_dive w db req) in
  (status t = (if truthy cid && truthy_opt (message req) then 404 else 400)
   /\ is_Some (error t) /\ ended t = None /\ delivered t = []
   /\ calls t = [] /\ db_final t = db)
  /\ (status d = (if truthy_opt (SERPER_API_KEY w) then 400 else 500)
      /\ is_Some (error d) /\ ended d = None /\ delivered d = []
      /\ calls d = [] /\ db_final d = db).
Proof.
  intros Hcid Hconv Hunbound. split.
  - unfold tutor, finish. rewrite Hcid.
    destruct (message req) as [msg|]; cbn; [|by rewrite andb_false_r].
    destruct (truthy cid && truthy msg); cbn; [|done].
    rewrite Hconv. cbn. rewrite Hunbound. cbn. done.
  - unfold deep_dive, finish.
    destruct (truthy_opt (SERPER_API_KEY w)); cbn; [|done].
    rewrite Hcid. cbn. rewrite Hconv. cbn. rewrite Hunbound. cbn. done.
Qed.

Lemma unbound_entry_points_refused_witness :
  let req := {| conversation_id := Some "c-2"; message := Some "teach me" |} in
  let t := serve Drain (tutor demo_world studied_db req) in
  let d := serve Drain (@deep_dive demo_platform demo_world studied_db req) in
  (status t = 404 /\ is_Some (error t) /\ ended t = None /\ delivered t = []
   /\ calls t = [] /\ db_final t = studied_db)
  /\ (status d = 400 /\ is_Some (error d) /\ ended d = None /\ delivered d = []
      /\ calls d = [] /\ db_final d = studied_db).
Proof.
  apply (@unbound_entry_points_refused demo_platform demo_world studied_db
           {| conversation_id := Some "c-2"; message := Some "teach me" |} Drain "c-2"
           {| title := "hello"; created_at := 1650000000;
              doc_hash := None; chat_history := [];
              tutor_curriculum := None |});
    reflexivity.
Defined.

(** ** Conversational memory of a document turn *)

Lemma serve_stream_calls c g db t e :
  e ∈ calls (serve c {| resp := Stream g; db_after := db; trace := t |}) ->
  e ∈ t \/ e ∈ events_of (steps g).
Proof.
  unfold serve. cbn.
  destruct (exec (budget_of c) (steps g) db) as [[[out db'] ev] closed] eqn:Hexec.
  cbn. intros [?|He]%elem_of_app; [by left|right].
  eapply exec_events; eauto.
Qed.

(** The pairs replayed are those of the entries tagged [langchain]. *)
Lemma langchain_history_format_elem (h : list entry) (m a : string) :
  (m, a) ∈ langchain_history_format h <-> ("langchain", m, a) ∈ h.
Proof.
  unfold langchain_history_format. rewrite list_elem_of_fmap. split.
  - intros ([[t m'] a'] & [= -> ->] & [Ht Hin]%list_elem_of_filter).
    cbn in Ht. by subst t.
  - intros Hin. exists ("langchain", m, a). split; [done|].
    apply list_elem_of_filter. by split.
Qed.

(** Entries tagged [gemini] may be dropped without changing the memory. *)
Lemma langchain_history_format_drops_gemini (h : list entry) :
  langchain_history_format (filter (fun item => tag item <> "gemini") h)
  = langchain_history_format h.
Proof.
  unfold langchain_history_format. f_equal.
  induction h as [|item h IH]; [done|].
  rewrite !filter_cons.
  destruct (decide (tag item = "langchain")) as [Hl|Hl].
  - rewrite decide_True by (rewrite Hl; discriminate).
    rewrite filter_cons, decide_True by done. by rewrite IH.
  - destruct (decide (tag item <> "gemini")); [|done].
    rewrite filter_cons, decide_False by done. done.
Qed.

(** C6, as stated, fails: in a document turn on a conversation whose
    history holds one [langchain] pair and one [gemini] turn stored as two
    role-tagged entries, the chain is given the pair alone. *)
Lemma doc_chat_memory_counterexample :
  let s := serve Drain (chat demo_world studied_db
                          {| conversation_id := Some "c-1"; message := Some "why?" |}) in
  chat_history <$> conversations studied_db !! "c-1"
  = Some [("langchain", "what is it?", "a fox");
          ("gemini", "user", "teach me");
          ("gemini", "model", "gladly")]
  /\ calls s = [EvChain "why?" [("what is it?", "a fox")]].
Proof. vm_compute. done. Qed.

(** C6, amended. The memory handed to the retrieval chain in a document
    turn is made of the stored entries tagged [langchain], in their order,
    each as the pair of its message and answer; an entry of another tag -
    the role-tagged [gemini] entries of [tutor] and [deep_dive] among them
    - is not replayed, and the question is the message of the request. *)
Theorem doc_chat_memory (w : World) (db : DB) (req : TurnRequest) (c : consumer)
    (question : string) (memory : list (string * string)) :
  EvChain question memory ∈ calls (serve c (chat w db req)) ->
  exists cid conv,
    conversation_id req = Some cid
    /\ conversations db !! cid = Some conv
    /\ message req = Some question
    /\ memory = (fun item : entry => (item.1.2, item.2))
                  <$> filter (fun item => tag item = "langchain") (chat_history conv)
    /\ (forall m a, (m, a) ∈ memory <-> ("langchain", m, a) ∈ chat_history conv)
    /\ memory = langchain_history_format
                  (filter (fun item => tag item <> "gemini") (chat_history conv)).
Proof.
  intros Hin.
  destruct (chat_run w db req) as
    [st e|cid msg conv Hcid Hmsg Hconv _|cid msg conv h doc_store Hcid Hmsg Hconv _ _].
  - cbn in Hin. by apply elem_of_nil in Hin.
  - apply serve_stream_calls in Hin as [Hin|Hin]; cbn in Hin.
    { by apply elem_of_nil in Hin. }
    unfold generate_general in Hin.
    destruct (llm_invoke w msg); [destruct (stream_commit_exn w)|];
      apply list_elem_of_singleton in Hin; discriminate.
  - apply serve_stream_calls in Hin as [Hin|Hin]; cbn in Hin.
    { by apply elem_of_nil in Hin. }
    assert (EvChain question memory
            = EvChain msg (langchain_history_format (chat_history conv))) as [= -> ->].
    { unfold generate_doc_chat in Hin.
      destruct (chain_call w _ msg _); [destruct (stream_commit_exn w)|];
        by apply list_elem_of_singleton in Hin. }
    exists cid, conv. split_and!; try done.
    + intros m a. apply langchain_history_format_elem.
    + by rewrite langchain_history_format_drops_gemini.
Qed.

Lemma doc_chat_memory_witness :
  exists cid conv,
    Some "c-1" = Some cid
    /\ conversations studied_db !! cid = Some conv
    /\ Some "why?" = Some "why?"
    /\ [("what is it?", "a fox")]
       = (fun item : entry => (item.1.2, item.2))
           <$> filter (fun item => tag item = "langchain") (chat_history conv)
    /\ (forall m a, (m, a) ∈ [("what is it?", "a fox")]
                    <-> ("langchain", m, a) ∈ chat_history conv)
    /\ [("what is it?", "a fox")]
       = langchain_history_format
           (filter (fun item => tag item <> "gemini") (chat_history conv)).
Proof.
  apply (doc_chat_memory demo_world studied_db
           {| conversation_id := Some "c-1"; message := Some "why?" |} Drain
           "why?" [("what is it?", "a fox")]).
  vm_compute. left.
Defined.

(** ** The curriculum *)

Lemma every_gpersist (S : step -> Prop) commit cid row :
  (forall cid row, S (SPersist cid row)) -> every S (gpersist commit cid row).
Proof. intros HS. destruct commit; by repeat constructor. Qed.

(** The only call of the tutor generator is the streamed generation. *)
Lemma generate_tutor_response_calls (w : World) db1 cid msg ctx hist gemini_history :
  Forall is_stream_call
    (events_of (steps (generate_tutor_response w db1 cid msg ctx hist gemini_history))).
Proof.
  apply calls_only_events.
  apply (every_try_except (calls_only is_stream_call)); [|intros e; by apply every_gyield].
  apply every_gbind.
  { destruct (conversations db1 !! cid); [apply every_gret|apply every_graise]. }
  intros fresh_conv _.
  apply every_gbind; [apply every_gcall; by eexists|]. intros response_stream _.
  apply every_gbind; [by apply every_relay|]. intros full_response _.
  by apply every_gpersist.
Qed.

(** One tutor call on a conversation that has a curriculum. *)
Lemma tutor_keeps_curriculum (w : World) (db : DB) (req : TurnRequest) (c : consumer)
    (cid : string) (conv : Conversation) :
  conversation_id req = Some cid ->
  conversations db !! cid = Some conv ->
  truthy_opt (tutor_curriculum conv) = true ->
  let s := serve c (tutor w db req) in
  (exists conv', conversations (db_final s) !! cid = Some conv'
                 /\ tutor_curriculum conv' = tutor_curriculum conv)
  /\ Forall is_stream_call (calls s).
Proof.
  intros Hcid Hconv Hcur s. subst s.
  destruct (tutor_run w db req) as
    [st e t Ht|cid' msg conv' doc_store ctx db1 t Hcid' Hmsg Hconv' _ _ Hdb1].
  - destruct Ht as [->|(cid' & conv' & p & ? & ? & ? & _)]; [|congruence].
    cbn. split; [by exists conv|constructor].
  - assert (cid' = cid) as -> by congruence.
    assert (conv' = conv) as -> by congruence.
    destruct Hdb1 as [(_ & -> & ->)|(? & _)]; [|congruence].
    split.
    + assert (forall c0, conversations db !! cid = Some c0 -> c0 = conv) as Hrow
        by (intros; congruence).
      destruct (serve_turn c _ db [] _ _ _ _
                  (generate_tutor_response_turn w req db cid conv msg ctx
                     (chat_history conv)
                     (filter (fun item => tag item = "gemini") (chat_history conv))
                     Hmsg Hrow))
        as [->|(_ & es & _ & ->)]; cbn.
      * by exists conv.
      * rewrite lookup_insert_eq. by eexists.
    + apply Forall_forall. intros e [[]%elem_of_nil|He]%serve_stream_calls.
      revert e He. apply Forall_forall, generate_tutor_response_calls.
Qed.

(** C4, as stated, fails for a curriculum that is stored but empty: the
    field of [c-3] is not null, yet a tutor call asks the model for a
    curriculum again and overwrites the stored one. *)
Lemma tutor_empty_curriculum_counterexample :
  let s := serve Drain (tutor demo_world studied_db
                          {| conversation_id := Some "c-3"; message := Some "begin" |}) in
  tutor_curriculum <$> conversations studied_db !! "c-3" = Some (Some "")
  /\ head (calls s) = Some (EvGenerate (CurriculumPrompt "old text"))
  /\ tutor_curriculum <$> conversations (db_final s) !! "c-3"
     = Some (Some "1. Basics 2. Practice").
Proof. vm_compute. done. Qed.

(** C4, amended. Once a conversation holds a non-empty curriculum, no
    sequence of tutor calls on it - whatever the messages, the behaviour
    of the collaborators and of the clients - asks for a curriculum again
    (its only external calls are the streamed answers) and the stored
    curriculum stays what it was. Generation is thus attempted only while
    the field is null or empty. *)
Theorem curriculum_generated_once (cid : string) (session : list TutorCall)
    (db : DB) (conv : Conversation) :
  conversations db !! cid = Some conv ->
  truthy_opt (tutor_curriculum conv) = true ->
  (exists conv', conversations (tutor_session cid session db).1 !! cid = Some conv'
                 /\ tutor_curriculum conv' = tutor_curriculum conv)
  /\ Forall is_stream_call (tutor_session cid session db).2
  /\ (forall p, EvGenerate p ∉ (tutor_session cid session db).2).
Proof.
  intros Hconv Hcur.
  cut ((exists conv', conversations (tutor_session cid session db).1 !! cid = Some conv'
                      /\ tutor_curriculum conv' = tutor_curriculum conv)
       /\ Forall is_stream_call (tutor_session cid session db).2).
  { intros [Hkeep Hcalls]. split_and!; [done..|].
    intros p Hin. rewrite Forall_forall in Hcalls.
    destruct (Hcalls _ Hin) as [? [=]]. }
  revert db conv Hconv Hcur.
  induction session as [|k rest IH]; intros db conv Hconv Hcur; cbn.
  - split; [by exists conv|constructor].
  - destruct (tutor_keeps_curriculum (call_world k) db
                {| conversation_id := Some cid; message := call_message k |}
                (call_consumer k) cid conv eq_refl Hconv Hcur)
      as [(conv1 & Hconv1 & Hsame) Hcalls].
    rewrite <- Hsame in Hcur.
    destruct (IH _ _ Hconv1 Hcur) as [(conv' & Hconv' & Hsame') Hrest].
    destruct (tutor_session cid rest _) as [db' ev]. cbn in *.
    split.
    + exists conv'. split; [done|]. congruence.
    + by apply Forall_app_2.
Qed.

(** Two tutor calls on [c-1]: one read to the end, one abandoned after
    the first chunk. *)
Lemma curriculum_generated_once_witness :
  let session := [ {| call_world := demo_world; call_message := Some "begin";
                      call_consumer := Drain |};
                   {| call_world := demo_world; call_message := Some "a quiz, please";
                      call_consumer := CloseAfter 1 |} ] in
  (exists conv', conversations (tutor_session "c-1" session studied_db).1 !! "c-1"
                 = Some conv'
                 /\ tutor_curriculum conv' = Some "1. Foxes")
  /\ Forall is_stream_call (tutor_session "c-1" session studied_db).2
  /\ (forall p, EvGenerate p ∉ (tutor_session "c-1" session studied_db).2).
Proof.
  apply (curriculum_generated_once "c-1" _ studied_db
           {| title := "old.pdf"; created_at := 1600000000;
              doc_hash := Some "md5:old";
              chat_history := [("langchain", "what is it?", "a fox");
                               ("gemini", "user", "teach me");
                               ("gemini", "model", "gladly")];
              tutor_curriculum := Some "1. Foxes" |});
    reflexivity.
Defined.

(** * Further properties *)

(** ** White space and the extracted text *)

Lemma lstrip_all_space (s : string) : all_space s = true -> lstrip s = "".
Proof.
  induction s as [|c s IH]; [done|]. cbn. intros [Hc Hs]%andb_true_iff.
  rewrite Hc. by apply IH.
Qed.

Lemma lstrip_cases (s : string) :
  (lstrip s = "" /\ all_space s = true)
  \/ (exists c t, lstrip s = String c t /\ isspace c = false /\ all_space s = false).
Proof.
  induction s as [|c s IH]; [by left|]. cbn.
  destruct (isspace c) eqn:Hc; cbn; [done|]. right. by exists c, s.
Qed.

Lemma rstrip_empty (s : string) : rstrip s = "" <-> all_space s = true.
Proof.
  induction s as [|c s IH]; [done|]. cbn.
  destruct (rstrip s) as [|x r] eqn:Hr.
  - destruct (isspace c); cbn; [|done]. split; [intros _|done]. by apply IH.
  - split; [done|]. intros [_ Hs]%andb_true_iff. by apply IH in Hs.
Qed.

(** Stripping leaves nothing exactly when there was only white space. *)
Lemma strip_empty (s : string) : strip s = "" <-> all_space s = true.
Proof.
  unfold strip.
  destruct (lstrip_cases s) as [[-> Hs]|(c & t & -> & Hc & Hs)]; [done|].
  rewrite Hs, rstrip_empty. cbn. by rewrite Hc.
Qed.

Lemma all_space_append (a b : string) :
  all_space (a +:+ b) = all_space a && all_space b.
Proof.
  induction a as [|c a IH]; [done|]. rewrite append_cons. cbn.
  by rewrite IH, andb_assoc.
Qed.

Lemma pdf_page_text_blank (pages : list (option string)) :
  existsb truthy_opt pages = false -> pdf_page_text pages = "".
Proof.
  induction pages as [|[page|] pages IH]; cbn; [done| |done].
  intros [-> Hrest]%orb_false_iff. by apply IH.
Qed.

Lemma pdf_page_text_strip (pages : list (option string)) :
  truthy (strip (pdf_page_text pages)) = existsb truthy_opt pages.
Proof.
  induction pages as [|[page|] pages IH];
    cbn [pdf_page_text existsb truthy_opt orb]; [done| |done].
  destruct (truthy page) eqn:Hp; cbn [orb]; [|done].
  apply truthy_true. rewrite strip_empty, !all_space_append.
  change (all_space BACKSLASH_N) with false.
  by rewrite andb_false_r.
Qed.

(** X1. For a PDF that pdfplumber can open, the text is the pdfplumber
    text as soon as one page has a non-empty text - even a page of white
    space only, because the separator appended after it is a backslash
    and an [n] - and it is the OCR text (nothing, when the OCR fails)
    only when no page has any. *)
Theorem pdf_text_ocr_fallback `{Platform} (w : World)
    (filepath file_content : string) (pages : list (option string)) :
  splitext_lower filepath = ".pdf" ->
  pdfplumber_pages w file_content = Ok pages ->
  get_document_text w filepath file_content
  = if existsb truthy_opt pages then pdf_page_text pages
    else match ocr_pages w file_content with
         | Ok images => lines_text images
         | Exn _ => ""
         end.
Proof.
  intros Hext Hpages. unfold get_document_text. rewrite Hext, Hpages. cbn [String.eqb].
  change (".pdf" =? ".pdf")%string with true. cbn match.
  rewrite pdf_page_text_strip.
  destruct (existsb truthy_opt pages) eqn:Hany; [done|].
  by rewrite (pdf_page_text_blank _ Hany).
Qed.

(** A PDF whose only page holds one space. *)
Lemma pdf_text_ocr_fallback_witness :
  @get_document_text demo_platform demo_world "scan.pdf" " " = " \n".
Proof.
  exact (@pdf_text_ocr_fallback demo_platform demo_world "scan.pdf" " " [Some " "]
           eq_refl eq_refl).
Defined.

(** X2. A named file whose extension is neither [.pdf] nor [.docx] and
    whose digest is not cached is refused with status 400, whatever its
    bytes: its text is empty, nothing is chunked or embedded and the
    tables are unchanged. *)
Theorem upload_unsupported_extension `{Platform} (w : World) (db : DB)
    (req : UploadRequest) (client_filename file_content : string) :
  file req = Some (client_filename, file_content) ->
  truthy client_filename = true ->
  splitext_lower (secure_filename client_filename) <> ".pdf" ->
  splitext_lower (secure_filename client_filename) <> ".docx" ->
  documents db !! md5_hexdigest file_content = None ->
  upload w db req
  = {| resp := Json 400 (Error UNREADABLE); db_after := db;
       trace := [EvExtract (secure_filename client_filename) ""] |}.
Proof.
  intros Hfile Hname Hpdf%String.eqb_neq Hdocx%String.eqb_neq Hmiss.
  destruct req as [f hdr]. cbn in Hfile. subst f.
  assert (get_document_text w (secure_filename client_filename) file_content = "")
    as Htext by (unfold get_document_text; by rewrite Hpdf, Hdocx).
  apply upload_ingest_return; [done|].
  destruct (ingest_miss w db (secure_filename client_filename) file_content _ Hmiss)
    as [[_ Heq]|[(Hlong & _)|(Hlong & _)]];
    rewrite Htext in *; [done|discriminate..].
Qed.

Lemma upload_unsupported_extension_witness :
  @upload demo_platform demo_world studied_db
    {| file := Some ("notes.txt", LONG_TEXT); X_Conversation_ID := Some "c-1" |}
  = {| resp := Json 400 (Error UNREADABLE); db_after := studied_db;
       trace := [EvExtract "notes.txt" ""] |}.
Proof.
  apply (@upload_unsupported_extension demo_platform demo_world studied_db
           _ "notes.txt" LONG_TEXT); done.
Defined.

(** ** Acceptance of an upload *)

Lemma readable_unreadable (raw_text : string) :
  negb (truthy raw_text) || (len (strip raw_text) <? 50) = negb (readable raw_text).
Proof.
  unfold readable. rewrite negb_andb. f_equal.
  rewrite Z.leb_antisym. by rewrite negb_involutive.
Qed.

Lemma upload_commits `{Platform} (w : World) (db : DB)
    client_filename file_content hdr t docs cid c is_new :
  truthy client_filename = true ->
  ingest w db (secure_filename client_filename) file_content
    (md5_hexdigest file_content) = (t, Next docs) ->
  attach w db (secure_filename client_filename) (md5_hexdigest file_content) hdr
    = Ok (cid, c, is_new) ->
  commit_exn w = None ->
  (is_new = true -> conversations db !! cid = None) ->
  upload w db {| file := Some (client_filename, file_content);
                 X_Conversation_ID := hdr |}
  = {| resp := Json 200 (FileProcessed cid);
       db_after := {| documents := docs;
                      conversations := <[cid := c]> (conversations db) |};
       trace := t |}.
Proof.
  intros Hname Hing Hatt Hcommit Hfresh.
  unfold upload, finish. cbn [file X_Conversation_ID].
  rewrite Hname. cbn [negb return_if hret hbind].
  rewrite Hing. cbn [hbind]. rewrite Hatt. cbn [hlift hbind].
  unfold commit_upload. rewrite Hcommit.
  assert (is_new && bool_decide (is_Some (conversations db !! cid)) = false) as ->.
  { destruct is_new; [|done]. by rewrite (Hfresh eq_refl). }
  cbn. by rewrite !app_nil_r.
Qed.

(** X3. An upload is accepted (status 200) exactly when it carries a
    named file, the digest of the bytes is cached or their text is
    readable and the index can be built, the commit succeeds, and the
    header either names a stored conversation or names none - it is
    absent, empty, or the text of a [uuid] that is no stored id - while
    the new id is unused. A header that is not the text of a [uuid] is
    never accepted. A cached digest needs no readable text and no
    embedding backend. *)
Theorem upload_accepted_iff `{Platform} (w : World) (db : DB) (req : UploadRequest) :
  status_of (resp (upload w db req)) = 200 <-> upload_accepts w db req.
Proof.
  destruct req as [f hdr]. split.
  - destruct f as [[name content]|]; cycle 1.
    { rewrite upload_no_file by done. discriminate. }
    destruct (truthy name) eqn:Hname; cycle 1.
    { rewrite upload_no_file by done. discriminate. }
    destruct (ingest w db (secure_filename name) content (md5_hexdigest content))
      as [t [docs|r|e]] eqn:Hing; cycle 1.
    { rewrite (upload_ingest_return _ _ _ _ _ _ _ Hname Hing).
      destruct (documents db !! md5_hexdigest content) as [d|] eqn:Hd.
      { rewrite (ingest_hit _ _ _ _ _ d Hd) in Hing. discriminate. }
      destruct (ingest_miss w db (secure_filename name) content _ Hd)
        as [[_ Heq]|[(_ & ? & _ & Heq)|(_ & ? & _ & Heq)]];
        rewrite Heq in Hing; simplify_eq. discriminate. }
    { rewrite (upload_ingest_raise _ _ _ _ _ _ _ Hname Hing). discriminate. }
    destruct (attach w db (secure_filename name) (md5_hexdigest content) hdr)
      as [[[cid c] is_new]|e] eqn:Hatt; cycle 1.
    { rewrite (upload_attach_raise _ _ _ _ _ _ _ _ Hname Hing Hatt). discriminate. }
    destruct (upload_after_ingest _ _ _ _ _ _ _ _ _ _ Hname Hing Hatt)
      as [[e ->]|(-> & Hcommit & Hfresh)]; [discriminate|].
    intros _. exists name, content. split_and!; [done..| |done|].
    + destruct (ingest_next _ _ _ _ _ _ _ Hing)
        as [(? & _)|(Hd & Hlong & _ & index & Hdocs)]; [by left|right].
      cbn zeta in *. rewrite readable_unreadable in Hlong.
      destruct (readable _) eqn:Hread; [|discriminate]. split; [done|].
      destruct (ingest_miss w db (secure_filename name) content _ Hd)
        as [[_ Heq]|[(_ & ? & _ & Heq)|(_ & index' & Hf & _)]];
        [rewrite Heq in Hing; discriminate..|].
      by exists index'.
    + destruct (attach_row _ _ _ _ _ _ _ _ Hatt)
        as (_ & _ & [(_ & (text & Hhdr & Ht & Hid) & c0 & Hc0 & _)
                    |(-> & -> & _ & Hnone)]).
      * left. exists text, cid. by rewrite Hc0.
      * right. split; [done|]. by apply Hfresh.
  - intros (name & content & [= ->] & Hname & Hdoc & Hcommit & Hconv).
    assert (exists t docs,
              ingest w db (secure_filename name) content (md5_hexdigest content)
              = (t, Next docs)) as (t & docs & Hing).
    { destruct (documents db !! md5_hexdigest content) as [d|] eqn:Hd.
      - rewrite (ingest_hit _ _ _ _ _ d Hd). eauto.
      - destruct Hdoc as [[? [=]]|[Hread [index Hf]]].
        destruct (ingest_miss w db (secure_filename name) content _ Hd)
          as [[Hshort _]|[(_ & e & He & _)|(_ & ? & _ & ->)]]; [| |eauto].
        + rewrite readable_unreadable, Hread in Hshort. discriminate.
        + rewrite Hf in He. discriminate. }
    destruct (attach_cases w db (secure_filename name) (md5_hexdigest content) hdr)
      as [(text & cid & c0 & Hhdr & Ht & Hid & Hc & Hatt)
         |[(Hnone & Hatt)|(text & e & Hhdr & Ht & Hid & _)]].
    + by rewrite (upload_commits _ _ _ _ _ _ _ _ _ _ Hname Hing Hatt Hcommit).
    + rewrite (upload_commits _ _ _ _ _ _ _ _ _ _ Hname Hing Hatt Hcommit); [done|].
      intros _.
      destruct Hconv as [(text & cid & Hh & Ht & Hid & [c' Hc'])|[_ Hfresh]]; [|done].
      destruct (Hnone _ Hh Ht) as (cid' & Hid' & Hc''). congruence.
    + exfalso.
      destruct Hconv as [(text' & cid & Hh & _ & Hid' & _)|[Hfree _]]; cbn in *.
      * congruence.
      * destruct (Hfree _ Hhdr Ht) as (cid & Hid' & _). congruence.
Qed.

(** ** A new conversation *)

(** What [create_conversation] stores when it answers with an id. *)
Lemma create_conversation_created (w : World) (db db' : DB) (req : CreateRequest)
    (cid : string) :
  create_conversation w db req = (Created cid, db') ->
  cid = uuid4 w
  /\ conversations db !! cid = None
  /\ exists title,
       requested_title req = Some title
       /\ db' = write_conversation db cid
                  {| title := title; created_at := now w; doc_hash := None;
                     chat_history := []; tutor_curriculum := None |}.
Proof.
  unfold create_conversation.
  destruct (requested_title req) as [title|]; [|discriminate].
  destruct (bool_decide (is_Some (conversations db !! uuid4 w))) eqn:Hdup;
    [discriminate|].
  destruct (commit_exn w); [discriminate|]. intros [= <- <-].
  apply bool_decide_eq_false in Hdup. apply eq_None_not_Some in Hdup.
  split_and!; [done..|]. by exists title.
Qed.

(** X4. The first message of a conversation made by [create_conversation]
    is a plain turn: whatever the title, [chat] asks the chat model with
    the message, never the retrieval chain; and when the model answers and
    the commit succeeds, the single chunk is that answer and the history
    of the conversation is the one pair of message and answer, the stored
    documents and the other conversations being untouched. *)
Theorem created_conversation_chats_plain (w w' : World) (db db' : DB)
    (req : CreateRequest) (cid msg answer : string) :
  create_conversation w db req = (Created cid, db') ->
  truthy cid = true -> truthy msg = true ->
  llm_invoke w' msg = Ok answer ->
  stream_commit_exn w' = None ->
  let s := serve Drain (chat w' db' {| conversation_id := Some cid;
                                       message := Some msg |}) in
  calls s = [EvLLM msg]
  /\ delivered s = [answer]
  /\ ended s = Some Completed
  /\ chat_history <$> conversations (db_final s) !! cid
     = Some [("langchain", msg, answer)]
  /\ documents (db_final s) = documents db
  /\ (forall other, other <> cid ->
        conversations (db_final s) !! other = conversations db !! other).
Proof.
  intros (-> & Hfresh & title & _ & ->)%create_conversation_created Hcid Hmsg Hllm Hcommit.
  unfold chat, finish. cbn [conversation_id message]. rewrite Hcid, Hmsg. cbn.
  rewrite lookup_insert_eq. cbn. unfold generate_general. rewrite Hllm, Hcommit. cbn.
  rewrite lookup_insert_eq. split_and!; [done..|].
  intros other Hne. by rewrite !lookup_insert_ne.
Qed.

Lemma created_conversation_chats_plain_witness :
  let db' := (create_conversation demo_world studied_db
                {| json_title := None |}).2 in
  let s := serve Drain (chat demo_world db' {| conversation_id := Some "c-new";
                                               message := Some "hello" |}) in
  calls s = [EvLLM "hello"]
  /\ delivered s = ["echo hello"]
  /\ ended s = Some Completed
  /\ chat_history <$> conversations (db_final s) !! "c-new"
     = Some [("langchain", "hello", "echo hello")]
  /\ documents (db_final s) = documents studied_db
  /\ (forall other, other <> "c-new" ->
        conversations (db_final s) !! other = conversations studied_db !! other).
Proof.
  apply (created_conversation_chats_plain demo_world demo_world studied_db _
           {| json_title := None |} "c-new" "hello" "echo hello"); reflexivity.
Defined.

(** [create_conversation] adds at most one row and changes no other:
    a body without a title gets the title "New Chat"; a [null] title, a
    taken id or a failing commit is answered with an error and leaves the
    tables as they were. *)
Lemma create_conversation_outcome (w : World) (db : DB) (req : CreateRequest) :
  (exists title,
     (json_title req = None /\ title = "New Chat" \/ json_title req = Some (Some title))
     /\ conversations db !! uuid4 w = None
     /\ commit_exn w = None
     /\ create_conversation w db req
        = (Created (uuid4 w),
           {| documents := documents db;
              conversations :=
                <[uuid4 w := {| title := title; created_at := now w; doc_hash := None;
                                chat_history := []; tutor_curriculum := None |}]>
                  (conversations db) |}))
  \/ ((json_title req = Some None
       \/ is_Some (conversations db !! uuid4 w)
       \/ is_Some (commit_exn w))
      /\ exists e, create_conversation w db req = (CreateFailed e, db)).
Proof.
  unfold create_conversation, requested_title.
  destruct (json_title req) as [[title|]|] eqn:Htitle; [| right; eauto 6 |].
  - destruct (conversations db !! uuid4 w) as [c|] eqn:Hc; cbn.
    { right. eauto 8. }
    destruct (commit_exn w) as [e|] eqn:He; [right; eauto 8|].
    left. exists title. eauto 8.
  - destruct (conversations db !! uuid4 w) as [c|] eqn:Hc; cbn.
    { right. eauto 8. }
    destruct (commit_exn w) as [e|] eqn:He; [right; eauto 8|].
    left. exists "New Chat". eauto 8.
Qed.

(** ** What one request may change *)

Lemma turn_update_refl (tutoring : bool) (conv : Conversation) :
  turn_update tutoring conv conv.
Proof.
  split_and!; try done; [|by left]. exists []. by rewrite app_nil_r.
Qed.

(** The tables after a served turn generator. *)
Lemma served_turn_effect c g db req tutoring cid conv turn t :
  conversation_id req = Some cid ->
  conversations db !! cid = Some conv ->
  Turn cid conv (chat_history conv) turn g ->
  turn_effect tutoring db req
    (db_final (serve c {| resp := Stream g; db_after := db; trace := t |})).
Proof.
  intros Hcid Hconv Hturn.
  destruct (serve_turn c g db t _ _ _ _ Hturn) as [->|(_ & es & _ & ->)]; [by left|].
  right. exists cid, conv, (set_history conv (chat_history conv ++ es)).
  split_and!; try done. split_and!; try done; [by exists es|by left].
Qed.

(** The tables after a turn of each of the three streaming routes. *)
Lemma turns_have_effect `{Platform} (w : World) (db : DB) (req : TurnRequest)
    (c : consumer) :
  turn_effect false db req (db_final (serve c (chat w db req)))
  /\ turn_effect true db req (db_final (serve c (tutor w db req)))
  /\ turn_effect false db req (db_final (serve c (deep_dive w db req))).
Proof.
  split_and!.
  - destruct (chat_run w db req) as
      [st e|cid msg conv Hcid Hmsg Hconv _|cid msg conv h doc_store Hcid Hmsg Hconv _ _].
    + by left.
    + eapply served_turn_effect; [done..|]. by apply generate_general_turn.
    + eapply served_turn_effect; [done..|]. by apply generate_doc_chat_turn.
  - destruct (tutor_run w db req) as
      [st e t _|cid msg conv doc_store ctx db1 t Hcid Hmsg Hconv _ _ Hdb1].
    + by left.
    + destruct Hdb1 as [(_ & -> & _)|(Hcur & text & p & -> & _)].
      * eapply served_turn_effect; [done..|].
        apply generate_tutor_response_turn; [done|]. intros; congruence.
      * set (conv1 := set_curriculum conv text).
        destruct (serve_turn c _ (write_conversation db cid conv1) t _ _ _ _
                    (generate_tutor_response_turn w req
                       (write_conversation db cid conv1) cid conv1 msg ctx
                       (chat_history conv)
                       (filter (fun item => tag item = "gemini") (chat_history conv))
                       Hmsg
                       ltac:(cbn; rewrite lookup_insert_eq; intros; congruence)))
          as [->|(_ & es & _ & ->)]; right.
        -- exists cid, conv, conv1. split_and!; try done.
           split_and!; try done; [|by right]. exists []. by rewrite app_nil_r.
        -- exists cid, conv, (set_history conv1 (chat_history conv ++ es)).
           split_and!; try done.
           ++ split_and!; try done; [by exists es|by right].
           ++ unfold write_conversation. cbn. by rewrite insert_insert_eq.
  - destruct (deep_dive_run w db req) as [st e|cid conv ctx Hcid Hconv _ _].
    + by left.
    + eapply served_turn_effect; [done..|]. apply generate_deep_dive_response_turn.
Qed.

(** X6. A turn of [chat], [tutor] or [deep_dive] changes at most the row
    of the conversation it names, whatever the collaborators and the
    client do: title, creation time and bound document stay, the history
    is extended, and the curriculum stays unless the turn is a tutor turn
    on a conversation that had none. No document is touched and no
    conversation appears or disappears. *)
Theorem turn_changes_one_row `{Platform} (w : World) (db : DB) (req : TurnRequest)
    (c : consumer) :
  turn_effect false db req (db_final (serve c (chat w db req)))
  /\ turn_effect true db req (db_final (serve c (tutor w db req)))
  /\ turn_effect false db req (db_final (serve c (deep_dive w db req))).
Proof. apply turns_have_effect. Qed.

(** The tables after an upload. *)
Lemma upload_has_effect `{Platform} (w : World) (db : DB) (req : UploadRequest) :
  upload_effect db req (db_after (upload w db req)).
Proof.
  destruct (upload_run w db req) as
    [ | | |name content t docs cid c is_new Hf _ Hing Hatt Hfresh]; cbn;
    [by left..|right].
  destruct (attach_row _ _ _ _ _ _ _ _ Hatt) as (Hh & _ & Hrow).
  assert (exists d, (documents db !! md5_hexdigest content = None
                     \/ documents db !! md5_hexdigest content = Some d)
                    /\ docs = <[md5_hexdigest content := d]> (documents db))
    as (d & Hd & ->).
  { destruct (ingest_next _ _ _ _ _ _ _ Hing)
      as [([d Hd] & _ & ->)|(Hd & _ & _ & index & ->)].
    - exists d. split; [by right|]. symmetry. by apply insert_id.
    - eexists. split; [by left|done]. }
  exists name, content, d, cid, c. split_and!; try done.
  destruct Hrow as [(_ & _ & c0 & Hc0 & ->)|(Hnew & _ & -> & _)].
  - right. by exists c0.
  - left. split; [by apply Hfresh|done].
Qed.

(** ** Invariants over any sequence of requests *)

Lemma evolves_refl (c : Conversation) : evolves c c.
Proof. split_and!; [done| |done]. exists []. by rewrite app_nil_r. Qed.

Lemma evolves_trans (c1 c2 c3 : Conversation) :
  evolves c1 c2 -> evolves c2 c3 -> evolves c1 c3.
Proof.
  intros (Hc1 & [m1 Hh1] & Hk1) (Hc2 & [m2 Hh2] & Hk2). split_and!.
  - congruence.
  - exists (m1 ++ m2)%list. by rewrite Hh2, Hh1, app_assoc.
  - intros Hcur. rewrite Hk2; [by apply Hk1|]. by rewrite Hk1.
Qed.

Lemma turn_update_evolves tutoring (c c' : Conversation) :
  turn_update tutoring c c' -> evolves c c'.
Proof.
  intros (_ & Hc & _ & Hh & [Hk|[_ Hk]]); split_and!; try done.
  intros Hcur. congruence.
Qed.

Section OneRequest.
Context `{Platform}.
Variable w : World.
Variable db : DB.

(** What [handle] does to the tables, route by route. *)
Lemma handle_effect (r : request) :
  match r with
  | CreateConversation req =>
      handle w db r = db
      \/ exists row, conversations db !! uuid4 w = None
                     /\ doc_hash row = None /\ chat_history row = []
                     /\ handle w db r = write_conversation db (uuid4 w) row
  | Upload req => upload_effect db req (handle w db r)
  | Chat req _ | DeepDive req _ => turn_effect false db req (handle w db r)
  | Tutor req _ => turn_effect true db req (handle w db r)
  end.
Proof.
  destruct r as [req|req|req c|req c|req c]; cbn [handle].
  - destruct (create_conversation w db req) as [[cid|e] db'] eqn:Hcreate.
    + apply create_conversation_created in Hcreate as (-> & Hfresh & title & _ & ->).
      right.
      exists {| title := title; created_at := now w; doc_hash := None;
                chat_history := []; tutor_curriculum := None |}.
      by split_and!.
    + left. unfold create_conversation in Hcreate.
      destruct (requested_title req); [|by simplify_eq].
      destruct (bool_decide _); [by simplify_eq|].
      destruct (commit_exn w); by simplify_eq.
  - apply upload_has_effect.
  - apply (turns_have_effect w db req c).
  - apply (turns_have_effect w db req c).
  - apply (turns_have_effect w db req c).
Qed.

Lemma handle_documents (r : request) (h : string) (d : DocumentStore) :
  documents db !! h = Some d -> documents (handle w db r) !! h = Some d.
Proof.
  intros Hd. pose proof (handle_effect r) as Heff.
  destruct r as [req|req|req c|req c|req c].
  - destruct Heff as [->|(row & _ & _ & _ & ->)]; done.
  - destruct Heff as [->|(n & b & d' & cid & c & _ & Hold & -> & _)]; [done|].
    destruct (decide (md5_hexdigest b = h)) as [<-|Hne].
    + rewrite lookup_insert_eq. destruct Hold; congruence.
    + by rewrite lookup_insert_ne.
  - destruct Heff as [->|(cid & conv & conv' & _ & _ & _ & ->)]; done.
  - destruct Heff as [->|(cid & conv & conv' & _ & _ & _ & ->)]; done.
  - destruct Heff as [->|(cid & conv & conv' & _ & _ & _ & ->)]; done.
Qed.

Lemma turn_effect_evolves tutoring req db' cid c :
  turn_effect tutoring db req db' ->
  conversations db !! cid = Some c ->
  exists c', conversations db' !! cid = Some c' /\ evolves c c'
             /\ doc_hash c' = doc_hash c.
Proof.
  intros [->|(cid0 & conv & conv' & _ & Hconv & Hup & ->)] Hc.
  - exists c. split_and!; [done| |done]. apply evolves_refl.
  - destruct (decide (cid = cid0)) as [->|Hne]; cbn.
    + rewrite lookup_insert_eq. exists conv'. simplify_eq.
      split_and!; [done| |by destruct Hup as (_ & _ & ? & _)].
      by eapply turn_update_evolves.
    + rewrite lookup_insert_ne by done. exists c.
      split_and!; [done| |done]. apply evolves_refl.
Qed.

Lemma handle_evolves (r : request) (cid : string) (c : Conversation) :
  conversations db !! cid = Some c ->
  exists c', conversations (handle w db r) !! cid = Some c' /\ evolves c c'.
Proof.
  intros Hc. pose proof (handle_effect r) as Heff.
  destruct r as [req|req|req k|req k|req k].
  - destruct Heff as [->|(row & Hfresh & _ & _ & ->)].
    + exists c. split; [done|apply evolves_refl].
    + exists c. split; [|apply evolves_refl]. cbn.
      rewrite lookup_insert_ne; [done|]. congruence.
  - destruct Heff as [->|(n & b & d & cid0 & c0 & _ & _ & _ & Hconvs & _ & Hrow)].
    { exists c. split; [done|apply evolves_refl]. }
    rewrite Hconvs. destruct (decide (cid = cid0)) as [->|Hne].
    + rewrite lookup_insert_eq. exists c0. split; [done|].
      destruct Hrow as [[? _]|(c1 & ? & ->)]; [congruence|]. simplify_eq.
      split_and!; [done| |done]. exists []. by rewrite app_nil_r.
    + rewrite lookup_insert_ne by done. exists c. split; [done|apply evolves_refl].
  - destruct (turn_effect_evolves _ _ _ _ _ Heff Hc) as (c' & ? & ? & _). eauto.
  - destruct (turn_effect_evolves _ _ _ _ _ Heff Hc) as (c' & ? & ? & _). eauto.
  - destruct (turn_effect_evolves _ _ _ _ _ Heff Hc) as (c' & ? & ? & _). eauto.
Qed.




End OneRequest.

(** Requests of every kind, used to exercise the invariants: an upload
    bound to [c-2], a plain turn abandoned after its chunk, a tutor turn,
    a deep dive, and a new conversation. *)
(** X7. The document cache is permanent: a record, once stored, is found
    unchanged under its digest after any sequence of requests to any of
    the routes. *)
Theorem documents_are_kept `{Platform} (rs : list (World * request)) (db : DB)
    (h : string) (d : DocumentStore) :
  documents db !! h = Some d ->
  documents (handle_all rs db) !! h = Some d.
Proof.
  revert db. induction rs as [|[w r] rs IH]; intros db Hd; cbn; [done|].
  apply IH. by apply handle_documents.
Qed.

Lemma documents_are_kept_witness :
  documents (@handle_all demo_platform sample_requests studied_db) !! "md5:old"
  = Some {| chunks := [ChunkStr "old text"]; faiss_index := "old" |}.
Proof.
  apply (@documents_are_kept demo_platform sample_requests studied_db). reflexivity.
Defined.

(** X8. A conversation, once stored, is never deleted, and after any
    sequence of requests to any of the routes its creation time is the
    same, its history is the old history followed by what was appended,
    and a non-empty curriculum is still the same curriculum. *)
Theorem conversations_evolve `{Platform} (rs : list (World * request)) (db : DB)
    (cid : string) (c : Conversation) :
  conversations db !! cid = Some c ->
  exists c',
    conversations (handle_all rs db) !! cid = Some c'
    /\ created_at c' = created_at c
    /\ (exists more, chat_history c' = (chat_history c ++ more)%list)
    /\ (truthy_opt (tutor_curriculum c) = true ->
        tutor_curriculum c' = tutor_curriculum c).
Proof.
  revert db c. induction rs as [|[w r] rs IH]; intros db c Hc; cbn.
  - exists c. split; [done|]. apply evolves_refl.
  - destruct (handle_evolves w db r cid c Hc) as (c1 & Hc1 & Hev1).
    destruct (IH _ _ Hc1) as (c' & Hc' & Hev'). exists c'. split; [done|].
    by apply (evolves_trans c c1 c').
Qed.

Lemma conversations_evolve_witness :
  exists c',
    conversations (@handle_all demo_platform sample_requests studied_db) !! "c-1"
    = Some c'
    /\ created_at c' = 1600000000
    /\ (exists more,
          chat_history c'
          = ([("langchain", "what is it?", "a fox");
              ("gemini", "user", "teach me");
              ("gemini", "model", "gladly")] ++ more)%list)
    /\ (truthy_opt (Some "1. Foxes") = true -> tutor_curriculum c' = Some "1. Foxes").
Proof.
  apply (@conversations_evolve demo_platform sample_requests studied_db "c-1"
           {| title := "old.pdf"; created_at := 1600000000;
              doc_hash := Some "md5:old";
              chat_history := [("langchain", "what is it?", "a fox");
                               ("gemini", "user", "teach me");
                               ("gemini", "model", "gladly")];
              tutor_curriculum := Some "1. Foxes" |}).
  reflexivity.
Defined.



(** A streamed answer carries no error member. *)
Ltac streamed :=
  cbn; try unfold serve; cbn;
  first [done | by destruct (exec _ _ _) as [[[? ?] ?] ?]].

(** X10. When every binding is valid, no entry point answers that the
    document of a conversation is missing: the three "document not found"
    errors occur only on tables with a dangling binding. *)
Theorem bound_document_is_found `{Platform} (w : World) (db : DB)
    (req : TurnRequest) (c : consumer) :
  well_bound db ->
  error (serve c (chat w db req)) <> Some "Document data not found"
  /\ error (serve c (tutor w db req)) <> Some "Document content not found"
  /\ error (serve c (deep_dive w db req)) <> Some "Document content not found.".
Proof.
  intros Hwb. unfold well_bound in Hwb. rewrite map_Forall_lookup in Hwb.
  assert (forall cid conv, conversations db !! cid = Some conv ->
            truthy_opt (doc_hash conv) = true ->
            is_Some (documents db !! default "" (doc_hash conv))) as Hfound.
  { intros cid conv Hconv Hbound. specialize (Hwb _ _ Hconv). unfold bound_ok in Hwb.
    destruct (doc_hash conv) as [h|]; [|done]. cbn in *. rewrite Hbound in Hwb.
    by apply bool_decide_eq_true in Hwb. }
  split_and!.
  - unfold chat, finish.
    destruct (conversation_id req) as [cid|]; [|done].
    destruct (message req) as [msg|]; [|done].
    destruct (truthy cid && truthy msg); cbn; [|done].
    destruct (conversations db !! cid) as [conv|] eqn:Hconv; cbn; [|done].
    specialize (Hfound _ _ Hconv).
    destruct (doc_hash conv) as [h|]; [|streamed].
    cbn in Hfound.
    destruct (truthy h); [|streamed].
    destruct (Hfound eq_refl) as [d ->].
    destruct (faiss_deserialize_exn w (faiss_index d)); cbn; [done|].
    streamed.
  - unfold tutor, finish.
    destruct (conversation_id req) as [cid|]; [|done].
    destruct (message req) as [msg|]; [|done].
    destruct (truthy cid && truthy msg); cbn; [|done].
    destruct (conversations db !! cid) as [conv|] eqn:Hconv; cbn; [|done].
    specialize (Hfound _ _ Hconv).
    destruct (truthy_opt (doc_hash conv)); cbn; [|done].
    destruct (Hfound eq_refl) as [d ->].
    destruct (tutor_document_context (chunks d)) as [ctx|e]; cbn; [|done].
    unfold ensure_curriculum.
    destruct (truthy_opt (tutor_curriculum conv)); cbn.
    { streamed. }
    destruct (generate_content w _); cbn; [|done].
    destruct (commit_exn w); cbn; [done|].
    streamed.
  - unfold deep_dive, finish.
    destruct (truthy_opt (SERPER_API_KEY w)); cbn; [|done].
    destruct (conversation_id req) as [cid|]; cbn; [|done].
    destruct (conversations db !! cid) as [conv|] eqn:Hconv; cbn; [|done].
    specialize (Hfound _ _ Hconv).
    destruct (truthy_opt (doc_hash conv)); cbn; [|done].
    destruct (Hfound eq_refl) as [d ->].
    destruct (page_contents (chunks d)); cbn; [|done].
    streamed.
Qed.

Lemma bound_document_is_found_witness :
  let req := {| conversation_id := Some "c-1"; message := Some "why?" |} in
  error (serve Drain (chat demo_world studied_db req)) <> Some "Document data not found"
  /\ error (serve Drain (tutor demo_world studied_db req))
     <> Some "Document content not found"
  /\ error (serve Drain (@deep_dive demo_platform demo_world studied_db req))
     <> Some "Document content not found.".
Proof.
  apply (@bound_document_is_found demo_platform).
  unfold well_bound, studied_db. cbn [conversations documents].
  repeat (apply map_Forall_insert_2; [vm_compute; reflexivity|]).
  apply map_Forall_empty.
Defined.

(** ** Streams read to the end *)

Lemma exec_drain (ss : list step) (db : DB) :
  exec None ss db = (yields ss, persisted ss db, events_of ss, false).
Proof.
  revert db. induction ss as [|[text|e|cid row] ss IH]; intros db; cbn; [done|..].
  - by rewrite IH.
  - by rewrite IH.
  - apply IH.
Qed.

Lemma events_of_app (s1 s2 : list step) :
  events_of (s1 ++ s2) = (events_of s1 ++ events_of s2)%list.
Proof.
  induction s1 as [|[text|e|cid row] s1 IH]; cbn; [done|done| |done].
  by rewrite IH.
Qed.

Lemma events_of_yields (ys : list string) : events_of (SYield <$> ys) = [].
Proof. by induction ys. Qed.

Lemma persisted_app (s1 s2 : list step) (db : DB) :
  persisted (s1 ++ s2) db = persisted s2 (persisted s1 db).
Proof.
  revert db. induction s1 as [|[text|e|cid row] s1 IH]; intros db; cbn; done.
Qed.

Lemma persisted_free (ss : list step) (db : DB) :
  persist_free ss -> persisted ss db = db.
Proof.
  induction 1 as [|[text|e|cid row] ss Hs _ IH]; cbn; try done.
Qed.

Lemma concat_text_spoken (texts : list string) :
  concat_text (spoken texts) = concat_text texts.
Proof.
  induction texts as [|text texts IH]; [done|]. unfold spoken, concat_text in *.
  rewrite filter_cons. destruct (decide (truthy text = true)) as [Ht|Ht]; cbn.
  - by rewrite IH.
  - apply not_true_is_false, truthy_false in Ht. subst text. by rewrite IH.
Qed.

(** A stream that never fails is relayed chunk by chunk, the empty ones
    left out, and adds up to the answer. *)
Lemma relay_ok (texts : list string) (full : string) :
  relay (Ok <$> texts) full
  = (SYield <$> spoken texts, Ok (full +:+ concat_text texts)).
Proof.
  revert full. induction texts as [|text texts IH]; intros full.
  - cbn. by rewrite append_empty_r.
  - unfold spoken in *. rewrite filter_cons, fmap_cons. cbn [relay].
    destruct (truthy text) eqn:Ht.
    + rewrite decide_True by done. rewrite IH. cbn.
      by rewrite append_assoc.
    + rewrite decide_False by done. rewrite IH.
      apply truthy_false in Ht. by subst text.
Qed.

Lemma serve_drain (g : generator) (db : DB) (t : list event) :
  serve Drain {| resp := Stream g; db_after := db; trace := t |}
  = {| status := 200; error := None; delivered := yields (steps g);
       ended := Some match escaping g with
                     | None => Completed
                     | Some e => Crashed e
                     end;
       db_final := persisted (steps g) db;
       calls := (t ++ events_of (steps g))%list |}.
Proof. unfold serve. cbn. by rewrite exec_drain. Qed.

(** ** The tutor flow, step by step *)

(** The handler of [tutor] on a conversation with a document and a
    curriculum: nothing is called, nothing is committed. *)
Lemma tutor_serves (w : World) (db : DB) (req : TurnRequest)
    cid msg conv doc_store ctx :
  conversation_id req = Some cid -> message req = Some msg ->
  truthy cid = true -> truthy msg = true ->
  conversations db !! cid = Some conv ->
  truthy_opt (doc_hash conv) = true ->
  documents db !! default "" (doc_hash conv) = Some doc_store ->
  tutor_document_context (chunks doc_store) = Ok ctx ->
  truthy_opt (tutor_curriculum conv) = true ->
  tutor w db req
  = {| resp := Stream (generate_tutor_response w db cid msg ctx (chat_history conv)
                         (filter (fun item => tag item = "gemini") (chat_history conv)));
       db_after := db; trace := [] |}.
Proof.
  intros Hcid Hmsg Htc Htm Hconv Hbound Hdoc Hctx Hcur.
  unfold tutor, finish. rewrite Hcid, Hmsg, Htc, Htm. cbn.
  rewrite Hconv. cbn. rewrite Hbound. cbn. rewrite Hdoc. cbn. rewrite Hctx. cbn.
  unfold ensure_curriculum. rewrite Hcur. done.
Qed.

(** The same on a conversation without a curriculum, when the model
    writes one and the commit succeeds. *)
Lemma tutor_serves_first (w : World) (db : DB) (req : TurnRequest)
    cid msg conv doc_store ctx text :
  conversation_id req = Some cid -> message req = Some msg ->
  truthy cid = true -> truthy msg = true ->
  conversations db !! cid = Some conv ->
  truthy_opt (doc_hash conv) = true ->
  documents db !! default "" (doc_hash conv) = Some doc_store ->
  tutor_document_context (chunks doc_store) = Ok ctx ->
  truthy_opt (tutor_curriculum conv) = false ->
  generate_content w (CurriculumPrompt (prefix 10000 ctx)) = Ok text ->
  commit_exn w = None ->
  let db1 := write_conversation db cid (set_curriculum conv text) in
  tutor w db req
  = {| resp := Stream (generate_tutor_response w db1 cid msg ctx (chat_history conv)
                         (filter (fun item => tag item = "gemini") (chat_history conv)));
       db_after := db1;
       trace := [EvGenerate (CurriculumPrompt (prefix 10000 ctx))] |}.
Proof.
  intros Hcid Hmsg Htc Htm Hconv Hbound Hdoc Hctx Hcur Hgen Hcommit.
  unfold tutor, finish. rewrite Hcid, Hmsg, Htc, Htm. cbn.
  rewrite Hconv. cbn. rewrite Hbound. cbn. rewrite Hdoc. cbn. rewrite Hctx. cbn.
  unfold ensure_curriculum. rewrite Hcur. cbn. rewrite Hgen. cbn. rewrite Hcommit. done.
Qed.

(** The steps of the tutor generator when the stream and the commit
    succeed. *)
Lemma generate_tutor_response_ok (w : World) db1 cid row msg ctx hist gemini_history
    texts :
  conversations db1 !! cid = Some row ->
  let master_prompt :=
    TutorPrompt (negb (existsb is_gemini hist)) (tutor_curriculum row)
      gemini_history (prefix 4000 ctx) msg in
  generate_content_stream w master_prompt = Ok (Ok <$> texts) ->
  stream_commit_exn w = None ->
  generate_tutor_response w db1 cid msg ctx hist gemini_history
  = {| steps := (SCall (EvGenerateStream master_prompt) :: (SYield <$> spoken texts)
                 ++ [SPersist cid
                       (set_history row
                          (hist ++ [("gemini", "user", msg);
                                    ("gemini", "model", concat_text texts)]))])%list;
       escaping := None |}.
Proof.
  intros Hrow master_prompt Hstream Hcommit.
  unfold generate_tutor_response. rewrite Hrow. cbn [gbind gret].
  fold master_prompt. rewrite Hstream. unfold gcall. cbn [gbind].
  rewrite relay_ok. rewrite Hcommit. done.
Qed.

(** X11. A tutor turn on a conversation that has a document and a
    curriculum, when the model streams without failing and the commit
    succeeds: the client receives the chunks in order, the empty ones left
    out; the only external call is the streamed generation; and the row
    of the conversation changes only in its history, which gains the user
    message and the model answer, the answer being all chunk texts put
    together (the empty text, when the model produced nothing). *)
Theorem tutor_turn_recorded (w : World) (db : DB) (req : TurnRequest)
    (cid msg ctx : string) (conv : Conversation) (doc_store : DocumentStore)
    (texts : list string) :
  conversation_id req = Some cid -> message req = Some msg ->
  truthy cid = true -> truthy msg = true ->
  conversations db !! cid = Some conv ->
  truthy_opt (doc_hash conv) = true ->
  documents db !! default "" (doc_hash conv) = Some doc_store ->
  tutor_document_context (chunks doc_store) = Ok ctx ->
  truthy_opt (tutor_curriculum conv) = true ->
  let gemini_history := filter (fun item => tag item = "gemini") (chat_history conv) in
  let master_prompt :=
    TutorPrompt (negb (existsb is_gemini (chat_history conv))) (tutor_curriculum conv)
      gemini_history (prefix 4000 ctx) msg in
  generate_content_stream w master_prompt = Ok (Ok <$> texts) ->
  stream_commit_exn w = None ->
  let s := serve Drain (tutor w db req) in
  delivered s = spoken texts
  /\ ended s = Some Completed
  /\ calls s = [EvGenerateStream master_prompt]
  /\ db_final s
     = write_conversation db cid
         (set_history conv
            (chat_history conv ++ [("gemini", "user", msg);
                                    ("gemini", "model", concat_text texts)])).
Proof.
  intros Hcid Hmsg Htc Htm Hconv Hbound Hdoc Hctx Hcur gh p Hstream Hcommit s.
  subst s gh p. rewrite (tutor_serves w db req cid msg conv doc_store ctx) by done.
  rewrite serve_drain.
  rewrite (generate_tutor_response_ok w db cid conv msg ctx _ _ texts Hconv Hstream Hcommit).
  cbn [steps escaping delivered ended calls db_final yields events_of persisted app].
  rewrite yields_app, events_of_app, persisted_app, yields_fmap, events_of_yields.
  rewrite (persisted_free (SYield <$> spoken texts)) by apply persist_free_yields.
  cbn. by rewrite app_nil_r.
Qed.

Lemma tutor_turn_recorded_witness :
  let s := serve Drain (tutor demo_world studied_db
                          {| conversation_id := Some "c-1"; message := Some "go on" |}) in
  delivered s = ["Hello"; " there"]
  /\ ended s = Some Completed
  /\ calls s = [EvGenerateStream
                  (TutorPrompt false (Some "1. Foxes")
                     [("gemini", "user", "teach me"); ("gemini", "model", "gladly")]
                     "old text" "go on")]
  /\ chat_history <$> conversations (db_final s) !! "c-1"
     = Some [("langchain", "what is it?", "a fox");
             ("gemini", "user", "teach me");
             ("gemini", "model", "gladly");
             ("gemini", "user", "go on");
             ("gemini", "model", "Hello there")].
Proof.
  destruct (tutor_turn_recorded demo_world studied_db
              {| conversation_id := Some "c-1"; message := Some "go on" |}
              "c-1" "go on" "old text"
              {| title := "old.pdf"; created_at := 1600000000;
                 doc_hash := Some "md5:old";
                 chat_history := [("langchain", "what is it?", "a fox");
                                  ("gemini", "user", "teach me");
                                  ("gemini", "model", "gladly")];
                 tutor_curriculum := Some "1. Foxes" |}
              {| chunks := [ChunkStr "old text"]; faiss_index := "old" |}
              ["Hello"; ""; " there"]
              eq_refl eq_refl eq_refl eq_refl eq_refl eq_refl eq_refl eq_refl eq_refl
              eq_refl eq_refl)
    as (Hd & He & Hc & Hdb).
  split_and!; [exact Hd|exact He|exact Hc|].
  rewrite Hdb. reflexivity.
Defined.

(** ** Streams guarded by a handler *)

(** The two ways a guarded turn generator can go. *)
Lemma guarded_steps cid row hist P (m : gen unit) (error_text : string) :
  shape cid row hist P m ->
  ok_persists m ->
  let g := close_gen (try_except m (fun e => gyield (error_text +:+ e))) in
  escaping g = None
  /\ ((exists pre e, steps g = (pre ++ [SYield (error_text +:+ e)])%list
                     /\ persist_free pre)
      \/ (exists pre es,
            steps g = (pre ++ [SPersist cid (set_history row (hist ++ es))])%list
            /\ persist_free pre /\ P (yields pre) es)).
Proof.
  intros Hshape Hok g. split; [apply try_except_returns|]. subst g.
  destruct Hshape as [Hq|(pre & es & -> & Hfree & HP)]; [|right; by exists pre, es].
  destruct m as [s [[]|e]]; cbn.
  - destruct (Hok () eq_refl) as (pre & cid' & row' & Hs). cbn in *. subst s.
    unfold quiet, every in Hq. cbn in Hq.
    apply Forall_app in Hq as [_ Hq]. apply Forall_inv in Hq. discriminate.
  - left. by exists s, e.
Qed.

(** Draining a guarded turn generator. *)
Lemma guarded_drain cid row hist P (m : gen unit) (error_text : string)
    (db0 : DB) (t : list event) :
  shape cid row hist P m ->
  ok_persists m ->
  let s := serve Drain
             {| resp := Stream (close_gen (try_except m
                                             (fun e => gyield (error_text +:+ e))));
                db_after := db0; trace := t |} in
  ended s = Some Completed
  /\ ((exists e, last (delivered s) = Some (error_text +:+ e) /\ db_final s = db0)
      \/ (exists es, P (delivered s) es
                     /\ db_final s
                        = write_conversation db0 cid (set_history row (hist ++ es)))).
Proof.
  intros Hshape Hok s. subst s. rewrite serve_drain.
  destruct (guarded_steps cid row hist P m error_text Hshape Hok)
    as [-> [(pre & e & -> & Hfree)|(pre & es & -> & Hfree & HP)]];
    cbn [ended delivered db_final]; (split; [reflexivity|]).
  - left. exists e. rewrite yields_app, persisted_app, (persisted_free pre) by done.
    cbn. split; [by rewrite last_snoc|done].
  - right. exists es. rewrite yields_app, persisted_app, (persisted_free pre) by done.
    cbn. by rewrite app_nil_r.
Qed.

Lemma tutor_body_shape (w : World) (req : TurnRequest)
    db1 cid row msg ctx hist gemini_history :
  message req = Some msg ->
  (forall c, conversations db1 !! cid = Some c -> c = row) ->
  exists m,
    generate_tutor_response w db1 cid msg ctx hist gemini_history
    = close_gen (try_except m (fun e => gyield (TUTOR_ERROR +:+ e)))
    /\ shape cid row hist (tutor_turn req) m /\ ok_persists m.
Proof.
  intros Hmsg Hrow. eexists. split; [reflexivity|]. split.
  - apply shape_gbind.
    { destruct (conversations db1 !! cid); [apply quiet_gret|apply quiet_graise]. }
    intros fresh_conv Hfresh.
    assert (fresh_conv = row) as ->.
    { destruct (conversations db1 !! cid) as [c|] eqn:Hc; [|discriminate].
      cbn in Hfresh. injection Hfresh as <-. by apply Hrow. }
    apply shape_gbind; [apply quiet_gcall|]. intros response_stream _.
    apply shape_gbind; [apply relay_quiet|]. intros full_response Hfull.
    apply shape_gpersist. exists msg. split; [done|].
    apply relay_full in Hfull. rewrite Hfull.
    destruct (conversations db1 !! cid); cbn; by rewrite app_nil_r.
  - apply ok_persists_gbind. intros fresh_conv.
    apply ok_persists_gbind. intros response_stream.
    apply ok_persists_gbind. intros full_response.
    apply ok_persists_gpersist.
Qed.

(** X12. A tutor or deep-dive stream read to the end always completes:
    nothing escapes the generator. Either something failed on the way
    (the model, a search, the parsing of the queries, the commit), and
    then the last chunk is the error text and every history is as it
    was; or the turn is recorded whole: for [tutor] the message with all
    delivered chunks put together, for [deep_dive] the fixed user entry
    with all chunks of the brief put together, the brief being what is
    delivered after the gathering notice, the search notices and the
    synthesis notice. *)
Theorem guarded_streams_end_cleanly `{Platform} (w : World) (db : DB)
    (req : TurnRequest) :
  guarded_end TUTOR_ERROR (tutor_turn req) db req (serve Drain (tutor w db req))
  /\ guarded_end DEEP_DIVE_ERROR deep_dive_turn db req
       (serve Drain (deep_dive w db req)).
Proof.
  split.
  - destruct (tutor_run w db req) as
      [st e t _|cid msg conv doc_store ctx db1 t Hcid Hmsg Hconv _ _ Hdb1];
      [by intros ? [=]|].
    assert (exists row, conversations db1 !! cid = Some row
                        /\ chat_history row = chat_history conv
                        /\ forall k ck, conversations db !! k = Some ck ->
                             chat_history <$> conversations db1 !! k
                             = Some (chat_history ck))
      as (row & Hrow & Hhist & Hsame).
    { destruct Hdb1 as [(_ & -> & _)|(_ & text & p & -> & _)]; cbn.
      - exists conv. split_and!; [done..|]. by intros k ck ->.
      - eexists. rewrite lookup_insert_eq. split_and!; [done..|].
        intros k ck Hk. destruct (decide (k = cid)) as [->|Hne].
        + rewrite lookup_insert_eq. cbn. congruence.
        + rewrite lookup_insert_ne by done. by rewrite Hk. }
    destruct (tutor_body_shape w req db1 cid row msg ctx (chat_history conv)
                (filter (fun item => tag item = "gemini") (chat_history conv))
                Hmsg ltac:(intros; congruence)) as (m & -> & Hshape & Hok).
    intros t' Hended.
    destruct (guarded_drain cid row (chat_history conv) _ m TUTOR_ERROR db1 t Hshape Hok)
      as [Hend [(e & Hlast & Hdb)|(es & Hes & Hdb)]].
    + split; [congruence|]. left. exists e. split; [done|]. rewrite Hdb. apply Hsame.
    + split; [congruence|]. right. exists cid, conv, es. split_and!; [done..|].
      rewrite Hdb. cbn. by rewrite lookup_insert_eq.
  - destruct (deep_dive_run w db req) as [st e|cid conv ctx Hcid Hconv _ _];
      [by intros ? [=]|].
    destruct (deep_dive_body_shape w cid conv ctx) as (m & -> & Hshape & Hok).
    intros t' Hended.
    destruct (guarded_drain cid conv (chat_history conv) _ m DEEP_DIVE_ERROR db [] Hshape Hok)
      as [Hend [(e & Hlast & Hdb)|(es & Hes & Hdb)]].
    + split; [congruence|]. left. exists e. split; [done|]. rewrite Hdb.
      by intros k ck ->.
    + split; [congruence|]. right. exists cid, conv, es. split_and!; [done..|].
      rewrite Hdb. cbn. by rewrite lookup_insert_eq.
Qed.

(** ** The tutor prompt *)

(** The one call the tutor generator can make. *)
Lemma generate_tutor_response_events (w : World) db1 cid row msg ctx hist gemini_history :
  conversations db1 !! cid = Some row ->
  Forall (fun e => e = EvGenerateStream
                        (TutorPrompt (negb (existsb is_gemini hist))
                           (tutor_curriculum row) gemini_history (prefix 4000 ctx) msg))
    (events_of (steps (generate_tutor_response w db1 cid msg ctx hist gemini_history))).
Proof.
  intros Hrow. apply calls_only_events. unfold generate_tutor_response. rewrite Hrow.
  apply (every_try_except (calls_only _)); [|intros e; by apply every_gyield].
  apply every_gbind; [apply every_gret|]. intros fresh_conv [= <-].
  apply every_gbind; [by apply every_gcall|]. intros response_stream _.
  apply every_gbind; [by apply every_relay|]. intros full_response _.
  by apply every_gpersist.
Qed.

Lemma no_gemini_entry (h : list entry) :
  negb (existsb is_gemini h) = true
  <-> filter (fun item => tag item = "gemini") h = [].
Proof.
  induction h as [|item h IH]; [done|]. cbn [existsb]. rewrite filter_cons.
  unfold is_gemini at 1.
  destruct (decide (tag item = "gemini")) as [Ht|Ht].
  - apply String.eqb_eq in Ht as Hb. rewrite Hb. done.
  - apply String.eqb_neq in Ht as Hb. rewrite Hb. done.
Qed.

Lemma prefix_length (n : nat) (s : string) :
  (String.length (substring 0 n s) <= n)%nat.
Proof.
  revert s. induction n as [|n IH]; intros [|c s]; cbn; try lia.
  specialize (IH s). lia.
Qed.

(** X13. Whatever a tutor call sends to the model as its streamed prompt
    is built from the stored conversation alone: the message is the
    message of the request; the history replayed is made of the entries
    tagged [gemini], in order, so plain and document turns are left out
    while deep-dive turns are included; the first-message flag is set
    exactly when there is no such entry; the document excerpt has at most
    4000 characters; and a non-empty stored curriculum is passed as it
    is. *)
Theorem tutor_prompt_contents (w : World) (db : DB) (req : TurnRequest) (c : consumer)
    (is_first : bool) (curriculum : option string) (history : list entry)
    (excerpt msg : string) :
  EvGenerateStream (TutorPrompt is_first curriculum history excerpt msg)
    ∈ calls (serve c (tutor w db req)) ->
  exists cid conv,
    conversation_id req = Some cid
    /\ message req = Some msg
    /\ conversations db !! cid = Some conv
    /\ history = filter (fun item => tag item = "gemini") (chat_history conv)
    /\ (is_first = true <-> history = [])
    /\ (String.length excerpt <= 4000)%nat
    /\ (truthy_opt (tutor_curriculum conv) = true ->
        curriculum = tutor_curriculum conv).
Proof.
  intros Hin.
  destruct (tutor_run w db req) as
    [st e t Ht|cid m conv doc_store ctx db1 t Hcid Hmsg Hconv _ _ Hdb1].
  - cbn in Hin. destruct Ht as [->|(? & ? & ? & _ & _ & _ & ->)].
    + by apply elem_of_nil in Hin.
    + by apply list_elem_of_singleton in Hin.
  - assert (exists row, conversations db1 !! cid = Some row
                        /\ (truthy_opt (tutor_curriculum conv) = true ->
                            tutor_curriculum row = tutor_curriculum conv)
                        /\ forall e, e ∈ t -> exists p, e = EvGenerate p)
      as (row & Hrow & Hcur & Ht).
    { destruct Hdb1 as [(_ & -> & ->)|(Hfalsy & text & p & -> & ->)].
      - exists conv. split_and!; [done..|]. by intros e []%elem_of_nil.
      - eexists. cbn. rewrite lookup_insert_eq. split_and!; [done|congruence|].
        intros e ->%list_elem_of_singleton. by eexists. }
    apply serve_stream_calls in Hin as [Hin|Hin].
    { by destruct (Ht _ Hin). }
    pose proof (generate_tutor_response_events w db1 cid row m ctx (chat_history conv)
                  (filter (fun item => tag item = "gemini") (chat_history conv)) Hrow)
      as Hev.
    rewrite Forall_forall in Hev. apply Hev in Hin. injection Hin as -> -> -> -> ->.
    exists cid, conv. split_and!; try done.
    + apply no_gemini_entry.
    + unfold prefix. change 4000%nat with (Z.to_nat 4000). apply prefix_length.
Qed.

Lemma tutor_prompt_contents_witness :
  exists cid conv,
    Some "c-1" = Some cid
    /\ Some "go on" = Some "go on"
    /\ conversations studied_db !! cid = Some conv
    /\ [("gemini", "user", "teach me"); ("gemini", "model", "gladly")]
       = filter (fun item => tag item = "gemini") (chat_history conv)
    /\ (false = true
        <-> [("gemini", "user", "teach me"); ("gemini", "model", "gladly")] = [])
    /\ (String.length "old text" <= 4000)%nat
    /\ (truthy_opt (tutor_curriculum conv) = true ->
        Some "1. Foxes" = tutor_curriculum conv).
Proof.
  apply (tutor_prompt_contents demo_world studied_db
           {| conversation_id := Some "c-1"; message := Some "go on" |} Drain
           false (Some "1. Foxes")
           [("gemini", "user", "teach me"); ("gemini", "model", "gladly")]
           "old text" "go on").
  vm_compute. left.
Defined.

Lemma serve_stream_calls_split c g db t :
  exists ev,
    calls (serve c {| resp := Stream g; db_after := db; trace := t |}) = (t ++ ev)%list
    /\ forall e, e ∈ ev -> e ∈ events_of (steps g).
Proof.
  unfold serve. cbn.
  destruct (exec (budget_of c) (steps g) db) as [[[out db'] ev] closed] eqn:Hexec.
  exists ev. split; [done|]. intros e He. eapply exec_events; eauto.
Qed.

(** X14. The first tutor call on a conversation without a curriculum
    asks the model for one over the first 10000 characters of the
    document and commits it before any chunk is streamed: however far the
    client reads and whatever happens to the stream afterwards, the
    generated text is the stored curriculum, it is the curriculum of the
    streamed prompt, the curriculum request is the first external call and
    the only one that is not the streamed generation. *)
Theorem tutor_stores_curriculum (w : World) (db : DB) (req : TurnRequest) (c : consumer)
    (cid msg ctx text : string) (conv : Conversation) (doc_store : DocumentStore) :
  conversation_id req = Some cid -> message req = Some msg ->
  truthy cid = true -> truthy msg = true ->
  conversations db !! cid = Some conv ->
  truthy_opt (doc_hash conv) = true ->
  documents db !! default "" (doc_hash conv) = Some doc_store ->
  tutor_document_context (chunks doc_store) = Ok ctx ->
  truthy_opt (tutor_curriculum conv) = false ->
  generate_content w (CurriculumPrompt (prefix 10000 ctx)) = Ok text ->
  commit_exn w = None ->
  let s := serve c (tutor w db req) in
  tutor_curriculum <$> conversations (db_final s) !! cid = Some (Some text)
  /\ (exists rest, calls s = EvGenerate (CurriculumPrompt (prefix 10000 ctx)) :: rest
                   /\ Forall is_stream_call rest)
  /\ (forall is_first curriculum history excerpt m,
        EvGenerateStream (TutorPrompt is_first curriculum history excerpt m) ∈ calls s ->
        curriculum = Some text).
Proof.
  intros Hcid Hmsg Htc Htm Hconv Hbound Hdoc Hctx Hcur Hgen Hcommit s. subst s.
  rewrite (tutor_serves_first w db req cid msg conv doc_store ctx text) by done.
  set (conv1 := set_curriculum conv text).
  set (db1 := write_conversation db cid conv1).
  assert (conversations db1 !! cid = Some conv1) as Hrow
    by (cbn; apply lookup_insert_eq).
  set (g := generate_tutor_response w db1 cid msg ctx (chat_history conv)
              (filter (fun item => tag item = "gemini") (chat_history conv))).
  split_and!.
  - destruct (serve_turn c g db1 [EvGenerate (CurriculumPrompt (prefix 10000 ctx))]
                cid conv1 (chat_history conv) (tutor_turn req)
                (generate_tutor_response_turn w req db1 cid conv1 msg ctx _ _ Hmsg
                   ltac:(intros; congruence)))
      as [->|(_ & es & _ & ->)].
    + by rewrite Hrow.
    + cbn. by rewrite lookup_insert_eq.
  - destruct (serve_stream_calls_split c g db1
                  [EvGenerate (CurriculumPrompt (prefix 10000 ctx))]) as (ev & -> & Hev).
    exists ev. split; [done|]. apply Forall_forall. intros e He%Hev.
    revert e He. apply Forall_forall, generate_tutor_response_calls.
  - intros is_first curriculum history excerpt m
      [Hin%list_elem_of_singleton|Hin]%serve_stream_calls; [discriminate|].
    pose proof (generate_tutor_response_events w db1 cid conv1 msg ctx
                  (chat_history conv)
                  (filter (fun item => tag item = "gemini") (chat_history conv)) Hrow)
      as Hev.
    rewrite Forall_forall in Hev. apply Hev in Hin. by injection Hin as -> -> -> -> ->.
Qed.

Lemma tutor_stores_curriculum_witness :
  let s := serve (CloseAfter 1)
             (tutor demo_world studied_db
                {| conversation_id := Some "c-3"; message := Some "begin" |}) in
  tutor_curriculum <$> conversations (db_final s) !! "c-3"
  = Some (Some "1. Basics 2. Practice")
  /\ (exists rest, calls s = EvGenerate (CurriculumPrompt (prefix 10000 "old text")) :: rest
                   /\ Forall is_stream_call rest)
  /\ (forall is_first curriculum history excerpt m,
        EvGenerateStream (TutorPrompt is_first curriculum history excerpt m) ∈ calls s ->
        curriculum = Some "1. Basics 2. Practice").
Proof.
  apply (tutor_stores_curriculum demo_world studied_db
           {| conversation_id := Some "c-3"; message := Some "begin" |} (CloseAfter 1)
           "c-3" "begin" "old text" "1. Basics 2. Practice"
           {| title := "old.pdf"; created_at := 1660000000;
              doc_hash := Some "md5:old"; chat_history := [];
              tutor_curriculum := Some "" |}
           {| chunks := [ChunkStr "old text"]; faiss_index := "old" |});
    reflexivity.
Defined.

(** ** The deep dive, step by step *)

(** The handler of [deep_dive] once its checks pass: nothing is called,
    nothing is committed. *)
Lemma deep_dive_serves `{Platform} (w : World) (db : DB) (req : TurnRequest)
    cid conv doc_store pages :
  truthy_opt (SERPER_API_KEY w) = true ->
  conversation_id req = Some cid ->
  conversations db !! cid = Some conv ->
  truthy_opt (doc_hash conv) = true ->
  documents db !! default "" (doc_hash conv) = Some doc_store ->
  page_contents (chunks doc_store) = Ok pages ->
  deep_dive w db req
  = {| resp := Stream (generate_deep_dive_response w cid conv (join BACKSLASH_N pages)
                         (chat_history conv));
       db_after := db; trace := [] |}.
Proof.
  intros Hkey Hcid Hconv Hbound Hdoc Hpages. unfold deep_dive, finish.
  rewrite Hkey, Hcid. cbn. rewrite Hconv. cbn. rewrite Hbound. cbn.
  rewrite Hdoc. cbn. rewrite Hpages. done.
Qed.

Lemma search_steps_cons (query : string) (queries : list string) :
  search_steps (query :: queries)
  = SYield (search_notice query) :: SCall (EvSearch query) :: search_steps queries.
Proof. reflexivity. Qed.

Lemma yields_search_steps (queries : list string) :
  yields (search_steps queries) = search_notice <$> queries.
Proof.
  induction queries as [|q qs IH]; [done|].
  rewrite search_steps_cons, fmap_cons. cbn [yields]. by rewrite IH.
Qed.

Lemma events_of_search_steps (queries : list string) :
  events_of (search_steps queries) = EvSearch <$> queries.
Proof.
  induction queries as [|q qs IH]; [done|].
  rewrite search_steps_cons, fmap_cons. cbn [events_of]. by rewrite IH.
Qed.

Lemma persist_free_search_steps (queries : list string) :
  persist_free (search_steps queries).
Proof.
  induction queries as [|q qs IH]; [constructor|].
  rewrite search_steps_cons. by repeat constructor.
Qed.

(** The search loop when every search answers: a notice and a search
    per query, in order, and the snippets of the first three results of
    each. *)
Lemma search_web_ok `{Platform} (w : World) (results : string -> list (option string))
    (queries : list string) :
  (forall query, query ∈ queries -> search_organic w query = Ok (results query)) ->
  forall web_context,
    search_web w queries web_context
    = (search_steps queries, Ok (web_context_of results queries web_context)).
Proof.
  induction queries as [|q qs IH]; intros Hall web_context; [done|].
  cbn [search_web]. unfold gyield, gcall. cbn [gbind].
  rewrite (Hall q) by left. cbn [gbind].
  rewrite IH by (intros; apply Hall; by right). done.
Qed.

(** The search loop when a search fails: the queries after it are not
    searched. *)
Lemma search_web_fails `{Platform} (w : World) (results : string -> list (option string))
    (done_queries : list string) (query : string) (left_queries : list string)
    (e : string) :
  (forall q, q ∈ done_queries -> search_organic w q = Ok (results q)) ->
  search_organic w query = Exn e ->
  forall web_context,
    search_web w (done_queries ++ query :: left_queries) web_context
    = ((search_steps done_queries
        ++ [SYield (search_notice query); SCall (EvSearch query)])%list,
       Exn e).
Proof.
  intros Hall Hfail.
  induction done_queries as [|q qs IH]; intros web_context.
  - cbn [app search_web]. unfold gyield, gcall. cbn [gbind]. rewrite Hfail. done.
  - cbn [app search_web]. unfold gyield, gcall. cbn [gbind].
    rewrite (Hall q) by left. cbn [gbind].
    rewrite IH by (intros; apply Hall; by right). done.
Qed.

(** The generator of a deep dive when every collaborator answers. *)
Lemma generate_deep_dive_response_ok `{Platform} (w : World) cid conv ctx hist
    text json queries results texts :
  let query_gen_prompt := QueryGenPrompt (prefix 4000 ctx) in
  let synthesis_prompt :=
    SynthesisPrompt (prefix 4000 ctx) (web_context_of results queries "") in
  generate_content w query_gen_prompt = Ok text ->
  re_search_array text = Some json ->
  json_loads json = Ok queries ->
  (forall query, query ∈ queries -> search_organic w query = Ok (results query)) ->
  generate_content_stream w synthesis_prompt = Ok (Ok <$> texts) ->
  stream_commit_exn w = None ->
  generate_deep_dive_response w cid conv ctx hist
  = {| steps := (SCall (EvGenerate query_gen_prompt) :: SYield GATHERING
                 :: search_steps queries
                 ++ SYield SYNTHESIZING :: SCall (EvGenerateStream synthesis_prompt)
                 :: (SYield <$> spoken texts)
                 ++ [SPersist cid
                       (set_history conv
                          (hist ++ [("gemini", "user", DEEP_DIVE_TURN);
                                    ("gemini", "model", concat_text texts)]))])%list;
       escaping := None |}.
Proof.
  intros qp sp Hgen Hre Hjson Hsearch Hstream Hcommit.
  unfold generate_deep_dive_response. cbn zeta. fold qp. rewrite Hgen.
  unfold gcall. cbn [gbind]. rewrite Hre. cbn [gbind gret]. rewrite Hjson.
  unfold gyield. cbn [gbind]. rewrite (search_web_ok w results queries Hsearch).
  cbn [gbind]. fold sp. rewrite Hstream. cbn [gbind]. rewrite relay_ok.
  rewrite Hcommit. cbn. done.
Qed.

(** X15. A deep dive read to the end when every collaborator answers and
    the commit succeeds. The client receives, in order, the gathering
    notice, one search notice per query, the synthesis notice and the
    chunks of the brief, the empty ones left out. The external calls are
    the query generation on the first 4000 characters of the document,
    one search per query in the order of the queries, and one streamed
    synthesis, whose prompt holds the same excerpt and the snippets of the
    first three results of each search. The row of the conversation
    changes only in its history, which gains the fixed user entry and the
    brief. *)
Theorem deep_dive_turn_recorded `{Platform} (w : World) (db : DB) (req : TurnRequest)
    (cid : string) (conv : Conversation) (doc_store : DocumentStore)
    (pages : list string) (text json : string) (queries : list string)
    (results : string -> list (option string)) (texts : list string) :
  truthy_opt (SERPER_API_KEY w) = true ->
  conversation_id req = Some cid ->
  conversations db !! cid = Some conv ->
  truthy_opt (doc_hash conv) = true ->
  documents db !! default "" (doc_hash conv) = Some doc_store ->
  page_contents (chunks doc_store) = Ok pages ->
  let excerpt := prefix 4000 (join BACKSLASH_N pages) in
  let synthesis_prompt := SynthesisPrompt excerpt (web_context_of results queries "") in
  generate_content w (QueryGenPrompt excerpt) = Ok text ->
  re_search_array text = Some json ->
  json_loads json = Ok queries ->
  (forall query, query ∈ queries -> search_organic w query = Ok (results query)) ->
  generate_content_stream w synthesis_prompt = Ok (Ok <$> texts) ->
  stream_commit_exn w = None ->
  let s := serve Drain (deep_dive w db req) in
  delivered s
  = (GATHERING :: (search_notice <$> queries) ++ SYNTHESIZING :: spoken texts)%list
  /\ ended s = Some Completed
  /\ calls s
     = (EvGenerate (QueryGenPrompt excerpt) :: (EvSearch <$> queries)
        ++ [EvGenerateStream synthesis_prompt])%list
  /\ db_final s
     = write_conversation db cid
         (set_history conv
            (chat_history conv ++ [("gemini", "user", DEEP_DIVE_TURN);
                                    ("gemini", "model", concat_text texts)])).
Proof.
  intros Hkey Hcid Hconv Hbound Hdoc Hpages excerpt sp Hgen Hre Hjson Hsearch
    Hstream Hcommit s.
  subst s sp excerpt.
  rewrite (deep_dive_serves w db req cid conv doc_store pages) by done.
  rewrite serve_drain.
  rewrite (generate_deep_dive_response_ok w cid conv _ _ text json queries results texts)
    by done.
  cbn [steps escaping delivered ended calls db_final yields events_of persisted app].
  rewrite !yields_app, !events_of_app, !persisted_app.
  cbn [yields events_of persisted app].
  rewrite !yields_app, !events_of_app, !persisted_app.
  rewrite yields_search_steps, events_of_search_steps, yields_fmap, events_of_yields.
  rewrite (persisted_free (search_steps queries)) by apply persist_free_search_steps.
  cbn [yields events_of persisted app].
  rewrite (persisted_free (SYield <$> spoken texts)).
  2:{ apply Forall_fmap, Forall_forall. done. }
  by rewrite !app_nil_r.
Qed.

Lemma deep_dive_turn_recorded_witness :
  let s := serve Drain (@deep_dive demo_platform demo_world studied_db
                          {| conversation_id := Some "c-4"; message := None |}) in
  delivered s
  = [GATHERING; search_notice "kortex risks"; SYNTHESIZING; "Hello"; " there"]
  /\ calls s
     = [EvGenerate (QueryGenPrompt "legacy text"); EvSearch "kortex risks";
        EvGenerateStream (SynthesisPrompt "legacy text" "s1<br>s2<br>")]
  /\ chat_history <$> conversations (db_final s) !! "c-4"
     = Some [("gemini", "user", DEEP_DIVE_TURN); ("gemini", "model", "Hello there")].
Proof.
  destruct (@deep_dive_turn_recorded demo_platform demo_world studied_db
              {| conversation_id := Some "c-4"; message := None |} "c-4"
              {| title := "legacy.pdf"; created_at := 1670000000;
                 doc_hash := Some "md5:legacy"; chat_history := [];
                 tutor_curriculum := None |}
              {| chunks := [ChunkDocument "legacy text"]; faiss_index := "legacy" |}
              ["legacy text"] "Queries: [kortex risks]" "[kortex risks]"
              ["kortex risks"]
              (fun _ => [Some "s1"; None; Some "s2"; Some "s3"; Some "s4"])
              ["Hello"; ""; " there"])
    as (Hd & _ & Hc & Hdb); try reflexivity.
  cbv zeta. rewrite Hd, Hc, Hdb. by vm_compute.
Defined.

(** The generator of a deep dive whose query generation gives no usable
    list of queries. *)
Lemma generate_deep_dive_response_no_queries `{Platform} (w : World) cid conv ctx hist e :
  let query_gen_prompt := QueryGenPrompt (prefix 4000 ctx) in
  generate_content w query_gen_prompt = Exn e
  \/ (exists text, generate_content w query_gen_prompt = Ok text
                   /\ re_search_array text = None
                   /\ e = "AI failed to generate search queries.")
  \/ (exists text json, generate_content w query_gen_prompt = Ok text
                        /\ re_search_array text = Some json
                        /\ json_loads json = Exn e) ->
  generate_deep_dive_response w cid conv ctx hist
  = {| steps := [SCall (EvGenerate query_gen_prompt); SYield (DEEP_DIVE_ERROR +:+ e)];
       escaping := None |}.
Proof.
  intros qp [Hgen|[(text & Hgen & Hre & ->)|(text & json & Hgen & Hre & Hjson)]];
    unfold generate_deep_dive_response; cbn zeta; fold qp; rewrite Hgen;
    unfold gcall; cbn [gbind]; [done|..]; rewrite Hre; cbn [gbind gret graise]; [done|].
  rewrite Hjson. done.
Qed.

(** X16. A deep dive whose query generation gives no usable list of
    queries, because the model call fails, or its reply holds no bracketed
    list, or the bracketed text is not a JSON list: the stream consists of
    the single error chunk naming the cause, it completes, no search and no
    synthesis is made, and the tables are as before. *)
Theorem deep_dive_without_queries `{Platform} (w : World) (db : DB) (req : TurnRequest)
    (cid : string) (conv : Conversation) (doc_store : DocumentStore)
    (pages : list string) (e : string) :
  truthy_opt (SERPER_API_KEY w) = true ->
  conversation_id req = Some cid ->
  conversations db !! cid = Some conv ->
  truthy_opt (doc_hash conv) = true ->
  documents db !! default "" (doc_hash conv) = Some doc_store ->
  page_contents (chunks doc_store) = Ok pages ->
  let query_gen_prompt := QueryGenPrompt (prefix 4000 (join BACKSLASH_N pages)) in
  generate_content w query_gen_prompt = Exn e
  \/ (exists text, generate_content w query_gen_prompt = Ok text
                   /\ re_search_array text = None
                   /\ e = "AI failed to generate search queries.")
  \/ (exists text json, generate_content w query_gen_prompt = Ok text
                        /\ re_search_array text = Some json
                        /\ json_loads json = Exn e) ->
  let s := serve Drain (deep_dive w db req) in
  delivered s = [DEEP_DIVE_ERROR +:+ e]
  /\ ended s = Some Completed
  /\ calls s = [EvGenerate query_gen_prompt]
  /\ db_final s = db.
Proof.
  intros Hkey Hcid Hconv Hbound Hdoc Hpages qp Hcause s. subst s qp.
  rewrite (deep_dive_serves w db req cid conv doc_store pages) by done.
  rewrite serve_drain.
  by rewrite (generate_deep_dive_response_no_queries w cid conv _ _ e Hcause).
Qed.

Lemma deep_dive_without_queries_witness :
  let w := {| SERPER_API_KEY := Some "serper-key";
              pdfplumber_pages := fun b => Ok [Some b];
              ocr_pages := fun _ => Ok [];
              docx_paragraphs := fun b => Ok [b];
              faiss_from_texts := fun _ => Ok "faiss-bytes";
              faiss_deserialize_exn := fun _ => None;
              uuid4 := "c-new"; now := 1700000000;
              commit_exn := None; stream_commit_exn := None;
              llm_invoke := fun m => Ok m;
              chain_call := fun _ q _ => Ok (Some q);
              generate_content := fun _ => Ok "I would search for ] kortex [ first";
              generate_content_stream := fun _ => Ok [Ok "Hello"];
              search_organic := fun _ => Ok [] |} in
  let s := serve Drain (@deep_dive demo_platform w studied_db
                          {| conversation_id := Some "c-4"; message := None |}) in
  delivered s = [DEEP_DIVE_ERROR +:+ "AI failed to generate search queries."]
  /\ ended s = Some Completed
  /\ calls s = [EvGenerate (QueryGenPrompt "legacy text")]
  /\ db_final s = studied_db.
Proof.
  intros w.
  apply (@deep_dive_without_queries demo_platform w studied_db
           {| conversation_id := Some "c-4"; message := None |} "c-4"
           {| title := "legacy.pdf"; created_at := 1670000000;
              doc_hash := Some "md5:legacy"; chat_history := [];
              tutor_curriculum := None |}
           {| chunks := [ChunkDocument "legacy text"]; faiss_index := "legacy" |}
           ["legacy text"] "AI failed to generate search queries.");
    try reflexivity.
  right. left. exists "I would search for ] kortex [ first". by vm_compute.
Defined.

(** The generator of a deep dive one of whose searches fails. *)
Lemma generate_deep_dive_response_search_fails `{Platform} (w : World) cid conv ctx hist
    text json done_queries query left_queries results e :
  let query_gen_prompt := QueryGenPrompt (prefix 4000 ctx) in
  generate_content w query_gen_prompt = Ok text ->
  re_search_array text = Some json ->
  json_loads json = Ok (done_queries ++ query :: left_queries)%list ->
  (forall q, q ∈ done_queries -> search_organic w q = Ok (results q)) ->
  search_organic w query = Exn e ->
  generate_deep_dive_response w cid conv ctx hist
  = {| steps := (SCall (EvGenerate query_gen_prompt) :: SYield GATHERING
                 :: search_steps done_queries
                 ++ [SYield (search_notice query); SCall (EvSearch query);
                     SYield (DEEP_DIVE_ERROR +:+ e)])%list;
       escaping := None |}.
Proof.
  intros qp Hgen Hre Hjson Hsearch Hfail.
  unfold generate_deep_dive_response. cbn zeta. fold qp. rewrite Hgen.
  unfold gcall. cbn [gbind]. rewrite Hre. cbn [gbind gret]. rewrite Hjson.
  unfold gyield. cbn [gbind].
  rewrite (search_web_fails w results done_queries query left_queries e Hsearch Hfail).
  cbn. by rewrite <- app_assoc.
Qed.

(** X17. A deep dive one of whose searches fails stops at that search:
    the client receives the gathering notice, the search notices up to
    and including the failing query, and the error chunk; the queries
    after it are never searched, no synthesis is asked for, the stream
    completes, and the tables are as before. *)
Theorem deep_dive_search_failure `{Platform} (w : World) (db : DB) (req : TurnRequest)
    (cid : string) (conv : Conversation) (doc_store : DocumentStore)
    (pages : list string) (text json : string)
    (done_queries : list string) (query : string) (left_queries : list string)
    (results : string -> list (option string)) (e : string) :
  truthy_opt (SERPER_API_KEY w) = true ->
  conversation_id req = Some cid ->
  conversations db !! cid = Some conv ->
  truthy_opt (doc_hash conv) = true ->
  documents db !! default "" (doc_hash conv) = Some doc_store ->
  page_contents (chunks doc_store) = Ok pages ->
  let query_gen_prompt := QueryGenPrompt (prefix 4000 (join BACKSLASH_N pages)) in
  generate_content w query_gen_prompt = Ok text ->
  re_search_array text = Some json ->
  json_loads json = Ok (done_queries ++ query :: left_queries)%list ->
  (forall q, q ∈ done_queries -> search_organic w q = Ok (results q)) ->
  search_organic w query = Exn e ->
  let s := serve Drain (deep_dive w db req) in
  delivered s
  = (GATHERING :: (search_notice <$> done_queries)
     ++ [search_notice query; DEEP_DIVE_ERROR +:+ e])%list
  /\ ended s = Some Completed
  /\ calls s
     = (EvGenerate query_gen_prompt :: (EvSearch <$> done_queries)
        ++ [EvSearch query])%list
  /\ db_final s = db.
Proof.
  intros Hkey Hcid Hconv Hbound Hdoc Hpages qp Hgen Hre Hjson Hsearch Hfail s.
  subst s qp.
  rewrite (deep_dive_serves w db req cid conv doc_store pages) by done.
  rewrite serve_drain.
  rewrite (generate_deep_dive_response_search_fails w cid conv _ _ text json
             done_queries query left_queries results e) by done.
  cbn [steps escaping delivered ended calls db_final yields events_of persisted app].
  rewrite !yields_app, !events_of_app, !persisted_app.
  rewrite yields_search_steps, events_of_search_steps.
  rewrite (persisted_free (search_steps done_queries))
    by apply persist_free_search_steps.
  done.
Qed.

Lemma deep_dive_search_failure_witness :
  let p := {| md5_hexdigest := fun b => "md5:" +:+ b;
              secure_filename := fun s => s;
              splitext_lower := fun s => substring (String.length s - 4) 4 s;
              split_text := fun _ _ text => [text];
              json_loads := fun _ => Ok ["kortex risks"; "offline"; "kortex rivals"];
              uuid_in := fun text => Ok text |} in
  let w := {| SERPER_API_KEY := Some "serper-key";
              pdfplumber_pages := fun b => Ok [Some b];
              ocr_pages := fun _ => Ok [];
              docx_paragraphs := fun b => Ok [b];
              faiss_from_texts := fun _ => Ok "faiss-bytes";
              faiss_deserialize_exn := fun _ => None;
              uuid4 := "c-new"; now := 1700000000;
              commit_exn := None; stream_commit_exn := None;
              llm_invoke := fun m => Ok m;
              chain_call := fun _ q _ => Ok (Some q);
              generate_content := fun _ => Ok "[three queries]";
              generate_content_stream := fun _ => Ok [Ok "Hello"];
              search_organic := fun q =>
                if String.eqb q "offline" then Exn "503 Server Error"
                else Ok [Some "s1"] |} in
  let s := serve Drain (@deep_dive p w studied_db
                          {| conversation_id := Some "c-4"; message := None |}) in
  delivered s
  = [GATHERING; search_notice "kortex risks"; search_notice "offline";
     DEEP_DIVE_ERROR +:+ "503 Server Error"]
  /\ ended s = Some Completed
  /\ calls s
     = [EvGenerate (QueryGenPrompt "legacy text"); EvSearch "kortex risks";
        EvSearch "offline"]
  /\ db_final s = studied_db.
Proof.
  intros p w.
  apply (@deep_dive_search_failure p w studied_db
           {| conversation_id := Some "c-4"; message := None |} "c-4"
           {| title := "legacy.pdf"; created_at := 1670000000;
              doc_hash := Some "md5:legacy"; chat_history := [];
              tutor_curriculum := None |}
           {| chunks := [ChunkDocument "legacy text"]; faiss_index := "legacy" |}
           ["legacy text"] "[three queries]" "[three queries]"
           ["kortex risks"] "offline" ["kortex rivals"] (fun _ => [Some "s1"])
           "503 Server Error");
    try reflexivity.
  intros q Hq. apply list_elem_of_singleton in Hq. by subst q.
Defined.

(** ** Documents stored by [upload] *)

Lemma page_contents_plain (texts : list string) :
  texts <> [] ->
  page_contents (ChunkStr <$> texts) = Exn "'str' object has no attribute 'page_content'".
Proof. by destruct texts. Qed.

Lemma str_items_plain (texts : list string) (i : nat) :
  str_items i (ChunkStr <$> texts) = Ok texts.
Proof.
  revert i. induction texts as [|text texts IH]; intros i; cbn; [done|]. by rewrite IH.
Qed.

Lemma tutor_document_context_plain (texts : list string) :
  tutor_document_context (ChunkStr <$> texts) = Ok (join BACKSLASH_N texts).
Proof.
  destruct texts as [|text texts]; [done|].
  pose proof (str_items_plain (text :: texts) 0) as Hitems.
  rewrite fmap_cons in *. unfold tutor_document_context. by rewrite Hitems.
Qed.

Lemma upload_plain_chunks `{Platform} (w : World) (db : DB) (req : UploadRequest) :
  plain_chunks db -> plain_chunks (db_after (upload w db req)).
Proof.
  intros Hplain.
  destruct (upload_run w db req) as
    [ | | |name content t docs cid c is_new Hf _ Hing Hatt Hfresh]; cbn; [done..|].
  unfold plain_chunks in *. cbn.
  destruct (ingest_next _ _ _ _ _ _ _ Hing)
    as [(_ & _ & ->)|(Hd & _ & _ & index & ->)]; [done|].
  apply map_Forall_insert_2; [|done]. by eexists.
Qed.

Lemma handle_plain_chunks `{Platform} (w : World) (db : DB) (r : request) :
  plain_chunks db -> plain_chunks (handle w db r).
Proof.
  intros Hplain. pose proof (handle_effect w db r) as Heff.
  destruct r as [req|req|req k|req k|req k].
  - by destruct Heff as [->|(row & _ & _ & _ & ->)].
  - by apply upload_plain_chunks.
  - by destruct Heff as [->|(cid & conv & conv' & _ & _ & _ & ->)].
  - by destruct Heff as [->|(cid & conv & conv' & _ & _ & _ & ->)].
  - by destruct Heff as [->|(cid & conv & conv' & _ & _ & _ & ->)].
Qed.

Lemma handle_all_plain_chunks `{Platform} (rs : list (World * request)) (db : DB) :
  plain_chunks db -> plain_chunks (handle_all rs db).
Proof.
  revert db. induction rs as [|[w r] rs IH]; intros db Hplain; cbn; [done|].
  by apply IH, handle_plain_chunks.
Qed.

(** X18. No document that came in through [upload] can be deep-dived.
    On tables whose documents were all stored by [upload] (the empty
    tables, for one), after any sequence of requests to any of the routes,
    a deep dive on a conversation bound to a document with at least one
    chunk is answered with status 500 and the message of the attribute
    error on [str], whatever the client and the collaborators do: nothing
    is streamed, no collaborator is called and the tables are unchanged.
    The tutor flow reads the same chunks as the text they join to. *)
Theorem uploaded_document_fails_deep_dive `{Platform} (rs : list (World * request))
    (db0 : DB) (w : World) (req : TurnRequest) (c : consumer)
    (cid : string) (conv : Conversation) (doc_store : DocumentStore) :
  plain_chunks db0 ->
  let db := handle_all rs db0 in
  truthy_opt (SERPER_API_KEY w) = true ->
  conversation_id req = Some cid ->
  conversations db !! cid = Some conv ->
  truthy_opt (doc_hash conv) = true ->
  documents db !! default "" (doc_hash conv) = Some doc_store ->
  chunks doc_store <> [] ->
  let s := serve c (deep_dive w db req) in
  status s = 500
  /\ error s = Some "Analysis failed: 'str' object has no attribute 'page_content'"
  /\ delivered s = [] /\ calls s = [] /\ db_final s = db
  /\ exists texts, chunks doc_store = ChunkStr <$> texts
                   /\ tutor_document_context (chunks doc_store)
                      = Ok (join BACKSLASH_N texts).
Proof.
  intros Hplain db Hkey Hcid Hconv Hbound Hdoc Hne s.
  pose proof (handle_all_plain_chunks rs db0 Hplain) as Hall. fold db in Hall.
  unfold plain_chunks in Hall. rewrite map_Forall_lookup in Hall.
  destruct (Hall _ _ Hdoc) as (texts & Htexts).
  assert (texts <> []) as Htne by (intros ->; by rewrite Htexts in Hne).
  subst s. unfold deep_dive, finish. rewrite Hkey, Hcid. cbn. rewrite Hconv. cbn.
  rewrite Hbound. cbn. rewrite Hdoc. cbn. rewrite Htexts.
  rewrite (page_contents_plain texts Htne). cbn. split_and!; try done.
  exists texts. split; [done|]. apply tutor_document_context_plain.
Qed.

Lemma uploaded_document_fails_deep_dive_witness :
  let db := @handle_all demo_platform
              [(demo_world, Upload {| file := Some ("fox.pdf", LONG_TEXT);
                                      X_Conversation_ID := None |})] empty_db in
  let s := serve Drain (@deep_dive demo_platform demo_world db
                          {| conversation_id := Some "c-new"; message := None |}) in
  status s = 500
  /\ error s = Some "Analysis failed: 'str' object has no attribute 'page_content'"
  /\ calls s = [] /\ db_final s = db.
Proof.
  destruct (@uploaded_document_fails_deep_dive demo_platform
              [(demo_world, Upload {| file := Some ("fox.pdf", LONG_TEXT);
                                      X_Conversation_ID := None |})] empty_db
              demo_world {| conversation_id := Some "c-new"; message := None |} Drain
              "c-new"
              {| title := "fox.pdf"; created_at := 1700000000;
                 doc_hash := Some ("md5:" +:+ LONG_TEXT); chat_history := [];
                 tutor_curriculum := None |}
              {| chunks := [ChunkStr (LONG_TEXT +:+ BACKSLASH_N)];
                 faiss_index := "faiss-bytes" |})
    as (Hs & He & _ & Hc & Hdb & _);
    [apply map_Forall_empty|by vm_compute..|].
  by split_and!.
Defined.

(** ** A chat turn, step by step *)

(** The handler of [chat] on a conversation without a document: nothing
    is called, nothing is committed. *)
Lemma chat_serves_plain (w : World) (db : DB) (req : TurnRequest) cid msg conv :
  conversation_id req = Some cid -> message req = Some msg ->
  truthy cid = true -> truthy msg = true ->
  conversations db !! cid = Some conv ->
  truthy_opt (doc_hash conv) = false ->
  chat w db req
  = {| resp := Stream (generate_general w cid conv msg (chat_history conv));
       db_after := db; trace := [] |}.
Proof.
  intros Hcid Hmsg Htc Htm Hconv Hplain.
  unfold chat, finish. rewrite Hcid, Hmsg, Htc, Htm. cbn. rewrite Hconv.
  destruct (doc_hash conv) as [h|]; [|done]. cbn in Hplain. by rewrite Hplain.
Qed.

(** The handler of [chat] on a conversation with a document whose index
    can be loaded. *)
Lemma chat_serves_document (w : World) (db : DB) (req : TurnRequest)
    cid msg conv doc_store :
  conversation_id req = Some cid -> message req = Some msg ->
  truthy cid = true -> truthy msg = true ->
  conversations db !! cid = Some conv ->
  truthy_opt (doc_hash conv) = true ->
  documents db !! default "" (doc_hash conv) = Some doc_store ->
  faiss_deserialize_exn w (faiss_index doc_store) = None ->
  chat w db req
  = {| resp := Stream (generate_doc_chat w cid conv doc_store msg (chat_history conv));
       db_after := db; trace := [] |}.
Proof.
  intros Hcid Hmsg Htc Htm Hconv Hbound Hdoc Hfaiss.
  unfold chat, finish. rewrite Hcid, Hmsg, Htc, Htm. cbn. rewrite Hconv.
  destruct (doc_hash conv) as [h|]; [|done]. cbn in Hbound, Hdoc.
  by rewrite Hbound, Hdoc, Hfaiss.
Qed.

(** X19. A chat turn read to the end when the model answers and the
    commit succeeds. The answer is delivered as one chunk, whatever it is
    (also when it is empty); exactly one collaborator is called - the chat
    model on the bare message when the conversation has no document, the
    retrieval chain on the message and the plain-channel pairs of the
    history when it has one, a reply without an answer being replaced by
    the fixed apology - and the row of the conversation changes only in
    its history, which gains one entry on the plain channel holding the
    message and the answer. *)
Theorem chat_turn_recorded (w : World) (db : DB) (req : TurnRequest)
    (cid msg answer : string) (conv : Conversation) (call : event) :
  conversation_id req = Some cid -> message req = Some msg ->
  truthy cid = true -> truthy msg = true ->
  conversations db !! cid = Some conv ->
  (truthy_opt (doc_hash conv) = false
   /\ llm_invoke w msg = Ok answer
   /\ call = EvLLM msg)
  \/ (exists doc_store reply,
        truthy_opt (doc_hash conv) = true
        /\ documents db !! default "" (doc_hash conv) = Some doc_store
        /\ faiss_deserialize_exn w (faiss_index doc_store) = None
        /\ chain_call w (faiss_index doc_store) msg
             (langchain_history_format (chat_history conv)) = Ok reply
        /\ answer = default NO_ANSWER reply
        /\ call = EvChain msg (langchain_history_format (chat_history conv))) ->
  stream_commit_exn w = None ->
  let s := serve Drain (chat w db req) in
  delivered s = [answer]
  /\ ended s = Some Completed
  /\ calls s = [call]
  /\ db_final s
     = write_conversation db cid
         (set_history conv (chat_history conv ++ [("langchain", msg, answer)])).
Proof.
  intros Hcid Hmsg Htc Htm Hconv Hmode Hcommit s. subst s.
  destruct Hmode as [(Hplain & Hllm & ->)
                    |(doc_store & reply & Hbound & Hdoc & Hfaiss & Hchain & -> & ->)].
  - rewrite (chat_serves_plain w db req cid msg conv) by done.
    rewrite serve_drain. unfold generate_general. by rewrite Hllm, Hcommit.
  - rewrite (chat_serves_document w db req cid msg conv doc_store) by done.
    rewrite serve_drain. unfold generate_doc_chat. by rewrite Hchain, Hcommit.
Qed.

Lemma chat_turn_recorded_witness :
  let s := serve Drain (chat demo_world studied_db
                          {| conversation_id := Some "c-1"; message := Some "why?" |}) in
  delivered s = ["answer to why?"]
  /\ calls s = [EvChain "why?" [("what is it?", "a fox")]]
  /\ chat_history <$> conversations (db_final s) !! "c-1"
     = Some [("langchain", "what is it?", "a fox");
             ("gemini", "user", "teach me");
             ("gemini", "model", "gladly");
             ("langchain", "why?", "answer to why?")].
Proof.
  destruct (chat_turn_recorded demo_world studied_db
              {| conversation_id := Some "c-1"; message := Some "why?" |}
              "c-1" "why?" "answer to why?"
              {| title := "old.pdf"; created_at := 1600000000;
                 doc_hash := Some "md5:old";
                 chat_history := [("langchain", "what is it?", "a fox");
                                  ("gemini", "user", "teach me");
                                  ("gemini", "model", "gladly")];
                 tutor_curriculum := Some "1. Foxes" |}
              (EvChain "why?" [("what is it?", "a fox")]))
    as (Hd & _ & Hc & Hdb); try reflexivity.
  { right. exists {| chunks := [ChunkStr "old text"]; faiss_index := "old" |},
                  (Some "answer to why?"). by vm_compute. }
  cbv zeta. rewrite Hd, Hc, Hdb. by vm_compute.
Defined.

(** ** The bracketed list in the reply of the query generation *)

Lemma after_first_open_spec (s r : string) :
  after_first_open s = Some r
  <-> exists before, s = before +:+ String "[" r /\ occurs "[" before = false.
Proof.
  induction s as [|c s IH]; cbn [after_first_open].
  - split; [done|]. intros ([|c b] & Heq & _); discriminate Heq.
  - destruct (Ascii.eqb_spec c "[") as [->|Hc].
    + split.
      * intros [= ->]. by exists "".
      * intros ([|c b] & Heq & Hocc).
        -- by injection Heq as ->.
        -- rewrite append_cons in Heq. injection Heq as <- _.
           cbn in Hocc. discriminate Hocc.
    + rewrite IH. split.
      * intros (b & -> & Hocc). exists (String c b). split; [done|].
        cbn [occurs]. rewrite Hocc. by destruct (Ascii.eqb_spec c "[").
      * intros ([|c' b] & Heq & Hocc).
        -- injection Heq as -> _. done.
        -- rewrite append_cons in Heq. injection Heq as <- ->.
           cbn [occurs] in Hocc. apply orb_false_iff in Hocc as [_ Hocc]. eauto.
Qed.

Lemma through_last_close_none (s : string) :
  through_last_close s = None <-> occurs "]" s = false.
Proof.
  induction s as [|c s IH]; cbn [through_last_close occurs]; [done|].
  destruct (through_last_close s) as [r|].
  - split; [done|]. intros [_ Hocc]%orb_false_iff. by apply IH in Hocc.
  - rewrite (proj1 IH eq_refl), orb_false_r.
    destruct (Ascii.eqb_spec c "]"); split; done.
Qed.

Lemma through_last_close_spec (s r : string) :
  through_last_close s = Some r
  <-> exists inner after,
        s = inner +:+ String "]" after /\ occurs "]" after = false
        /\ r = inner +:+ "]".
Proof.
  revert r. induction s as [|c s IH]; intros r; cbn [through_last_close].
  - split; [done|]. intros ([|c b] & after & Heq & _); discriminate Heq.
  - destruct (through_last_close s) as [r'|] eqn:Hrec.
    + destruct (proj1 (IH r') eq_refl) as (inner & after & -> & Hocc & ->). split.
      * intros [= <-]. exists (String c inner), after. by rewrite !append_cons.
      * intros ([|c' b] & after' & Heq & Hocc' & ->).
        -- injection Heq as -> <-. apply through_last_close_none in Hocc'.
           congruence.
        -- rewrite append_cons in Heq. injection Heq as <- Heq.
           rewrite append_cons. do 2 f_equal.
           assert (Some (inner +:+ "]") = Some (b +:+ "]")) as Hb
             by (apply IH; eauto).
           congruence.
    + apply through_last_close_none in Hrec.
      destruct (Ascii.eqb_spec c "]") as [->|Hc]; split.
      * intros [= <-]. by exists "", s.
      * intros ([|c' b] & after' & Heq & Hocc' & ->).
        -- done.
        -- rewrite append_cons in Heq. injection Heq as <- ->.
           exfalso. clear -Hrec. induction b as [|x b IHb].
           ++ cbn in Hrec. discriminate Hrec.
           ++ rewrite append_cons in Hrec. cbn [occurs] in Hrec.
              apply orb_false_iff in Hrec as [_ Hrec]. auto.
      * done.
      * intros ([|c' b] & after' & Heq & Hocc' & ->).
        -- by injection Heq as -> _.
        -- rewrite append_cons in Heq. injection Heq as <- ->.
           exfalso. clear -Hrec. induction b as [|x b IHb].
           ++ cbn in Hrec. discriminate Hrec.
           ++ rewrite append_cons in Hrec. cbn [occurs] in Hrec.
              apply orb_false_iff in Hrec as [_ Hrec]. auto.
Qed.

(** X20. The text taken from the reply of the query generation is the
    widest bracketed span: the reply has a span exactly when an opening
    bracket is followed, anywhere later, by a closing one, and the span
    runs from the first opening bracket of the reply to its last closing
    bracket, line breaks and further brackets included. *)
Theorem re_search_array_widest (text m : string) :
  re_search_array text = Some m
  <-> exists before inner after,
        text = before +:+ String "[" inner +:+ String "]" after
        /\ occurs "[" before = false
        /\ occurs "]" after = false
        /\ m = String "[" inner +:+ "]".
Proof.
  unfold re_search_array. split.
  - destruct (after_first_open text) as [s|] eqn:Hopen; [|done].
    apply after_first_open_spec in Hopen as (before & -> & Hb).
    destruct (through_last_close s) as [r|] eqn:Hclose; [|done].
    apply through_last_close_spec in Hclose as (inner & after & -> & Ha & ->).
    intros [= <-]. exists before, inner, after. by rewrite append_cons.
  - intros (before & inner & after & -> & Hb & Ha & ->).
    assert (after_first_open (before +:+ String "[" inner +:+ String "]" after)
            = Some (inner +:+ String "]" after)) as ->.
    { apply after_first_open_spec. by exists before. }
    assert (through_last_close (inner +:+ String "]" after) = Some (inner +:+ "]")) as ->.
    { apply through_last_close_spec. eauto. }
    by rewrite append_cons.
Qed.

(** ** Uploads that are refused *)

(** X21. A file that cannot be read is reported as unreadable, not as a
    server error. When the bytes are not cached and pdfplumber cannot open
    the PDF, or no page of it has text and the OCR fails, or the DOCX
    cannot be opened, the extracted text is empty and the upload is
    answered with status 400 and the "no readable text" error; extraction
    is the only work done and the tables are unchanged. *)
Theorem upload_extraction_failure `{Platform} (w : World) (db : DB)
    (req : UploadRequest) (client_filename file_content e : string) :
  file req = Some (client_filename, file_content) ->
  truthy client_filename = true ->
  documents db !! md5_hexdigest file_content = None ->
  let extension := splitext_lower (secure_filename client_filename) in
  (extension = ".pdf" /\ pdfplumber_pages w file_content = Exn e)
  \/ (extension = ".pdf"
      /\ (exists pages, pdfplumber_pages w file_content = Ok pages
                        /\ existsb truthy_opt pages = false)
      /\ ocr_pages w file_content = Exn e)
  \/ (extension = ".docx" /\ docx_paragraphs w file_content = Exn e) ->
  upload w db req
  = {| resp := Json 400 (Error UNREADABLE); db_after := db;
       trace := [EvExtract (secure_filename client_filename) ""] |}.
Proof.
  intros Hfile Hname Hmiss extension Hfail. subst extension.
  destruct req as [f hdr]. cbn in Hfile. subst f.
  assert (get_document_text w (secure_filename client_filename) file_content = "")
    as Htext.
  { unfold get_document_text.
    destruct Hfail as [[-> Hopen]|[(-> & (pages & Hopen & Hblank) & Hocr)|[-> Hopen]]].
    - change (".pdf" =? ".pdf")%string with true. cbn match. by rewrite Hopen.
    - change (".pdf" =? ".pdf")%string with true. cbn match. rewrite Hopen.
      rewrite pdf_page_text_strip, Hblank. by rewrite Hocr.
    - change (".docx" =? ".pdf")%string with false.
      change (".docx" =? ".docx")%string with true. cbn match. by rewrite Hopen. }
  apply upload_ingest_return; [done|].
  destruct (ingest_miss w db (secure_filename client_filename) file_content _ Hmiss)
    as [[_ Heq]|[(Hlong & _)|(Hlong & _)]];
    rewrite Htext in *; [done|discriminate..].
Qed.

Lemma upload_extraction_failure_witness :
  let w := {| SERPER_API_KEY := None;
              pdfplumber_pages := fun _ => Ok [None; Some ""];
              ocr_pages := fun _ => Exn "tesseract is not installed";
              docx_paragraphs := fun b => Ok [b];
              faiss_from_texts := fun _ => Ok "faiss-bytes";
              faiss_deserialize_exn := fun _ => None;
              uuid4 := "c-new"; now := 1700000000;
              commit_exn := None; stream_commit_exn := None;
              llm_invoke := fun m => Ok m;
              chain_call := fun _ q _ => Ok (Some q);
              generate_content := fun _ => Ok "[]";
              generate_content_stream := fun _ => Ok [];
              search_organic := fun _ => Ok [] |} in
  @upload demo_platform w studied_db
    {| file := Some ("scan.pdf", LONG_TEXT); X_Conversation_ID := Some "c-2" |}
  = {| resp := Json 400 (Error UNREADABLE); db_after := studied_db;
       trace := [EvExtract "scan.pdf" ""] |}.
Proof.
  intros w.
  apply (@upload_extraction_failure demo_platform w studied_db _ "scan.pdf" LONG_TEXT
           "tesseract is not installed"); try reflexivity.
  right. left. split_and!; [reflexivity| |reflexivity].
  exists [None; Some ""]. split; reflexivity.
Defined.

(** X5. An upload is all or nothing: whenever it is answered with
    anything but status 200 - no file, unreadable text, a failing
    embedding backend, a key that is taken, a failing commit - neither a
    document nor a conversation is stored or changed, also when the text
    had already been extracted and embedded. *)
Theorem upload_refused_stores_nothing `{Platform} (w : World) (db : DB)
    (req : UploadRequest) :
  status_of (resp (upload w db req)) <> 200 ->
  db_after (upload w db req) = db.
Proof.
  intros Hstatus.
  destruct (upload_run w db req) as [ | | |name content t docs cid c is_new]; cbn in *;
    done.
Qed.

(** A second new conversation under an id that is taken. *)
Lemma upload_refused_stores_nothing_witness :
  let db := @handle_all demo_platform
              [(demo_world, Upload {| file := Some ("fox.pdf", LONG_TEXT);
                                      X_Conversation_ID := None |})] empty_db in
  let req := {| file := Some ("dog.pdf", LONG_TEXT +:+ LONG_TEXT);
                X_Conversation_ID := None |} in
  status_of (resp (@upload demo_platform demo_world db req)) = 500
  /\ trace (@upload demo_platform demo_world db req)
     = [EvExtract "dog.pdf" (LONG_TEXT +:+ LONG_TEXT +:+ BACKSLASH_N); EvChunk; EvEmbed]
  /\ db_after (@upload demo_platform demo_world db req) = db.
Proof.
  intros db req. split_and!; [by vm_compute..|].
  apply (@upload_refused_stores_nothing demo_platform demo_world db req).
  by vm_compute.
Defined.
